(** * PubChemBot: the conversation layer of [main.py], embedded and verified

    The bot of [main.py] is a python-telegram-bot application: module level
    dictionaries [SEARCH_HISTORY] and [FAVORITES], a [PubChemClient] class
    that talks to the PubChem REST service, a set of handler coroutines and,
    in [main], the wiring of these handlers into two [ConversationHandler]s,
    a command handler, a message handler and a callback-query handler.

    The embedding keeps that shape.  Python values that the code computes
    with are data ([pyval], [compound], [history_item]); the network (PubChem,
    image download, the Telegram Bot API) is an oracle record [env]; the
    handlers are written in a small state-and-exception monad over [world],
    which holds the dictionaries, the per-user [context.user_data], the
    conversation tables of the two [ConversationHandler]s and the log of the
    Bot API calls made.  The dispatch of [Application.process_update] and of
    [ConversationHandler] follows python-telegram-bot (v20 and later): a
    conversation belongs to a chat and a user, [context.user_data] to a
    user. *)

From Stdlib Require Import ZArith String Ascii List Bool Lia.
From Stdlib Require Import Floats.SpecFloat DecimalString.
From stdpp Require Import gmap strings.

Open Scope string_scope.
Open Scope Z_scope.

(* ===================================================================== *)
(** * Python values and builtins                                           *)
(* ===================================================================== *)

Module Py.

(** IEEE 754 binary64, the representation of a Python [float]. *)
Definition float := spec_float.
Definition prec : Z := 53.
Definition emax : Z := 1024.

Definition fsub : float -> float -> float := SFsub prec emax.
Definition fdiv : float -> float -> float := SFdiv prec emax.
Definition fabs : float -> float := SFabs.
Definition fzero : float := S754_zero false.

(** The values that flow through the record fields the bot computes with:
    a JSON integer, a string, a JSON real. *)
Inductive pyval :=
| PyInt (z : Z)
| PyStr (s : string)
| PyFloat (x : float).

(** [str(n)] for an [int]. *)
Definition str_of_int (z : Z) : string := NilZero.string_of_int (Z.to_int z).

(** [float(n)] for an [int]: the nearest binary64 (ties to even), and
    [OverflowError] ([None]) when that is out of range. *)
Definition float_of_int (z : Z) : option float :=
  match binary_normalize prec emax z 0 false with
  | S754_infinity _ => None
  | x => Some x
  end.

(** The numbers of the subtraction in [send_comparison]: the literal [0] is
    an [int], a parsed weight is a [float]. *)
Inductive num :=
| NInt (z : Z)
| NFloat (x : float).

(** [a - b]: [int - int] is an [int]; otherwise both sides are converted to
    [float] ([None] is the [OverflowError] of that conversion). *)
Definition sub (a b : num) : option num :=
  match a, b with
  | NInt x, NInt y => Some (NInt (x - y))
  | NInt x, NFloat y => option_map (fun x' => NFloat (fsub x' y)) (float_of_int x)
  | NFloat x, NInt y => option_map (fun y' => NFloat (fsub x y')) (float_of_int y)
  | NFloat x, NFloat y => Some (NFloat (fsub x y))
  end.

(** [abs(a)]. *)
Definition abs (a : num) : num :=
  match a with
  | NInt x => NInt (Z.abs x)
  | NFloat x => NFloat (fabs x)
  end.

(** Decimal digits of a natural number, as [str] prints them. *)
Definition digits (n : Z) : string := NilZero.string_of_uint (N.to_uint (Z.to_N n)).

(** The number of hundredths nearest to [m * 2^e], ties to even: the digits
    that [format(x, '.2f')] prints are those of the exact binary value,
    correctly rounded. *)
Definition hundredths (m : positive) (e : Z) : Z :=
  if 0 <=? e then Z.pos m * 100 * 2 ^ e
  else
    let n := Z.pos m * 100 in
    let d := 2 ^ (- e) in
    let q := n / d in
    let r := n mod d in
    match 2 * r ?= d with
    | Lt => q
    | Gt => q + 1
    | Eq => if Z.even q then q else q + 1
    end.

Definition two_digits (n : Z) : string :=
  if n <? 10 then "0" ++ digits n else digits n.

(** [format(x, '.2f')] for a [float]. *)
Definition format_2f_float (x : float) : string :=
  match x with
  | S754_nan => "nan"
  | S754_infinity s => if s then "-inf" else "inf"
  | S754_zero s => if s then "-0.00" else "0.00"
  | S754_finite s m e =>
      let q := hundredths m e in
      (if s then "-" else "") ++ digits (q / 100) ++ "." ++ two_digits (q mod 100)
  end.

(** [f"{a:.2f}"]: an [int] is converted to [float] first. *)
Definition format_2f (a : num) : option string :=
  match a with
  | NInt z => option_map format_2f_float (float_of_int z)
  | NFloat x => Some (format_2f_float x)
  end.

(** [s.lower()] for a text of ASCII characters: the letters [A] to [Z]
    become [a] to [z]. *)
Definition lower_char (c : ascii) : ascii :=
  let n := nat_of_ascii c in
  if ((65 <=? n)%nat && (n <=? 90)%nat)%bool then ascii_of_nat (n + 32) else c.

Fixpoint lower (s : string) : string :=
  match s with
  | EmptyString => EmptyString
  | String c s' => String (lower_char c) (lower s')
  end.

(** [s.startswith(p)]. *)
Fixpoint startswith (s p : string) {struct p} : bool :=
  match p with
  | EmptyString => true
  | String a p' =>
      match s with
      | EmptyString => false
      | String b s' => Ascii.eqb a b && startswith s' p'
      end
  end.

(** [s.replace(old, new)] for a non-empty [old]: left to right, occurrences
    do not overlap.  [skip] counts the characters of a match still to be
    dropped. *)
Fixpoint replace_from (old new : string) (skip : nat) (s : string) : string :=
  match s with
  | EmptyString => EmptyString
  | String c s' =>
      match skip with
      | S k => replace_from old new k s'
      | O =>
          if startswith s old
          then new ++ replace_from old new (Nat.pred (String.length old)) s'
          else String c (replace_from old new O s')
      end
  end.

Definition replace (s old new : string) : string := replace_from old new O s.

(** [re.match('^' + lit + '$', s)] for a pattern without metacharacters:
    [$] also matches before one trailing newline. *)
Definition re_match_exact (lit s : string) : bool :=
  String.eqb s lit || String.eqb s (lit ++ String (ascii_of_nat 10) EmptyString).

(** A [dict] with string keys, in insertion order. *)
Section Dict.
Context {V : Type}.

Fixpoint dict_get (d : list (string * V)) (k : string) : option V :=
  match d with
  | [] => None
  | (k', v) :: d' => if String.eqb k' k then Some v else dict_get d' k
  end.

(** [d[k] = v]: an existing key keeps its place. *)
Fixpoint dict_set (d : list (string * V)) (k : string) (v : V) : list (string * V) :=
  match d with
  | [] => [(k, v)]
  | (k', v') :: d' =>
      if String.eqb k' k then (k', v) :: d' else (k', v') :: dict_set d' k v
  end.

(** [del d[k]]: keys are unique in a dictionary; the entry for [k] goes. *)
Definition dict_remove (d : list (string * V)) (k : string) : list (string * V) :=
  List.filter (fun kv => negb (String.eqb (fst kv) k)) d.

(** [d.pop(k)]: [None] is the [KeyError]. *)
Definition dict_pop (d : list (string * V)) (k : string) : option (V * list (string * V)) :=
  match dict_get d k with
  | Some v => Some (v, dict_remove d k)
  | None => None
  end.
End Dict.

(** [l[-n:]]. *)
Definition last_n {A : Type} (n : nat) (l : list A) : list A :=
  skipn (length l - n) l.

End Py.

Import Py.

(* ===================================================================== *)
(** * Data of the bot                                                      *)
(* ===================================================================== *)

(** The dictionary that [PubChemClient.search_compound] returns. *)
Record compound := {
  CID : pyval;
  Name : string;
  MolecularFormula : string;
  MolecularWeight : pyval;
  IUPACName : string;
  CanonicalSMILES : string;
  InChIKey : string;
  image_url : string;
  pubchem_url : string
}.

(** What the code reads from the [PC_Compounds[0]] object of a record
    response: [atoms.fstring], [coords[0].weight.value] and the dictionary
    [props] from label to [sval]. *)
Record pc_compound := {
  atoms_fstring : option string;
  coords_weight : option pyval;
  props : gmap string string
}.

(** An entry of [SEARCH_HISTORY[user_id]]. *)
Record history_item := {
  item_name : string;
  item_cid : pyval;
  item_time : float
}.

(** An inline keyboard. *)
Inductive button :=
| CallbackButton (text : string) (callback_data : string)
| UrlButton (text : string) (url : string).

Definition keyboard := list (list button).

(** The [text] argument of a message: a string, or the [CallbackContext]
    object that python-telegram-bot passes as second argument to a callback. *)
Inductive text_arg :=
| Text (s : string)
| ContextObject.

(** The Bot API calls the handlers make. *)
Inductive api_call :=
| answer (text : option string)
| edit_message_text (text : text_arg) (reply_markup : option keyboard) (parse_mode : option string)
| reply_text (text : text_arg) (reply_markup : option keyboard) (parse_mode : option string)
| reply_photo (photo : string) (caption : string) (reply_markup : option keyboard) (parse_mode : option string).

(** An incoming update, with the chat it comes from and the user who made
    it (in a private chat the two identifiers are the same number).  A
    [CommandMessage] is a new message that starts with a bot command
    ([filters.COMMAND]) for this bot, with the name of the command as it is
    written: Telegram allows Latin letters, digits and the underscore there.
    A [TextMessage] is any other new message with a text, which Telegram
    never delivers empty ([filters.TEXT]).  A [CallbackQuery] is a button
    press, with the user who pressed and the sender of the message that
    carries the keyboard ([query.message.from_user]).  An [EditedMessage] is
    the edit of a message with a text, with the command it starts with, if
    any: such an update has an [edited_message] and no [message]. *)
Inductive update :=
| CommandMessage (chat : Z) (from_user : Z) (command : string) (text : string)
| TextMessage (chat : Z) (from_user : Z) (text : string)
| CallbackQuery (chat : Z) (from_user : Z) (message_from_user : Z) (data : string)
| EditedMessage (chat : Z) (from_user : Z) (command : option string) (text : string).

(** [update.effective_user.id]. *)
Definition effective_user (upd : update) : Z :=
  match upd with
  | CommandMessage _ u _ _ => u
  | TextMessage _ u _ => u
  | CallbackQuery _ u _ _ => u
  | EditedMessage _ u _ _ => u
  end.

(** [update.effective_chat.id]. *)
Definition effective_chat (upd : update) : Z :=
  match upd with
  | CommandMessage ch _ _ _ => ch
  | TextMessage ch _ _ => ch
  | CallbackQuery ch _ _ _ => ch
  | EditedMessage ch _ _ _ => ch
  end.

(** The key of a conversation, with the default [per_chat] and [per_user]
    of [ConversationHandler]: [(chat.id, user.id)]. *)
Definition conversation_key (upd : update) : Z * Z :=
  (effective_chat upd, effective_user upd).

(** * The outside world

    Everything a handler obtains from outside the process.  [None] stands
    for the failure the code catches at that place (a status other than 200,
    or an exception inside the [try]). *)
Record env := {
  (** [float(s)] for a string; [None] is [ValueError]. *)
  float_of_str : string -> option float;
  (** [str(x)] for a float. *)
  str_of_float : float -> string;
  (** GET [compound/name/{query}/cids/JSON], then [IdentifierList.CID[0]]. *)
  name_cids : string -> option pyval;
  (** GET [compound/cid/{cid}/JSON], then [PC_Compounds[0]]. *)
  cid_record : string -> option pc_compound;
  (** GET [compound/random/random.cid/JSON], then [IdentifierList.CID[0]]. *)
  random_cid : option pyval;
  (** GET [compound/fastsimilarity_2d/cid/{cid}/cids/JSON], then
      [IdentifierList.CID]. *)
  similar_cids : string -> Z -> option (list pyval);
  (** [requests.get(url).status_code]; [None] when the request raises. *)
  image_status : string -> option Z;
  (** Whether the n-th Bot API call of the process succeeds. *)
  tg_ok : nat -> api_call -> bool;
  (** [datetime.now().timestamp()]. *)
  now : float
}.

(** [str(v)], the text an f-string inserts for [{v}]. *)
Definition py_str (e : env) (v : pyval) : string :=
  match v with
  | PyInt z => str_of_int z
  | PyStr s => s
  | PyFloat x => str_of_float e x
  end.

(** [float(v)]. *)
Definition py_float (e : env) (v : pyval) : option float :=
  match v with
  | PyInt z => float_of_int z
  | PyStr s => float_of_str e s
  | PyFloat x => Some x
  end.

(** [v != 'N/A']. *)
Definition is_not_NA (v : pyval) : bool :=
  match v with
  | PyStr s => negb (String.eqb s "N/A")
  | _ => true
  end.

(* ===================================================================== *)
(** * PubChemClient                                                        *)
(* ===================================================================== *)

Module PubChemClient.

Definition BASE_URL : string := "https://pubchem.ncbi.nlm.nih.gov/rest/pug".

Definition get_default (o : option string) (d : string) : string :=
  match o with Some s => s | None => d end.

(** [search_compound(query, by_cid)].  [Name] is [query] itself when the
    search is by name; every caller passes a string there, for which
    [py_str] is the identity. *)
Definition search_compound (e : env) (query : pyval) (by_cid : bool) : option compound :=
  match (if by_cid then Some query else name_cids e (py_str e query)) with
  | None => None
  | Some cid =>
      match cid_record e (py_str e cid) with
      | None => None
      | Some c =>
          Some {|
            CID := cid;
            Name := if by_cid
                    then get_default (props c !! "IUPAC Name") ("CID " ++ py_str e cid)
                    else py_str e query;
            MolecularFormula := get_default (atoms_fstring c) "N/A";
            MolecularWeight :=
              match coords_weight c with Some w => w | None => PyStr "N/A" end;
            IUPACName := get_default (props c !! "IUPAC Name") "N/A";
            CanonicalSMILES := get_default (props c !! "SMILES") "N/A";
            InChIKey := get_default (props c !! "InChIKey") "N/A";
            image_url := BASE_URL ++ "/compound/cid/" ++ py_str e cid ++ "/PNG";
            pubchem_url := "https://pubchem.ncbi.nlm.nih.gov/compound/" ++ py_str e cid
          |}
      end
  end.

Definition get_random_compound (e : env) : option compound :=
  match random_cid e with
  | Some cid => search_compound e cid true
  | None => None
  end.

Definition get_similar_compounds (e : env) (cid : string) (limit : Z) : list pyval :=
  match similar_cids e cid limit with
  | Some l => l
  | None => []
  end.

End PubChemClient.

(* ===================================================================== *)
(** * State of the process and the handler monad                           *)
(* ===================================================================== *)

(** [SEARCH_HISTORY] and [FAVORITES] are the module dictionaries, keyed by
    user id; [user_data] is [context.user_data['compare_first']] of each
    user; [search_conv] and [compare_conv] are the conversation tables of
    the two [ConversationHandler]s of [main] (a missing key: no conversation);
    [outbox] logs every Bot API call with whether it succeeded. *)
Record world := {
  SEARCH_HISTORY : gmap Z (list history_item);
  FAVORITES : gmap Z (list (string * string));
  user_data : gmap Z compound;
  search_conv : gmap (Z * Z) Z;
  compare_conv : gmap (Z * Z) Z;
  outbox : list (api_call * bool)
}.

Definition set_SEARCH_HISTORY (h : gmap Z (list history_item)) (w : world) : world :=
  {| SEARCH_HISTORY := h; FAVORITES := FAVORITES w; user_data := user_data w;
     search_conv := search_conv w; compare_conv := compare_conv w; outbox := outbox w |}.

Definition set_FAVORITES (f : gmap Z (list (string * string))) (w : world) : world :=
  {| SEARCH_HISTORY := SEARCH_HISTORY w; FAVORITES := f; user_data := user_data w;
     search_conv := search_conv w; compare_conv := compare_conv w; outbox := outbox w |}.

Definition set_user_data (d : gmap Z compound) (w : world) : world :=
  {| SEARCH_HISTORY := SEARCH_HISTORY w; FAVORITES := FAVORITES w; user_data := d;
     search_conv := search_conv w; compare_conv := compare_conv w; outbox := outbox w |}.

Definition set_search_conv (c : gmap (Z * Z) Z) (w : world) : world :=
  {| SEARCH_HISTORY := SEARCH_HISTORY w; FAVORITES := FAVORITES w; user_data := user_data w;
     search_conv := c; compare_conv := compare_conv w; outbox := outbox w |}.

Definition set_compare_conv (c : gmap (Z * Z) Z) (w : world) : world :=
  {| SEARCH_HISTORY := SEARCH_HISTORY w; FAVORITES := FAVORITES w; user_data := user_data w;
     search_conv := search_conv w; compare_conv := c; outbox := outbox w |}.

Definition set_outbox (o : list (api_call * bool)) (w : world) : world :=
  {| SEARCH_HISTORY := SEARCH_HISTORY w; FAVORITES := FAVORITES w; user_data := user_data w;
     search_conv := search_conv w; compare_conv := compare_conv w; outbox := o |}.

Definition initial_world : world :=
  {| SEARCH_HISTORY := ∅; FAVORITES := ∅; user_data := ∅;
     search_conv := ∅; compare_conv := ∅; outbox := [] |}.

(** A coroutine either returns or lets an exception escape; what it wrote
    before the exception stays written. *)
Inductive result (A : Type) :=
| Ok (a : A)
| Raise.
Arguments Ok {A} a.
Arguments Raise {A}.

Definition M (A : Type) : Type := world -> result A * world.

Definition ret {A} (a : A) : M A := fun w => (Ok a, w).

Definition bind {A B} (m : M A) (k : A -> M B) : M B :=
  fun w => match m w with
           | (Ok a, w') => k a w'
           | (Raise, w') => (Raise, w')
           end.

Definition raise {A} : M A := fun w => (Raise, w).

(** [try: m  except Exception: h]. *)
Definition try_except {A} (m h : M A) : M A :=
  fun w => match m w with
           | (Ok a, w') => (Ok a, w')
           | (Raise, w') => h w'
           end.

Definition get_world : M world := fun w => (Ok w, w).
Definition modify (f : world -> world) : M unit := fun w => (Ok tt, f w).

Notation "'let*' x ':=' m 'in' k" := (bind m (fun x => k))
  (at level 10, x name, m at level 100, k at level 200).

(** One Bot API call: logged, and an exception when the call fails. *)
Definition call (e : env) (c : api_call) : M unit :=
  fun w =>
    let ok := tg_ok e (length (outbox w)) c in
    ((if ok then Ok tt else Raise), set_outbox (outbox w ++ [(c, ok)]) w).

(* ===================================================================== *)
(** * The handlers                                                         *)
(* ===================================================================== *)

(** Conversation states: [SEARCH, COMPARE_FIRST, COMPARE_SECOND = range(3)],
    and [ConversationHandler.END]. *)
Definition SEARCH : Z := 0.
Definition COMPARE_FIRST : Z := 1.
Definition COMPARE_SECOND : Z := 2.
Definition END : Z := -1.

Definition MOLECULE_EXAMPLES : list (string * list (string * string)) :=
  [ ("Лекарства", [("Аспирин", "aspirin"); ("Ибупрофен", "ibuprofen");
                   ("Парацетамол", "paracetamol")]);
    ("Аминокислоты", [("Глицин", "glycine"); ("Аланин", "alanine")]);
    ("Витамины", [("Витамин C", "ascorbic acid"); ("Витамин B12", "vitamin b12")]) ].

Definition create_main_menu : keyboard :=
  [ [CallbackButton "🔍 Поиск молекулы" "search"];
    [CallbackButton "🎲 Случайная молекула" "random"];
    [CallbackButton "⚖️ Сравнить молекулы" "compare"];
    [CallbackButton "📚 Примеры молекул" "examples"];
    [CallbackButton "📋 История поиска" "history";
     CallbackButton "⭐ Избранное" "favorites"];
    [CallbackButton "ℹ️ Помощь" "help"] ].

(** The one-button keyboard that the prompts carry. *)
Definition back_markup (data : string) : keyboard :=
  [[CallbackButton "↩️ Назад" data]].

(** [update.callback_query], by the user who pressed the button; [None] for
    a message update. *)
Definition callback_user (upd : update) : option Z :=
  match upd with
  | CallbackQuery _ u _ _ => Some u
  | _ => None
  end.

(** [update.message]: its sender and its text; a callback query and an
    edited message have no [update.message], and the attribute access on
    [None] raises. *)
Definition message_of (upd : update) : option (Z * string) :=
  match upd with
  | TextMessage _ u text | CommandMessage _ u _ text => Some (u, text)
  | CallbackQuery _ _ _ _ | EditedMessage _ _ _ _ => None
  end.

(** [safe_edit_or_reply(callback_query, text, reply_markup, parse_mode)]:
    without a callback query both attribute accesses raise, the second one
    outside the [try]. *)
Definition safe_edit_or_reply (e : env) (callback_query : option Z) (text : text_arg)
    (reply_markup : option keyboard) (parse_mode : option string) : M unit :=
  match callback_query with
  | Some _ =>
      try_except
        (call e (edit_message_text text reply_markup parse_mode))
        (call e (reply_text text reply_markup parse_mode))
  | None => raise
  end.

Definition main_menu_text : string :=
"👨‍🔬 *Химический бот*

Выберите действие:".

(** [show_main_menu(update, text)]: [text] is whatever the caller passes as
    second argument. *)
Definition show_main_menu (e : env) (upd : update) (text : text_arg) : M unit :=
  match callback_user upd with
  | Some query =>
      safe_edit_or_reply e (Some query) text (Some create_main_menu) (Some "Markdown")
  | None =>
      match message_of upd with
      | Some _ => call e (reply_text text (Some create_main_menu) (Some "Markdown"))
      | None => raise
      end
  end.

Definition start (e : env) (upd : update) : M (option Z) :=
  let* _ := show_main_menu e upd (Text main_menu_text) in
  ret None.

Definition help_text : string :=
"🆘 *Помощь*

Этот бот помогает искать информацию о химических соединениях в базе PubChem.

🔹 *Основные функции:*
- Поиск по названию или CID
- Просмотр случайных молекул
- Сравнение свойств молекул
- История поиска и избранное

Используйте кнопки меню для навигации.".

Definition help_command (e : env) (upd : update) : M (option Z) :=
  let* _ := safe_edit_or_reply e (callback_user upd) (Text help_text) (Some create_main_menu) (Some "Markdown") in
  ret None.

Definition search_command (e : env) (upd : update) : M (option Z) :=
  let* _ := safe_edit_or_reply e (callback_user upd) (Text "🔍 Введите название молекулы или её CID:")
              (Some (back_markup "back_to_menu")) None in
  ret (Some SEARCH).

Definition format_molecule_info (e : env) (data : compound) : string :=
  "🔬 *" ++ Name data ++ "*

" ++
  "• 📊 CID: `" ++ py_str e (CID data) ++ "`
" ++
  "• 🧪 Формула: `" ++ MolecularFormula data ++ "`
" ++
  "• ⚖️ Масса: `" ++ py_str e (MolecularWeight data) ++ "`
" ++
  "• 📝 IUPAC: `" ++ IUPACName data ++ "`
" ++
  "• 🔠 SMILES: `" ++ CanonicalSMILES data ++ "`
" ++
  "• 🔑 InChIKey: `" ++ InChIKey data ++ "`".

Definition molecule_keyboard (e : env) (data : compound) : keyboard :=
  [ [UrlButton "📊 PubChem" (pubchem_url data);
     CallbackButton "🧪 Похожие" ("similar_" ++ py_str e (CID data))];
    [CallbackButton "💾 Сохранить" ("save_" ++ py_str e (CID data));
     CallbackButton "↩️ Меню" "back_to_menu"] ].

Definition send_molecule_info (e : env) (data : compound) : M unit :=
  try_except
    (match image_status e (image_url data) with
     | None => raise
     | Some status =>
         if status =? 200
         then call e (reply_photo (image_url data) (format_molecule_info e data)
                        (Some (molecule_keyboard e data)) (Some "Markdown"))
         else call e (reply_text (Text (format_molecule_info e data))
                        (Some create_main_menu) (Some "Markdown"))
     end)
    (call e (reply_text (Text (format_molecule_info e data))
               (Some create_main_menu) (Some "Markdown"))).

(** [SEARCH_HISTORY[user_id].append(item)], after the empty list is put
    there for a user who has none. *)
Definition append_history (user_id : Z) (item : history_item)
    (h : gmap Z (list history_item)) : gmap Z (list history_item) :=
  <[user_id := (default [] (h !! user_id) ++ [item])%list]> h.

(** [process_chemical_search(message, query, by_cid)]; [message_from_user]
    is [message.from_user.id]. *)
Definition process_chemical_search (e : env) (message_from_user : Z)
    (query : string) (by_cid : bool) : M unit :=
  match PubChemClient.search_compound e (PyStr query) by_cid with
  | None =>
      call e (reply_text (Text ("Не удалось найти молекулу '" ++ query ++ "'."))
                (Some create_main_menu) None)
  | Some result =>
      let* _ := modify (fun w =>
                  set_SEARCH_HISTORY
                    (append_history message_from_user
                       {| item_name := Name result; item_cid := CID result;
                          item_time := now e |}
                       (SEARCH_HISTORY w)) w) in
      send_molecule_info e result
  end.

Definition handle_search (e : env) (upd : update) : M (option Z) :=
  match message_of upd with
  | None => raise
  | Some (u, text) =>
      let* _ := process_chemical_search e u text false in
      ret (Some END)
  end.

Definition handle_message (e : env) (upd : update) : M (option Z) :=
  match message_of upd with
  | None => raise
  | Some (u, text) =>
      let* _ := process_chemical_search e u text false in
      ret None
  end.

Definition random_molecule (e : env) (upd : update) : M (option Z) :=
  match PubChemClient.get_random_compound e with
  | Some result =>
      match callback_user upd with
      | None => raise
      | Some _ =>
          let* _ := send_molecule_info e result in
          ret None
      end
  | None =>
      let* _ := show_main_menu e upd (Text "Не удалось получить случайную молекулу.") in
      ret None
  end.

Definition compare_command (e : env) (upd : update) : M (option Z) :=
  let* _ := safe_edit_or_reply e (callback_user upd) (Text "⚖️ Введите название или CID первой молекулы:")
              (Some (back_markup "back_to_menu")) None in
  ret (Some COMPARE_FIRST).

Definition compare_first (e : env) (upd : update) : M (option Z) :=
  match message_of upd with
  | None => raise
  | Some (_, text) =>
      match PubChemClient.search_compound e (PyStr text) false with
      | Some result =>
          let* _ := modify (fun w =>
                      set_user_data (<[effective_user upd := result]> (user_data w)) w) in
          let* _ := call e (reply_text (Text "Теперь введите вторую молекулу:")
                             (Some (back_markup "back_to_menu")) None) in
          ret (Some COMPARE_SECOND)
      | None =>
          let* _ := call e (reply_text (Text "Молекула не найдена. Попробуйте снова:")
                             (Some (back_markup "back_to_menu")) None) in
          ret (Some COMPARE_FIRST)
      end
  end.

(** Lines 252-254 of [send_comparison]: the two weights, with ['N/A'] read
    as [0], and the absolute value of their difference.  [None]: one of the
    conversions raises. *)
Definition weight_number (e : env) (c : compound) : option num :=
  if is_not_NA (MolecularWeight c)
  then option_map NFloat (py_float e (MolecularWeight c))
  else Some (NInt 0).

Definition mass_diff (e : env) (first second : compound) : option num :=
  match weight_number e first with
  | None => None
  | Some mw1 =>
      match weight_number e second with
      | None => None
      | Some mw2 => option_map Py.abs (Py.sub mw1 mw2)
      end
  end.

(** The comparison message up to the difference. *)
Definition comparison_header (e : env) (first second : compound) : string :=
  "⚖️ *Сравнение молекул*

" ++
  "1️⃣ *" ++ Name first ++ "*
" ++
  "• Формула: `" ++ MolecularFormula first ++ "`
" ++
  "• Масса: `" ++ py_str e (MolecularWeight first) ++ "`

" ++
  "2️⃣ *" ++ Name second ++ "*
" ++
  "• Формула: `" ++ MolecularFormula second ++ "`
" ++
  "• Масса: `" ++ py_str e (MolecularWeight second) ++ "`

".

(** The text of the comparison message; [None]: building it raises. *)
Definition comparison_text (e : env) (first second : compound) : option string :=
  match mass_diff e first second with
  | None => None
  | Some d =>
      match format_2f d with
      | None => None
      | Some diff =>
          Some (comparison_header e first second ++
                "📊 Разница масс: `" ++ diff ++ "`")
      end
  end.

Definition send_comparison (e : env) (first second : compound) : M unit :=
  try_except
    (match comparison_text e first second with
     | None => raise
     | Some text => call e (reply_text (Text text) (Some create_main_menu) (Some "Markdown"))
     end)
    (call e (reply_text (Text "Ошибка при сравнении.") (Some create_main_menu) None)).

Definition compare_second (e : env) (upd : update) : M (option Z) :=
  match message_of upd with
  | None => raise
  | Some (_, text) =>
      match PubChemClient.search_compound e (PyStr text) false with
      | Some second =>
          let* w := get_world in
          match user_data w !! effective_user upd with
          | None => raise
          | Some first =>
              let* _ := send_comparison e first second in
              ret (Some END)
          end
      | None =>
          let* _ := call e (reply_text (Text "Молекула не найдена. Попробуйте снова:")
                             (Some (back_markup "back_to_menu")) None) in
          ret (Some COMPARE_SECOND)
      end
  end.

Definition history_keyboard (e : env) (history : list history_item) : keyboard :=
  (map (fun item =>
          [CallbackButton (item_name item) ("history_" ++ py_str e (item_cid item))])
       (rev history)
   ++ [[CallbackButton "↩️ Назад" "back_to_menu"]])%list.

Definition show_history (e : env) (upd : update) : M (option Z) :=
  match callback_user upd with
  | None => raise
  | Some user_id =>
      let* w := get_world in
      match SEARCH_HISTORY w !! user_id with
      | None | Some [] =>
          let* _ := show_main_menu e upd (Text "История поиска пуста.") in
          ret None
      | Some all =>
          let history := last_n 5 all in
          let* _ := safe_edit_or_reply e (callback_user upd) (Text "🔍 История поиска:")
                      (Some (history_keyboard e history)) None in
          ret None
      end
  end.

Definition favorites_keyboard (favs : list (string * string)) : keyboard :=
  (map (fun '(cid, name) =>
          [CallbackButton name ("history_" ++ cid);
           CallbackButton "❌" ("remove_" ++ cid)])
       favs
   ++ [[CallbackButton "↩️ Назад" "back_to_menu"]])%list.

Definition show_favorites (e : env) (upd : update) : M (option Z) :=
  match callback_user upd with
  | None => raise
  | Some user_id =>
      let* w := get_world in
      match FAVORITES w !! user_id with
      | None | Some [] =>
          let* _ := show_main_menu e upd (Text "У вас нет сохранённых молекул.") in
          ret None
      | Some favs =>
          let* _ := safe_edit_or_reply e (callback_user upd) (Text "⭐ Избранные молекулы:")
                      (Some (favorites_keyboard favs)) None in
          ret None
      end
  end.

Definition show_examples (e : env) (upd : update) : M (option Z) :=
  let keyboard :=
    (map (fun '(category, _) => [CallbackButton category ("category_" ++ category)])
         MOLECULE_EXAMPLES
     ++ [[CallbackButton "↩️ Назад" "back_to_menu"]])%list in
  let* _ := safe_edit_or_reply e (callback_user upd) (Text "📚 Примеры молекул:") (Some keyboard) None in
  ret None.

Definition show_category (e : env) (upd : update) : M (option Z) :=
  match upd with
  | CallbackQuery _ _ _ data =>
      let category := replace data "category_" "" in
      let examples := default [] (dict_get MOLECULE_EXAMPLES category) in
      let keyboard :=
        (map (fun '(name, term) => [CallbackButton name ("search_" ++ term)]) examples
         ++ [[CallbackButton "↩️ Назад" "examples"]])%list in
      let* _ := safe_edit_or_reply e (callback_user upd) (Text ("🔬 " ++ category ++ ":")) (Some keyboard) None in
      ret None
  | _ => raise
  end.

Definition similar_keyboard (e : env) (data : string) (similar : list pyval) : keyboard :=
  (imap (fun i cid =>
           [CallbackButton ("Молекула " ++ str_of_int (Z.of_nat i + 1))
                           ("history_" ++ py_str e cid)])
        similar
   ++ [[CallbackButton "↩️ Назад" ("history_" ++ replace data "similar_" "")]])%list.

(** The [save_] branch, after the token is parsed: the (possibly new, empty)
    dictionary of the user gets [cid -> name]. *)
Definition ensure_favorites (user_id : Z)
    (f : gmap Z (list (string * string))) : gmap Z (list (string * string)) :=
  match f !! user_id with
  | Some _ => f
  | None => <[user_id := []]> f
  end.

Definition add_favorite (user_id : Z) (cid name : string)
    (f : gmap Z (list (string * string))) : gmap Z (list (string * string)) :=
  <[user_id := dict_set (default [] (f !! user_id)) cid name]> f.

(** The [remove_] branch: [FAVORITES[user_id].pop(cid)] when the user and
    the key are there, otherwise nothing. *)
Definition remove_favorite (user_id : Z) (cid : string)
    (f : gmap Z (list (string * string)))
  : option string * gmap Z (list (string * string)) :=
  match f !! user_id with
  | None => (None, f)
  | Some favs =>
      match dict_pop favs cid with
      | None => (None, f)
      | Some (name, favs') => (Some name, <[user_id := favs']> f)
      end
  end.

Definition button_handler (e : env) (upd : update) : M (option Z) :=
  match upd with
  | CallbackQuery _ user_id message_from_user data =>
      let* _ := call e (answer None) in
      if String.eqb data "back_to_menu" then
        let* _ := show_main_menu e upd (Text main_menu_text) in ret None
      else if String.eqb data "search" then
        let* _ := search_command e upd in ret None
      else if String.eqb data "random" then
        let* _ := random_molecule e upd in ret None
      else if String.eqb data "compare" then
        let* _ := compare_command e upd in ret None
      else if String.eqb data "examples" then
        let* _ := show_examples e upd in ret None
      else if String.eqb data "history" then
        let* _ := show_history e upd in ret None
      else if String.eqb data "favorites" then
        let* _ := show_favorites e upd in ret None
      else if String.eqb data "help" then
        let* _ := help_command e upd in ret None
      else if startswith data "category_" then
        let* _ := show_category e upd in ret None
      else if startswith data "search_" then
        let* _ := process_chemical_search e message_from_user
                    (replace data "search_" "") false in
        ret None
      else if startswith data "history_" then
        let* _ := process_chemical_search e message_from_user
                    (replace data "history_" "") true in
        ret None
      else if startswith data "similar_" then
        let cid := replace data "similar_" "" in
        match PubChemClient.get_similar_compounds e cid 5 with
        | [] => ret None
        | similar =>
            let* _ := safe_edit_or_reply e (callback_user upd) (Text "🧪 Похожие молекулы:")
                        (Some (similar_keyboard e data similar)) None in
            ret None
        end
      else if startswith data "save_" then
        let cid := replace data "save_" "" in
        let* _ := modify (fun w => set_FAVORITES (ensure_favorites user_id (FAVORITES w)) w) in
        match PubChemClient.search_compound e (PyStr cid) true with
        | Some result =>
            let* _ := modify (fun w =>
                        set_FAVORITES (add_favorite user_id cid (Name result) (FAVORITES w)) w) in
            let* _ := call e (answer (Some ("Сохранено: " ++ Name result))) in
            ret None
        | None => ret None
        end
      else if startswith data "remove_" then
        let cid := replace data "remove_" "" in
        let* w := get_world in
        match remove_favorite user_id cid (FAVORITES w) with
        | (Some name, f') =>
            let* _ := modify (set_FAVORITES f') in
            let* _ := call e (answer (Some ("Удалено: " ++ name))) in
            let* _ := show_favorites e upd in
            ret None
        | (None, _) => ret None
        end
      else ret None
  | _ => raise
  end.

(* ===================================================================== *)
(** * Dispatch: handlers, ConversationHandler, Application                 *)
(* ===================================================================== *)

(** A handler: the test of [check_update] and the callback. *)
Record handler := {
  check_update : update -> bool;
  callback : env -> update -> M (option Z)
}.

(** [CommandHandler(command, cb)]: the handler keeps its command in lower
    case and compares the lower-cased command of the message with it; its
    default filter takes new and edited messages. *)
Definition CommandHandler (command : string) (cb : env -> update -> M (option Z)) : handler :=
  {| check_update := fun upd =>
       match upd with
       | CommandMessage _ _ c _ | EditedMessage _ _ (Some c) _ =>
           String.eqb (lower c) (lower command)
       | _ => false
       end;
     callback := cb |}.

(** [MessageHandler(filters.TEXT & ~filters.COMMAND, cb)]: the filters look
    at [update.effective_message], which is the edited message of an
    edit. *)
Definition MessageHandler (cb : env -> update -> M (option Z)) : handler :=
  {| check_update := fun upd =>
       match upd with
       | TextMessage _ _ _ | EditedMessage _ _ None _ => true
       | _ => false
       end;
     callback := cb |}.

(** [CallbackQueryHandler(cb, pattern='^lit$')], and without a pattern. *)
Definition CallbackQueryHandler (cb : env -> update -> M (option Z))
    (pattern : option string) : handler :=
  {| check_update := fun upd =>
       match upd with
       | CallbackQuery _ _ _ data =>
           match pattern with
           | Some lit => re_match_exact lit data
           | None => true
           end
       | _ => false
       end;
     callback := cb |}.

(** [ConversationHandler(entry_points, states, fallbacks)] with the default
    options; [conversations] is its table, from the conversation key to the
    current state. *)
Record ConversationHandler := {
  entry_points : list handler;
  states : list (Z * list handler);
  fallbacks : list handler;
  conversations : world -> gmap (Z * Z) Z;
  set_conversations : gmap (Z * Z) Z -> world -> world
}.

Definition first_match (hs : list handler) (upd : update) : option handler :=
  List.find (fun h => check_update h upd) hs.

Fixpoint states_get (st : list (Z * list handler)) (s : Z) : list handler :=
  match st with
  | [] => []
  | (s', hs) :: st' => if s' =? s then hs else states_get st' s
  end.

(** [ConversationHandler.check_update]: without a conversation only the
    entry points are tried; within one, the handlers of the current state
    and then the fallbacks. *)
Definition conv_check_update (c : ConversationHandler) (upd : update) (w : world)
  : option handler :=
  match conversations c w !! conversation_key upd with
  | None => first_match (entry_points c) upd
  | Some state =>
      match first_match (states_get (states c) state) upd with
      | Some h => Some h
      | None => first_match (fallbacks c) upd
      end
  end.

(** [ConversationHandler._update_state]: [END] removes the key, [None]
    leaves the state as it is, any other value becomes the state. *)
Definition update_state (key : Z * Z) (new_state : option Z) (t : gmap (Z * Z) Z)
  : gmap (Z * Z) Z :=
  match new_state with
  | None => t
  | Some s => if s =? END then delete key t else <[key := s]> t
  end.

(** [ConversationHandler.handle_update]: an exception of the callback
    leaves before the state is updated. *)
Definition conv_handle_update (c : ConversationHandler) (h : handler)
    (e : env) (upd : update) : M unit :=
  let* new_state := callback h e upd in
  modify (fun w =>
            set_conversations c
              (update_state (conversation_key upd) new_state (conversations c w)) w).

Inductive app_handler :=
| Plain (h : handler)
| Conversation (c : ConversationHandler).

(** [Application.process_update] for one handler group: the first handler
    whose check succeeds handles the update, the rest is skipped. *)
Fixpoint dispatch (hs : list app_handler) (e : env) (upd : update) : M unit :=
  match hs with
  | [] => ret tt
  | Plain h :: rest =>
      if check_update h upd
      then let* _ := callback h e upd in ret tt
      else dispatch rest e upd
  | Conversation c :: rest =>
      fun w =>
        match conv_check_update c upd w with
        | Some h => conv_handle_update c h e upd w
        | None => dispatch rest e upd w
        end
  end.

(** The callback as [main] registers it for [back_to_menu] inside a
    conversation: [show_main_menu(update, context)]. *)
Definition show_main_menu_fallback (e : env) (upd : update) : M (option Z) :=
  let* _ := show_main_menu e upd ContextObject in
  ret None.

Definition search_conv_handler : ConversationHandler :=
  {| entry_points := [CallbackQueryHandler search_command (Some "search")];
     states := [(SEARCH, [MessageHandler handle_search])];
     fallbacks := [CallbackQueryHandler show_main_menu_fallback (Some "back_to_menu")];
     conversations := search_conv;
     set_conversations := set_search_conv |}.

Definition compare_conv_handler : ConversationHandler :=
  {| entry_points := [CallbackQueryHandler compare_command (Some "compare")];
     states := [(COMPARE_FIRST, [MessageHandler compare_first]);
                (COMPARE_SECOND, [MessageHandler compare_second])];
     fallbacks := [CallbackQueryHandler show_main_menu_fallback (Some "back_to_menu")];
     conversations := compare_conv;
     set_conversations := set_compare_conv |}.

(** The handlers that [main] adds to the application, in order. *)
Definition main : list app_handler :=
  [ Plain (CommandHandler "start" start);
    Conversation search_conv_handler;
    Conversation compare_conv_handler;
    Plain (MessageHandler handle_message);
    Plain (CallbackQueryHandler button_handler None) ].

(** Handling one update: an exception that escapes the handler is logged by
    the application and the process goes on. *)
Definition process_update (e : env) (upd : update) (w : world) : world :=
  snd (dispatch main e upd w).

(* ===================================================================== *)
(** * The specification's view of the state                                *)
(* ===================================================================== *)

(** The conversation states of the specification. *)
Inductive ConversationState :=
| Idle
| AwaitingSearchQuery
| AwaitingFirstCompareTerm
| AwaitingSecondCompareTerm (pending : compound).

(** How a state of the specification shows in the process, for the user [u]
    in the chat [ch]: no conversation in either table is [Idle]; the search
    table holds [SEARCH]; the compare table holds [COMPARE_FIRST], or
    [COMPARE_SECOND] with the pending record in the [user_data] of the user.
    Other combinations of the two tables are states the specification does
    not name. *)
Definition spec_state (w : world) (ch u : Z) : option ConversationState :=
  match search_conv w !! (ch, u), compare_conv w !! (ch, u) with
  | None, None => Some Idle
  | Some s, None => if s =? SEARCH then Some AwaitingSearchQuery else None
  | None, Some s =>
      if s =? COMPARE_FIRST then Some AwaitingFirstCompareTerm
      else if s =? COMPARE_SECOND
           then option_map AwaitingSecondCompareTerm (user_data w !! u)
           else None
  | Some _, Some _ => None
  end.

(** The favorites of a user, as [show_favorites] reads them: a user without
    a dictionary and a user with an empty one are the same. *)
Definition favorites_of (w : world) (u : Z) : list (string * string) :=
  default [] (FAVORITES w !! u).

(** The stored history of a user. *)
Definition history_of (w : world) (u : Z) : list history_item :=
  default [] (SEARCH_HISTORY w !! u).

(** Every Bot API call succeeds. *)
Definition transport_ok (e : env) : Prop := forall n c, tg_ok e n c = true.

(** The update [upd] makes a lookup, and that lookup fails: the search for
    the text of a message, the search for the payload of a [search_] or
    [history_] token, or the draw of a random record. *)
Definition lookup_failed (e : env) (upd : update) : Prop :=
  match upd with
  | TextMessage _ _ t => PubChemClient.search_compound e (PyStr t) false = None
  | CallbackQuery _ _ _ data =>
      (exists s, data = "history_" ++ s /\
         PubChemClient.search_compound e (PyStr (replace data "history_" "")) true = None) \/
      (exists s, data = "search_" ++ s /\
         PubChemClient.search_compound e (PyStr (replace data "search_" "")) false = None) \/
      (data = "random" /\ PubChemClient.get_random_compound e = None)
  | _ => False
  end.

(** The compare conversation of [u] in the chat [ch] awaits the second term,
    with [r] pending for [u]. *)
Definition awaits_second (w : world) (ch u : Z) (r : compound) : Prop :=
  compare_conv w !! (ch, u) = Some COMPARE_SECOND /\ user_data w !! u = Some r.

(** The update [upd] is a text that the conversation of [u] in [ch] takes
    as the second term, and it resolves to [second]. *)
Definition second_term (e : env) (upd : update) (w : world) (ch u : Z)
    (second : compound) : Prop :=
  exists t,
    upd = TextMessage ch u t /\
    search_conv w !! (ch, u) <> Some SEARCH /\
    PubChemClient.search_compound e (PyStr t) false = Some second.

(** The update [upd] is a text of the same user [u] in another chat than
    [ch], which the compare conversation there takes as its first term, and
    it resolves to [r']. *)
Definition first_term_elsewhere (e : env) (upd : update) (w : world) (ch u : Z)
    (r' : compound) : Prop :=
  exists ch' t,
    ch' <> ch /\
    upd = TextMessage ch' u t /\
    search_conv w !! (ch', u) <> Some SEARCH /\
    compare_conv w !! (ch', u) = Some COMPARE_FIRST /\
    PubChemClient.search_compound e (PyStr t) false = Some r'.

(** The prompt for the second term of a comparison. *)
Definition second_prompt : api_call :=
  reply_text (Text "Теперь введите вторую молекулу:")
             (Some (back_markup "back_to_menu")) None.

(** The messages of the failure paths. *)
Definition reprompt : api_call :=
  reply_text (Text "Молекула не найдена. Попробуйте снова:")
             (Some (back_markup "back_to_menu")) None.

Definition not_found (query : string) : api_call :=
  reply_text (Text ("Не удалось найти молекулу '" ++ query ++ "'."))
             (Some create_main_menu) None.

(** The two forms in which [send_molecule_info] shows a record: the picture
    with the record as caption, or the text alone. *)
Definition shows_record (e : env) (r : compound) (c : api_call) : Prop :=
  c = reply_photo (image_url r) (format_molecule_info e r)
        (Some (molecule_keyboard e r)) (Some "Markdown") \/
  c = reply_text (Text (format_molecule_info e r)) (Some create_main_menu) (Some "Markdown").

Definition random_failed : api_call :=
  edit_message_text (Text "Не удалось получить случайную молекулу.")
    (Some create_main_menu) (Some "Markdown").

(** An identifier as PubChem prints it: digits, with a sign at most. *)
Definition id_char (c : ascii) : bool :=
  let n := nat_of_ascii c in
  ((48 <=? n)%nat && (n <=? 57)%nat) || (n =? 45)%nat.

Fixpoint id_string (s : string) : bool :=
  match s with
  | EmptyString => true
  | String c s' => id_char c && id_string s'
  end.

(** The binary64 that Python reads for the decimal literal [n / 10^k]: both
    [n] and [10^k] are exact when [n < 2^53] and [k <= 22], and the division
    rounds their quotient correctly. *)
Definition float_literal (n : Z) (k : Z) : float :=
  fdiv (binary_normalize prec emax n 0 false)
       (binary_normalize prec emax (10 ^ k) 0 false).

(** The row of the history keyboard for one entry. *)
Definition history_row (e : env) (item : history_item) : list button :=
  [CallbackButton (item_name item) ("history_" ++ py_str e (item_cid item))].

Definition back_row : list button := [CallbackButton "↩️ Назад" "back_to_menu"].

(** The message that ends a comparison: the comparison, or the error text
    when it cannot be computed. *)
Definition comparison_message (e : env) (first second : compound) : api_call :=
  match comparison_text e first second with
  | Some text => reply_text (Text text) (Some create_main_menu) (Some "Markdown")
  | None => reply_text (Text "Ошибка при сравнении.") (Some create_main_menu) None
  end.

(** The history entry of a found record. *)
Definition history_entry (e : env) (r : compound) : history_item :=
  {| item_name := Name r; item_cid := CID r; item_time := now e |}.

(** What the [history] button shows for a stored list. *)
Definition history_message (e : env) (all : list history_item) : api_call :=
  match all with
  | [] => edit_message_text (Text "История поиска пуста.")
            (Some create_main_menu) (Some "Markdown")
  | _ => edit_message_text (Text "🔍 История поиска:")
           (Some (history_keyboard e (last_n 5 all))) None
  end.

(** The handlers that [main] registers for callback queries inside the two
    conversations. *)
Definition search_entry : handler := CallbackQueryHandler search_command (Some "search").
Definition compare_entry : handler := CallbackQueryHandler compare_command (Some "compare").
Definition back_fallback : handler :=
  CallbackQueryHandler show_main_menu_fallback (Some "back_to_menu").

Arguments startswith : simpl never.
Arguments replace : simpl never.
Arguments re_match_exact : simpl never.

(** [m] leaves the part [proj] of the world as it was, whether it returns
    or raises. *)
Definition keeps {X A} (proj : world -> X) (m : M A) : Prop :=
  forall w, proj (snd (m w)) = proj w.

(* ===================================================================== *)
(** * Sample data for the examples                                         *)
(* ===================================================================== *)

Definition sample_pc (formula : string) (weight : option pyval) (iupac : string)
  : pc_compound :=
  {| atoms_fstring := Some formula;
     coords_weight := weight;
     props := {[ "IUPAC Name" := iupac ]} |}.

(** A PubChem that knows three compounds: two with a weight, one without;
    every Bot API call and every image download succeeds. *)
Definition sample_env : env :=
  {| float_of_str := fun _ => None;
     str_of_float := format_2f_float;
     name_cids := fun q =>
       if String.eqb q "aspirin" then Some (PyInt 2244)
       else if String.eqb q "glycolic acid" then Some (PyInt 757)
       else if String.eqb q "mixture" then Some (PyInt 1)
       else None;
     cid_record := fun c =>
       if String.eqb c "2244"
       then Some (sample_pc "C9H8O4" (Some (PyFloat (float_literal 18016 2)))
                    "2-acetyloxybenzoic acid")
       else if String.eqb c "757"
       then Some (sample_pc "C2H4O3" (Some (PyFloat (float_literal 7605 2)))
                    "2-hydroxyacetic acid")
       else if String.eqb c "1"
       then Some (sample_pc "N/A" None "N/A")
       else None;
     random_cid := Some (PyInt 2244);
     similar_cids := fun _ _ => Some [PyInt 757];
     image_status := fun _ => Some 200;
     tg_ok := fun _ _ => true;
     now := fzero |}.

(** The same, with a Bot API that refuses a [text] that is not a string. *)
Definition strict_env : env :=
  {| float_of_str := float_of_str sample_env;
     str_of_float := str_of_float sample_env;
     name_cids := name_cids sample_env;
     cid_record := cid_record sample_env;
     random_cid := random_cid sample_env;
     similar_cids := similar_cids sample_env;
     image_status := image_status sample_env;
     tg_ok := fun _ c =>
       match c with
       | edit_message_text ContextObject _ _ | reply_text ContextObject _ _ => false
       | _ => true
       end;
     now := now sample_env |}.

(** A PubChem that is down. *)
Definition offline_env : env :=
  {| float_of_str := fun _ => None;
     str_of_float := format_2f_float;
     name_cids := fun _ => None;
     cid_record := fun _ => None;
     random_cid := None;
     similar_cids := fun _ _ => None;
     image_status := fun _ => None;
     tg_ok := fun _ _ => true;
     now := fzero |}.

Definition sample_record (cid : Z) (name formula : string) (weight : pyval) : compound :=
  {| CID := PyInt cid; Name := name; MolecularFormula := formula;
     MolecularWeight := weight; IUPACName := "N/A"; CanonicalSMILES := "N/A";
     InChIKey := "N/A";
     image_url := PubChemClient.BASE_URL ++ "/compound/cid/" ++ str_of_int cid ++ "/PNG";
     pubchem_url := "https://pubchem.ncbi.nlm.nih.gov/compound/" ++ str_of_int cid |}.

Definition aspirin : compound :=
  sample_record 2244 "aspirin" "C9H8O4" (PyFloat (float_literal 18016 2)).
Definition glycolic_acid : compound :=
  sample_record 757 "glycolic acid" "C2H4O3" (PyFloat (float_literal 7605 2)).
Definition mixture : compound :=
  sample_record 1 "mixture" "N/A" (PyStr "N/A").

(** A record whose weight is a text that is not a number; [sample_env]
    reads no text as a number. *)
Definition unreadable : compound :=
  sample_record 2 "unreadable" "N/A" (PyStr "heavy").

(* ===================================================================== *)
(** * Further notions for the properties of the whole program              *)
(* ===================================================================== *)

(** [old in s], for a non-empty [old]: some suffix of [s] starts with it. *)
Fixpoint occurs (old s : string) : bool :=
  match s with
  | EmptyString => false
  | String c s' => startswith s old || occurs old s'
  end.

(** The first character of a text is not the minus sign. *)
Definition unsigned_text (s : string) : Prop :=
  match s with
  | EmptyString => False
  | String c _ => c <> "-"%char
  end.

(** A float that is not negative: its sign bit is clear. *)
Definition sign_clear (x : float) : Prop :=
  match x with
  | S754_zero s | S754_infinity s | S754_finite s _ _ => s = false
  | S754_nan => True
  end.

(** The rows of the keyboards of the examples menu. *)
Definition category_row (entry : string * list (string * string)) : list button :=
  [CallbackButton (fst entry) ("category_" ++ fst entry)].

Definition example_row (example : string * string) : list button :=
  [CallbackButton (fst example) ("search_" ++ snd example)].

(** The prompts of the two flows. *)
Definition search_prompt : api_call :=
  edit_message_text (Text "🔍 Введите название молекулы или её CID:")
    (Some (back_markup "back_to_menu")) None.

Definition compare_prompt : api_call :=
  edit_message_text (Text "⚖️ Введите название или CID первой молекулы:")
    (Some (back_markup "back_to_menu")) None.

(** The tokens that some handler of [main] acts on: the entry and fallback
    patterns of the conversations and the tests of [button_handler]. *)
Definition known_token (data : string) : bool :=
  re_match_exact "search" data || re_match_exact "compare" data ||
  re_match_exact "back_to_menu" data ||
  String.eqb data "random" || String.eqb data "examples" ||
  String.eqb data "history" || String.eqb data "favorites" ||
  String.eqb data "help" ||
  startswith data "category_" || startswith data "search_" ||
  startswith data "history_" || startswith data "similar_" ||
  startswith data "save_" || startswith data "remove_".


(** The main menu as a new message. *)
Definition main_menu_reply : api_call :=
  reply_text (Text main_menu_text) (Some create_main_menu) (Some "Markdown").

(** [message.from_user.id] of the message that [process_chemical_search]
    gets for an update: the message of the update itself, or the message
    that carries the pressed button. *)
Definition history_key (upd : update) : Z :=
  match upd with
  | CallbackQuery _ _ message_from_user _ => message_from_user
  | TextMessage _ u _ | CommandMessage _ u _ _ | EditedMessage _ u _ _ => u
  end.

(** One update leaves the history, or appends the entry of a record for
    [k]. *)
Definition history_steps (e : env) (k : Z) (w w' : world) : Prop :=
  SEARCH_HISTORY w' = SEARCH_HISTORY w \/
  exists r, SEARCH_HISTORY w' = append_history k (history_entry e r) (SEARCH_HISTORY w).

(** The updates that [run_polling] hands to the application, one after the
    other, each with the answers of the outside world at its time. *)
Fixpoint run_polling (es : list (env * update)) (w : world) : world :=
  match es with
  | [] => w
  | (e, upd) :: rest => run_polling rest (process_update e upd w)
  end.

(** The conversation tables hold the states of their own handler, and a
    compare conversation that awaits the second term has a pending record. *)
Definition well_formed (w : world) : Prop :=
  (forall ch u s, search_conv w !! (ch, u) = Some s -> s = SEARCH) /\
  (forall ch u s, compare_conv w !! (ch, u) = Some s ->
     s = COMPARE_FIRST \/ (s = COMPARE_SECOND /\ user_data w !! u <> None)).

(** No Bot API call succeeds. *)
Definition transport_down (e : env) : Prop := forall n c, tg_ok e n c = false.

(** [m] lets an exception escape, whatever the state. *)
Definition raises {A} (m : M A) : Prop := forall w, fst (m w) = Raise.

(** The sample PubChem behind a Bot API that is down. *)
Definition down_env : env :=
  {| float_of_str := float_of_str sample_env;
     str_of_float := str_of_float sample_env;
     name_cids := name_cids sample_env;
     cid_record := cid_record sample_env;
     random_cid := random_cid sample_env;
     similar_cids := similar_cids sample_env;
     image_status := image_status sample_env;
     tg_ok := fun _ _ => false;
     now := now sample_env |}.

(** The number of calls of a log that succeeded. *)
Definition delivered (log : list (api_call * bool)) : nat :=
  length (List.filter snd log).

(** The record as a picture with caption, and as text. *)
Definition record_photo (e : env) (r : compound) : api_call :=
  reply_photo (image_url r) (format_molecule_info e r)
    (Some (molecule_keyboard e r)) (Some "Markdown").

Definition record_text (e : env) (r : compound) : api_call :=
  reply_text (Text (format_molecule_info e r)) (Some create_main_menu) (Some "Markdown").

(** What the [favorites] button shows for a stored list. *)
Definition favorites_message (favs : list (string * string)) : api_call :=
  match favs with
  | [] => edit_message_text (Text "У вас нет сохранённых молекул.")
            (Some create_main_menu) (Some "Markdown")
  | _ => edit_message_text (Text "⭐ Избранные молекулы:")
           (Some (favorites_keyboard favs)) None
  end.

(** [m] keeps the property [P] of the world, whether it returns or
    raises. *)
Definition preserves {A} (P : world -> Prop) (m : M A) : Prop :=
  forall w, P w -> P (snd (m w)).

(** No identifier is listed twice among the favorites of a user. *)
Definition unique_favorites (w : world) : Prop :=
  forall u favs, FAVORITES w !! u = Some favs -> NoDup (map fst favs).

(** The tokens of the menus that only show something. *)
Definition navigation_token (data : string) : bool :=
  String.eqb data "random" || String.eqb data "examples" ||
  String.eqb data "history" || String.eqb data "favorites" ||
  String.eqb data "help" || startswith data "category_".

(** The row of the keyboard of similar records for the [i]-th of them. *)
Definition similar_row (e : env) (i : nat) (cid : pyval) : list button :=
  [CallbackButton ("Молекула " ++ str_of_int (Z.of_nat i + 1))
                  ("history_" ++ py_str e cid)].

(** Two records that differ in the name and in the form of the identifier
    at most. *)
Definition same_compound (e : env) (r r' : compound) : Prop :=
  py_str e (CID r') = py_str e (CID r) /\
  MolecularFormula r' = MolecularFormula r /\
  MolecularWeight r' = MolecularWeight r /\
  IUPACName r' = IUPACName r /\
  CanonicalSMILES r' = CanonicalSMILES r /\
  InChIKey r' = InChIKey r /\
  image_url r' = image_url r /\
  pubchem_url r' = pubchem_url r.
(* ===================================================================== *)
(** * Strings and tokens                                                   *)
(* ===================================================================== *)

Section Tokens.

Lemma startswith_cons (a b : ascii) (s p : string) :
  startswith (String b s) (String a p) = Ascii.eqb a b && startswith s p.
Proof. reflexivity. Qed.

Lemma startswith_app (p s : string) : startswith (p ++ s) p = true.
Proof.
  induction p as [|c p IH]; [reflexivity|].
  change (String c p ++ s) with (String c (p ++ s)).
  rewrite startswith_cons, Ascii.eqb_refl. exact IH.
Qed.

Lemma replace_from_skip (old new a s : string) :
  replace_from old new (String.length a) (a ++ s) = replace_from old new O s.
Proof. induction a as [|c a IH]; [reflexivity | exact IH]. Qed.

(** A text none of whose characters is the first character of [old] holds
    no occurrence of [old]. *)
Lemma replace_from_id_string (c0 : ascii) (old' new s : string) :
  id_char c0 = false -> id_string s = true ->
  replace_from (String c0 old') new O s = s.
Proof.
  intros Hc. induction s as [|c s IH]; [reflexivity|].
  cbn [id_string]. intros [Hid Hs]%andb_true_iff.
  cbn [replace_from]. rewrite startswith_cons.
  destruct (Ascii.eqb c0 c) eqn:E.
  - apply Ascii.eqb_eq in E. subst c. congruence.
  - cbn [andb]. f_equal. exact (IH Hs).
Qed.

(** Stripping the prefix of a token gives back the identifier after it. *)
Lemma replace_token (c0 : ascii) (p' s : string) :
  id_char c0 = false -> id_string s = true ->
  replace (String c0 p' ++ s) (String c0 p') "" = s.
Proof.
  intros Hc Hs. unfold replace.
  change (String c0 p' ++ s) with (String c0 (p' ++ s)).
  cbn [replace_from].
  change (String c0 (p' ++ s)) with (String c0 p' ++ s).
  rewrite startswith_app.
  change (Nat.pred (String.length (String c0 p'))) with (String.length p').
  rewrite replace_from_skip. apply replace_from_id_string; assumption.
Qed.

Lemma id_string_uint (d : Decimal.uint) : id_string (NilEmpty.string_of_uint d) = true.
Proof. induction d; cbn; auto. Qed.

Lemma id_string_nilzero (d : Decimal.uint) : id_string (NilZero.string_of_uint d) = true.
Proof. destruct d; [reflexivity | ..]; exact (id_string_uint _). Qed.

(** The decimal text of an integer is an identifier text. *)
Lemma id_string_str_of_int (z : Z) : id_string (str_of_int z) = true.
Proof.
  unfold str_of_int. destruct (Z.to_int z) as [d|d].
  - exact (id_string_nilzero d).
  - change (id_char "-" && id_string (NilZero.string_of_uint d) = true).
    rewrite id_string_nilzero. reflexivity.
Qed.

End Tokens.

(* ===================================================================== *)
(** * Frame reasoning: what a handler leaves alone                         *)
(* ===================================================================== *)

Section Frame.
Context {X : Type} (proj : world -> X).
#[local] Abbreviation keeps := (keeps proj).

Hypothesis proj_outbox : forall o w, proj (set_outbox o w) = proj w.

Lemma keeps_ret {A} (a : A) : keeps (ret a).
Proof. intros w. reflexivity. Qed.

Lemma keeps_raise {A} : keeps (@raise A).
Proof. intros w. reflexivity. Qed.

Lemma keeps_get_world : keeps get_world.
Proof. intros w. reflexivity. Qed.

Lemma keeps_bind {A B} (m : M A) (k : A -> M B) :
  keeps m -> (forall a, keeps (k a)) -> keeps (bind m k).
Proof.
  intros Hm Hk w. unfold bind. specialize (Hm w).
  destruct (m w) as [[a|] w1]; cbn [snd] in *; [ | exact Hm].
  rewrite Hk. exact Hm.
Qed.

Lemma keeps_try_except {A} (m h : M A) :
  keeps m -> keeps h -> keeps (try_except m h).
Proof.
  intros Hm Hh w. unfold try_except. specialize (Hm w).
  destruct (m w) as [[a|] w1]; cbn [snd] in *; [exact Hm | ].
  rewrite Hh. exact Hm.
Qed.

Lemma keeps_call e c : keeps (call e c).
Proof. intros w. unfold call. cbn [snd]. apply proj_outbox. Qed.

Lemma keeps_modify (f : world -> world) :
  (forall w, proj (f w) = proj w) -> keeps (modify f).
Proof. intros Hf w. cbn. apply Hf. Qed.
End Frame.

Create HintDb handlers.

#[local] Hint Unfold
  start help_command search_command handle_search handle_message random_molecule
  compare_command compare_first compare_second send_comparison show_history
  show_favorites show_examples show_category button_handler
  show_main_menu_fallback show_main_menu safe_edit_or_reply
  process_chemical_search send_molecule_info : handlers.

Ltac keeps_step :=
  lazymatch goal with
  | |- keeps _ (ret _) => apply keeps_ret
  | |- keeps _ raise => apply keeps_raise
  | |- keeps _ get_world => apply keeps_get_world
  | |- keeps _ (call _ _) => apply keeps_call; reflexivity
  | |- keeps _ (modify _) => apply keeps_modify; intros; reflexivity
  | |- keeps _ (try_except _ _) => apply keeps_try_except
  | |- keeps _ (bind _ _) => apply keeps_bind; [ | intros ]
  | |- keeps _ (match ?x with _ => _ end) => destruct x
  | |- keeps _ _ => progress autounfold with handlers
  end.

Ltac keeps_tac := repeat keeps_step.

Section HandlersKeep.
Variables (e : env) (upd : update).

(** Only a conversation handler writes a conversation table. *)
Lemma button_handler_keeps_search_conv : keeps search_conv (button_handler e upd).
Proof. keeps_tac. Qed.

Lemma button_handler_keeps_compare_conv : keeps compare_conv (button_handler e upd).
Proof. keeps_tac. Qed.

(** Only [compare_first] writes the pending record. *)
Lemma button_handler_keeps_user_data : keeps user_data (button_handler e upd).
Proof. keeps_tac. Qed.

End HandlersKeep.

(* ===================================================================== *)
(** * Which handler gets an update                                         *)
(* ===================================================================== *)

Section Routing.
Variable e : env.

(** The state handlers of both conversations are message handlers: inside
    a conversation a callback query can only reach the fallback. *)
Lemma search_states_no_callback s ch u m d :
  first_match (states_get (states search_conv_handler) s) (CallbackQuery ch u m d) = None.
Proof.
  cbn [states search_conv_handler states_get].
  destruct (SEARCH =? s); reflexivity.
Qed.

Lemma compare_states_no_callback s ch u m d :
  first_match (states_get (states compare_conv_handler) s) (CallbackQuery ch u m d) = None.
Proof.
  cbn [states compare_conv_handler states_get].
  destruct (COMPARE_FIRST =? s); [reflexivity|].
  destruct (COMPARE_SECOND =? s); reflexivity.
Qed.

(** A callback query goes to the search conversation when that one starts
    ([search]) or is under way and the token is [back_to_menu]; else to
    the compare conversation on the same terms; else to [button_handler]. *)
Lemma dispatch_callback_query ch u m data w :
  dispatch main e (CallbackQuery ch u m data) w =
  let upd := CallbackQuery ch u m data in
  let via_button := (let* _ := button_handler e upd in ret tt) w in
  let via_compare :=
    match compare_conv w !! (ch, u) with
    | None =>
        if re_match_exact "compare" data
        then conv_handle_update compare_conv_handler compare_entry e upd w
        else via_button
    | Some _ =>
        if re_match_exact "back_to_menu" data
        then conv_handle_update compare_conv_handler back_fallback e upd w
        else via_button
    end in
  match search_conv w !! (ch, u) with
  | None =>
      if re_match_exact "search" data
      then conv_handle_update search_conv_handler search_entry e upd w
      else via_compare
  | Some _ =>
      if re_match_exact "back_to_menu" data
      then conv_handle_update search_conv_handler back_fallback e upd w
      else via_compare
  end.
Proof.
  cbv zeta. unfold main, dispatch, conv_check_update, conversation_key.
  cbn [check_update CommandHandler MessageHandler CallbackQueryHandler
       conversations search_conv_handler compare_conv_handler effective_user
       effective_chat conversation_key
       entry_points fallbacks].
  pose proof (search_states_no_callback) as Hs.
  pose proof (compare_states_no_callback) as Hc.
  cbn [states search_conv_handler compare_conv_handler] in Hs, Hc.
  destruct (search_conv w !! (ch, u)) as [s|], (compare_conv w !! (ch, u)) as [c|];
    rewrite ?Hs, ?Hc; unfold first_match;
    cbn [List.find check_update CallbackQueryHandler];
    unfold search_entry, compare_entry, back_fallback;
    destruct (re_match_exact "back_to_menu" data);
    destruct (re_match_exact "search" data);
    destruct (re_match_exact "compare" data); reflexivity.
Qed.

(** A text message goes to the search conversation when that one awaits
    the query, else to the compare conversation when it awaits a term, else
    to [handle_message]. *)
Lemma dispatch_text_message ch u t w :
  dispatch main e (TextMessage ch u t) w =
  let upd := TextMessage ch u t in
  let via_message := (let* _ := handle_message e upd in ret tt) w in
  let via_compare :=
    match compare_conv w !! (ch, u) with
    | Some s =>
        if COMPARE_FIRST =? s
        then conv_handle_update compare_conv_handler (MessageHandler compare_first) e upd w
        else if COMPARE_SECOND =? s
        then conv_handle_update compare_conv_handler (MessageHandler compare_second) e upd w
        else via_message
    | None => via_message
    end in
  match search_conv w !! (ch, u) with
  | Some s =>
      if SEARCH =? s
      then conv_handle_update search_conv_handler (MessageHandler handle_search) e upd w
      else via_compare
  | None => via_compare
  end.
Proof.
  cbv zeta. unfold main, dispatch, conv_check_update, conversation_key.
  cbn [check_update CommandHandler MessageHandler CallbackQueryHandler
       conversations search_conv_handler compare_conv_handler effective_user
       effective_chat conversation_key
       entry_points fallbacks states states_get].
  destruct (search_conv w !! (ch, u)) as [s|], (compare_conv w !! (ch, u)) as [c|];
    try destruct (SEARCH =? s); try destruct (COMPARE_FIRST =? c);
    try destruct (COMPARE_SECOND =? c); reflexivity.
Qed.

(** A command is handled when it is [/start], in any letter case, and
    dropped otherwise. *)
Lemma dispatch_command_message ch u c t w :
  dispatch main e (CommandMessage ch u c t) w =
  if String.eqb (lower c) "start"
  then (let* _ := start e (CommandMessage ch u c t) in ret tt) w
  else (Ok tt, w).
Proof.
  unfold main, dispatch, conv_check_update, conversation_key.
  cbn [check_update CommandHandler MessageHandler CallbackQueryHandler
       conversations search_conv_handler compare_conv_handler effective_user
       effective_chat entry_points fallbacks states states_get].
  change (lower "start") with "start".
  destruct (String.eqb (lower c) "start"); [reflexivity|].
  destruct (search_conv w !! (ch, u)) as [s|], (compare_conv w !! (ch, u)) as [c'|];
    try destruct (SEARCH =? s); try destruct (COMPARE_FIRST =? c');
    try destruct (COMPARE_SECOND =? c'); reflexivity.
Qed.

(** The edit of a message reaches the handlers of its kind, and each of
    them raises at [update.message] before it does anything. *)
Lemma dispatch_edited_message ch u oc t w :
  snd (dispatch main e (EditedMessage ch u oc t) w) = w.
Proof.
  unfold main, dispatch, conv_check_update, conversation_key, conv_handle_update.
  cbn [check_update CommandHandler MessageHandler CallbackQueryHandler
       conversations search_conv_handler compare_conv_handler effective_user
       effective_chat entry_points fallbacks states states_get].
  change (lower "start") with "start".
  destruct oc as [c|].
  - destruct (String.eqb (lower c) "start"); [reflexivity|].
    destruct (search_conv w !! (ch, u)) as [s|], (compare_conv w !! (ch, u)) as [c'|];
      try destruct (SEARCH =? s); try destruct (COMPARE_FIRST =? c');
      try destruct (COMPARE_SECOND =? c'); reflexivity.
  - destruct (search_conv w !! (ch, u)) as [s|], (compare_conv w !! (ch, u)) as [c'|];
      try destruct (SEARCH =? s); try destruct (COMPARE_FIRST =? c');
      try destruct (COMPARE_SECOND =? c'); reflexivity.
Qed.

(** What a conversation handler adds to its callback is the update of its
    own table. *)
Lemma conv_handle_update_keeps {X} (proj : world -> X) c h upd :
  (forall t w, proj (set_conversations c t w) = proj w) ->
  keeps proj (callback h e upd) ->
  keeps proj (conv_handle_update c h e upd).
Proof.
  intros Hset Hcb. unfold conv_handle_update, conversation_key.
  apply keeps_bind; [exact Hcb | intros a].
  apply keeps_modify. intros w. apply Hset.
Qed.

(** A callback that returns [None] or raises leaves the conversation
    where it is. *)
Lemma conv_handle_update_none c h upd w :
  (forall t w', conversations c (set_conversations c t w') = t) ->
  keeps (conversations c) (callback h e upd) ->
  (forall a w', callback h e upd w = (Ok a, w') -> a = None) ->
  conversations c (snd (conv_handle_update c h e upd w)) = conversations c w.
Proof.
  intros Hget Hk Hnone. unfold conv_handle_update, bind.
  specialize (Hk w). specialize (Hnone).
  destruct (callback h e upd w) as [[a|] w'] eqn:E; cbn [snd] in *.
  - rewrite (Hnone a w' eq_refl). cbn. rewrite Hget. exact Hk.
  - exact Hk.
Qed.
End Routing.

(* ===================================================================== *)
(** * The cancel button                                                    *)
(* ===================================================================== *)

Lemma fallback_returns_none e upd w a w' :
  show_main_menu_fallback e upd w = (Ok a, w') -> a = None.
Proof.
  unfold show_main_menu_fallback, bind, ret.
  destruct (show_main_menu e upd ContextObject w) as [[[]|] w1]; congruence.
Qed.

(** Pressing [back_to_menu] changes neither conversation table nor the
    pending record, whatever the state.  Inside a conversation the
    registered fallback [show_main_menu] returns [None] (or raises on its
    [text] argument), so the conversation handler keeps its state; outside
    one, [button_handler] shows the menu. *)
Lemma back_to_menu_keeps_tables (e : env) (ch u m : Z) (w : world) :
  let w' := process_update e (CallbackQuery ch u m "back_to_menu") w in
  search_conv w' = search_conv w /\
  compare_conv w' = compare_conv w /\
  user_data w' = user_data w.
Proof.
  cbv zeta. unfold process_update. rewrite dispatch_callback_query. cbv zeta.
  change (re_match_exact "back_to_menu" "back_to_menu") with true.
  change (re_match_exact "search" "back_to_menu") with false.
  change (re_match_exact "compare" "back_to_menu") with false.
  cbv iota.
  assert (Hb : forall X (proj : world -> X),
             (forall o w0, proj (set_outbox o w0) = proj w0) ->
             keeps proj (callback back_fallback e (CallbackQuery ch u m "back_to_menu"))).
  { intros X proj Hp. cbn [callback back_fallback CallbackQueryHandler].
    unfold show_main_menu_fallback, show_main_menu, safe_edit_or_reply.
    repeat first [ apply keeps_bind; [|intros] | apply keeps_try_except
                 | apply keeps_call; exact Hp | apply keeps_ret ]. }
  assert (Hbutton : forall X (proj : world -> X),
             keeps proj (button_handler e (CallbackQuery ch u m "back_to_menu")) ->
             proj (snd ((let* _ := button_handler e (CallbackQuery ch u m "back_to_menu")
                         in ret tt) w)) = proj w).
  { intros X proj Hk. apply (keeps_bind proj); [exact Hk | intros; apply keeps_ret]. }
  destruct (search_conv w !! (ch, u)) as [s|]; [ | destruct (compare_conv w !! (ch, u)) as [c|] ].
  - split; [ | split ].
    + apply (conv_handle_update_none e search_conv_handler).
      * reflexivity.
      * apply Hb. reflexivity.
      * intros a w'. apply fallback_returns_none.
    + apply (conv_handle_update_keeps e compare_conv); [reflexivity | apply Hb; reflexivity].
    + apply (conv_handle_update_keeps e user_data); [reflexivity | apply Hb; reflexivity].
  - split; [ | split ].
    + apply (conv_handle_update_keeps e search_conv); [reflexivity | apply Hb; reflexivity].
    + apply (conv_handle_update_none e compare_conv_handler).
      * reflexivity.
      * apply Hb. reflexivity.
      * intros a w'. apply fallback_returns_none.
    + apply (conv_handle_update_keeps e user_data); [reflexivity | apply Hb; reflexivity].
  - split; [ | split ]; apply Hbutton.
    + apply button_handler_keeps_search_conv.
    + apply button_handler_keeps_compare_conv.
    + apply button_handler_keeps_user_data.
Qed.

(** C2, the code at the failing input: in every state the [back_to_menu]
    button leaves the conversation state of the user and the pending record
    as they were.  A user who pressed [compare] and then the back button
    still awaits the first term: the fallback passes the callback context as
    the text of the menu, which the Bot API refuses, and the text typed next
    is taken as the first term; with a record pending, the back button keeps
    it pending. *)
Theorem back_to_menu_does_not_cancel :
  (forall e ch u m w,
      let w' := process_update e (CallbackQuery ch u m "back_to_menu") w in
      spec_state w' ch u = spec_state w ch u /\ user_data w' = user_data w) /\
  (let w0 := process_update strict_env (CallbackQuery 7 7 99 "compare") initial_world in
   let w1 := process_update strict_env (CallbackQuery 7 7 99 "back_to_menu") w0 in
   let w2 := process_update strict_env (TextMessage 7 7 "aspirin") w1 in
   let w3 := process_update strict_env (CallbackQuery 7 7 99 "back_to_menu") w2 in
   spec_state w0 7 7 = Some AwaitingFirstCompareTerm /\
   spec_state w1 7 7 = Some AwaitingFirstCompareTerm /\
   outbox w1 = (outbox w0 ++
                  [(edit_message_text ContextObject (Some create_main_menu)
                      (Some "Markdown"), false);
                   (reply_text ContextObject (Some create_main_menu)
                      (Some "Markdown"), false)])%list /\
   outbox w2 = (outbox w1 ++
                  [(reply_text (Text "Теперь введите вторую молекулу:")
                      (Some (back_markup "back_to_menu")) None, true)])%list /\
   exists r, spec_state w2 7 7 = Some (AwaitingSecondCompareTerm r) /\
             spec_state w3 7 7 = Some (AwaitingSecondCompareTerm r)).
Proof.
  split.
  - intros e ch u m w. cbv zeta.
    destruct (back_to_menu_keeps_tables e ch u m w) as (Hs & Hc & Hd).
    cbv zeta in Hs, Hc, Hd.
    split; [ | exact Hd]. unfold spec_state. rewrite Hs, Hc, Hd. reflexivity.
  - cbv zeta.
    split; [vm_compute; reflexivity | ].
    split; [vm_compute; reflexivity | ].
    split; [vm_compute; reflexivity | ].
    split; [vm_compute; reflexivity | ].
    eexists. split; vm_compute; reflexivity.
Qed.

(* ===================================================================== *)
(** * The comparison                                                       *)
(* ===================================================================== *)

Section Comparison.

Lemma float_of_int_0 : float_of_int 0 = Some fzero.
Proof. reflexivity. Qed.

Lemma fabs_fsub_zero_l (x : float) : fabs (fsub fzero x) = fabs x.
Proof. destruct x as [[]|[]| |[] m ex]; reflexivity. Qed.

Lemma fabs_fsub_zero_r (x : float) : fabs (fsub x fzero) = fabs x.
Proof. destruct x as [[]|[]| |[] m ex]; reflexivity. Qed.

Lemma weight_number_known e c x :
  is_not_NA (MolecularWeight c) = true -> py_float e (MolecularWeight c) = Some x ->
  weight_number e c = Some (NFloat x).
Proof. intros Hna Hx. unfold weight_number. rewrite Hna, Hx. reflexivity. Qed.

Lemma weight_number_unknown e c :
  MolecularWeight c = PyStr "N/A" -> weight_number e c = Some (NInt 0).
Proof. intros H. unfold weight_number. rewrite H. reflexivity. Qed.

(** The literals of the examples are the binary64 numbers nearest to the
    decimals: the error is at most half a unit in the last place. *)
Lemma float_literal_180_16 :
  float_literal 18016 2 = S754_finite false 6338816475523973 (-45) /\
  2 * Z.abs (100 * 6338816475523973 - 18016 * 2 ^ 45) <= 100.
Proof. split; [vm_compute; reflexivity | vm_compute; discriminate]. Qed.

Lemma float_literal_76_05 :
  float_literal 7605 2 = S754_finite false 5351542994711347 (-46) /\
  2 * Z.abs (100 * 5351542994711347 - 7605 * 2 ^ 46) <= 100.
Proof. split; [vm_compute; reflexivity | vm_compute; discriminate]. Qed.

(** With a working transport a comparison ends in one message, the one of
    [comparison_message]. *)
Lemma send_comparison_ok e first second w :
  transport_ok e ->
  send_comparison e first second w
  = (Ok tt, set_outbox (outbox w ++ [(comparison_message e first second, true)]) w).
Proof.
  intros Hok. unfold send_comparison, comparison_message, try_except, call, raise.
  destruct (comparison_text e first second) as [text|]; rewrite Hok; reflexivity.
Qed.

(** A weight that is there and cannot be read as a number. *)
Lemma weight_number_unreadable e c :
  is_not_NA (MolecularWeight c) = true -> py_float e (MolecularWeight c) = None ->
  weight_number e c = None.
Proof. intros Hna Hx. unfold weight_number. rewrite Hna, Hx. reflexivity. Qed.

Lemma comparison_text_unreadable e first second :
  weight_number e first = None \/ weight_number e second = None ->
  comparison_text e first second = None.
Proof.
  unfold comparison_text, mass_diff. intros [H | H]; rewrite H; [reflexivity | ].
  destruct (weight_number e first); reflexivity.
Qed.

End Comparison.

(** C1, as the code has it: with both weights present the difference is the
    absolute value of their difference; a weight that is ['N/A'] is read as
    the number [0], so the difference is then the absolute value of the other
    weight, and [0] (printed [0.00]) when both are ['N/A'].  The message of a
    comparison reports the two-decimal text of that difference in its last
    line; when a weight is there and cannot be read as a number the message
    is the error text.  With a working transport that message is the one
    call made, and no exception escapes; in general the message is tried
    first, the error text is tried when a comparison could not be sent, and
    an exception escapes only when the transport refused the last call. *)
Theorem mass_diff_reads_unknown_as_zero (e : env) (first second : compound) :
  (forall x1 x2,
      is_not_NA (MolecularWeight first) = true ->
      py_float e (MolecularWeight first) = Some x1 ->
      is_not_NA (MolecularWeight second) = true ->
      py_float e (MolecularWeight second) = Some x2 ->
      mass_diff e first second = Some (NFloat (fabs (fsub x1 x2)))) /\
  (forall x2,
      MolecularWeight first = PyStr "N/A" ->
      is_not_NA (MolecularWeight second) = true ->
      py_float e (MolecularWeight second) = Some x2 ->
      mass_diff e first second = Some (NFloat (fabs x2))) /\
  (forall x1,
      is_not_NA (MolecularWeight first) = true ->
      py_float e (MolecularWeight first) = Some x1 ->
      MolecularWeight second = PyStr "N/A" ->
      mass_diff e first second = Some (NFloat (fabs x1))) /\
  (MolecularWeight first = PyStr "N/A" ->
   MolecularWeight second = PyStr "N/A" ->
   mass_diff e first second = Some (NInt 0) /\
   comparison_text e first second =
   Some (comparison_header e first second ++ "📊 Разница масс: `0.00`")) /\
  (forall d diff,
      mass_diff e first second = Some d ->
      format_2f d = Some diff ->
      comparison_message e first second
      = reply_text
          (Text (comparison_header e first second ++ "📊 Разница масс: `" ++ diff ++ "`"))
          (Some create_main_menu) (Some "Markdown")) /\
  ((is_not_NA (MolecularWeight first) = true /\
    py_float e (MolecularWeight first) = None) \/
   (is_not_NA (MolecularWeight second) = true /\
    py_float e (MolecularWeight second) = None) ->
   comparison_message e first second
   = reply_text (Text "Ошибка при сравнении.") (Some create_main_menu) None) /\
  (transport_ok e ->
   forall w,
     send_comparison e first second w
     = (Ok tt, set_outbox (outbox w ++ [(comparison_message e first second, true)]) w)) /\
  (forall w,
     let c := comparison_message e first second in
     let sent := tg_ok e (length (outbox w)) c in
     let w1 := set_outbox (outbox w ++ [(c, sent)]) w in
     send_comparison e first second w
     = if sent then (Ok tt, w1)
       else match comparison_text e first second with
            | Some _ =>
                call e (reply_text (Text "Ошибка при сравнении.")
                          (Some create_main_menu) None) w1
            | None => (Raise, w1)
            end).
Proof.
  split; [ | split; [ | split; [ | split; [ | split; [ | split; [ | split] ] ] ] ] ].
  - intros x1 x2 N1 F1 N2 F2. unfold mass_diff.
    rewrite (weight_number_known e first x1 N1 F1).
    rewrite (weight_number_known e second x2 N2 F2). reflexivity.
  - intros x2 N1 N2 F2. unfold mass_diff.
    rewrite (weight_number_unknown e first N1).
    rewrite (weight_number_known e second x2 N2 F2).
    cbn [Py.sub]. rewrite float_of_int_0. cbn [option_map Py.abs].
    rewrite fabs_fsub_zero_l. reflexivity.
  - intros x1 N1 F1 N2. unfold mass_diff.
    rewrite (weight_number_known e first x1 N1 F1).
    rewrite (weight_number_unknown e second N2).
    cbn [Py.sub]. rewrite float_of_int_0. cbn [option_map Py.abs].
    rewrite fabs_fsub_zero_r. reflexivity.
  - intros N1 N2. unfold comparison_text, mass_diff.
    rewrite (weight_number_unknown e first N1), (weight_number_unknown e second N2).
    split; reflexivity.
  - intros d diff Hd Hf. unfold comparison_message, comparison_text.
    rewrite Hd, Hf. reflexivity.
  - intros H. unfold comparison_message.
    rewrite comparison_text_unreadable; [reflexivity | ].
    destruct H as [ [N F] | [N F] ];
      [left | right]; apply weight_number_unreadable; assumption.
  - intros Hok w. apply send_comparison_ok. exact Hok.
  - intros w. cbv zeta. unfold send_comparison, comparison_message, try_except, raise.
    destruct (comparison_text e first second) as [text|]; unfold call at 1;
      match goal with
      | |- context [tg_ok e ?n ?c] => destruct (tg_ok e n c)
      end; reflexivity.
Qed.

Lemma mass_diff_reads_unknown_as_zero_witness :
  mass_diff sample_env aspirin glycolic_acid =
    Some (NFloat (fabs (fsub (float_literal 18016 2) (float_literal 7605 2)))) /\
  mass_diff sample_env mixture glycolic_acid = Some (NFloat (fabs (float_literal 7605 2))) /\
  mass_diff sample_env aspirin mixture = Some (NFloat (fabs (float_literal 18016 2))) /\
  mass_diff sample_env mixture mixture = Some (NInt 0) /\
  send_comparison sample_env mixture aspirin initial_world
  = (Ok tt,
     set_outbox
       [(reply_text
           (Text (comparison_header sample_env mixture aspirin
                  ++ "📊 Разница масс: `180.16`"))
           (Some create_main_menu) (Some "Markdown"), true)] initial_world) /\
  send_comparison sample_env unreadable aspirin initial_world
  = (Ok tt,
     set_outbox
       [(reply_text (Text "Ошибка при сравнении.") (Some create_main_menu) None, true)]
       initial_world).
Proof.
  destruct (mass_diff_reads_unknown_as_zero sample_env aspirin glycolic_acid)
    as (Hboth & _).
  destruct (mass_diff_reads_unknown_as_zero sample_env mixture glycolic_acid)
    as (_ & Hfirst & _).
  destruct (mass_diff_reads_unknown_as_zero sample_env aspirin mixture)
    as (_ & _ & Hsecond & _).
  destruct (mass_diff_reads_unknown_as_zero sample_env mixture mixture)
    as (_ & _ & _ & Hnone & _).
  destruct (mass_diff_reads_unknown_as_zero sample_env mixture aspirin)
    as (_ & _ & _ & _ & Hmsg & _ & Hsend & _).
  destruct (mass_diff_reads_unknown_as_zero sample_env unreadable aspirin)
    as (_ & _ & _ & _ & _ & Herr & Hsend' & _).
  split; [ | split; [ | split; [ | split; [ | split ] ] ] ].
  - apply Hboth; reflexivity.
  - apply Hfirst; reflexivity.
  - apply Hsecond; reflexivity.
  - apply Hnone; reflexivity.
  - rewrite (Hsend (fun n c => eq_refl) initial_world).
    rewrite (Hmsg (NFloat (fabs (float_literal 18016 2))) "180.16");
      [reflexivity | vm_compute; reflexivity | vm_compute; reflexivity].
  - rewrite (Hsend' (fun n c => eq_refl) initial_world).
    rewrite Herr; [reflexivity | ]. left. split; reflexivity.
Defined.

(** C1 as the specification words it fails: with one weight unknown the code
    reports a number, the other weight, and not an unknown difference. *)
Lemma unknown_weight_is_read_as_zero :
  MolecularWeight mixture = PyStr "N/A" /\
  mass_diff sample_env mixture glycolic_acid = Some (NFloat (float_literal 7605 2)) /\
  comparison_text sample_env mixture glycolic_acid =
    Some (comparison_header sample_env mixture glycolic_acid ++ "📊 Разница масс: `76.05`") /\
  ~ (forall e first second,
        MolecularWeight first = PyStr "N/A" -> comparison_text e first second = None).
Proof.
  split; [reflexivity | split; [vm_compute; reflexivity | split] ].
  - vm_compute. reflexivity.
  - intros H. specialize (H sample_env mixture glycolic_acid eq_refl).
    vm_compute in H. discriminate H.
Qed.

(** C10: with the weights 180.16 and 76.05 the difference is the absolute
    value of their difference, whichever of the two records comes first, and
    the message that is sent reports it as [104.11]. *)
Theorem comparison_180_16_and_76_05 (e : env) (first second : compound) :
  is_not_NA (MolecularWeight first) = true ->
  py_float e (MolecularWeight first) = Some (float_literal 18016 2) ->
  is_not_NA (MolecularWeight second) = true ->
  py_float e (MolecularWeight second) = Some (float_literal 7605 2) ->
  (mass_diff e first second =
     Some (NFloat (fabs (fsub (float_literal 18016 2) (float_literal 7605 2)))) /\
   mass_diff e second first =
     Some (NFloat (fabs (fsub (float_literal 7605 2) (float_literal 18016 2))))) /\
  (format_2f (NFloat (fabs (fsub (float_literal 18016 2) (float_literal 7605 2))))
     = Some "104.11" /\
   format_2f (NFloat (fabs (fsub (float_literal 7605 2) (float_literal 18016 2))))
     = Some "104.11") /\
  (comparison_text e first second =
     Some (comparison_header e first second ++ "📊 Разница масс: `104.11`") /\
   comparison_text e second first =
     Some (comparison_header e second first ++ "📊 Разница масс: `104.11`")) /\
  (transport_ok e ->
   forall w,
     send_comparison e first second w =
     (Ok tt,
      set_outbox
        (outbox w ++
         [(reply_text
             (Text (comparison_header e first second ++ "📊 Разница масс: `104.11`"))
             (Some create_main_menu) (Some "Markdown"), true)]) w) /\
     send_comparison e second first w =
     (Ok tt,
      set_outbox
        (outbox w ++
         [(reply_text
             (Text (comparison_header e second first ++ "📊 Разница масс: `104.11`"))
             (Some create_main_menu) (Some "Markdown"), true)]) w)).
Proof.
  intros N1 F1 N2 F2.
  assert (Hd : mass_diff e first second =
               Some (NFloat (fabs (fsub (float_literal 18016 2) (float_literal 7605 2))))).
  { unfold mass_diff.
    rewrite (weight_number_known e first _ N1 F1).
    rewrite (weight_number_known e second _ N2 F2). reflexivity. }
  assert (Hd' : mass_diff e second first =
                Some (NFloat (fabs (fsub (float_literal 7605 2) (float_literal 18016 2))))).
  { unfold mass_diff.
    rewrite (weight_number_known e second _ N2 F2).
    rewrite (weight_number_known e first _ N1 F1). reflexivity. }
  assert (Hf : format_2f (NFloat (fabs (fsub (float_literal 18016 2) (float_literal 7605 2))))
               = Some "104.11").
  { vm_compute. reflexivity. }
  assert (Hf' : format_2f (NFloat (fabs (fsub (float_literal 7605 2) (float_literal 18016 2))))
                = Some "104.11").
  { vm_compute. reflexivity. }
  assert (Ht : comparison_text e first second =
               Some (comparison_header e first second ++ "📊 Разница масс: `104.11`")).
  { unfold comparison_text. rewrite Hd, Hf. reflexivity. }
  assert (Ht' : comparison_text e second first =
                Some (comparison_header e second first ++ "📊 Разница масс: `104.11`")).
  { unfold comparison_text. rewrite Hd', Hf'. reflexivity. }
  split; [split; [exact Hd | exact Hd'] | ].
  split; [split; [exact Hf | exact Hf'] | ].
  split; [split; [exact Ht | exact Ht'] | ].
  intros Hok w. unfold send_comparison, try_except, call.
  rewrite Ht, Ht', !Hok. split; reflexivity.
Qed.

Lemma comparison_180_16_and_76_05_witness :
  comparison_text sample_env aspirin glycolic_acid =
    Some (comparison_header sample_env aspirin glycolic_acid ++ "📊 Разница масс: `104.11`") /\
  comparison_text sample_env glycolic_acid aspirin =
    Some (comparison_header sample_env glycolic_acid aspirin ++ "📊 Разница масс: `104.11`") /\
  fsub (float_literal 7605 2) (float_literal 18016 2)
  <> fabs (fsub (float_literal 7605 2) (float_literal 18016 2)).
Proof.
  destruct (comparison_180_16_and_76_05 sample_env aspirin glycolic_acid
              eq_refl eq_refl eq_refl eq_refl) as (_ & _ & [Ht Ht'] & _).
  split; [exact Ht | split; [exact Ht' | ] ].
  vm_compute. discriminate.
Defined.

(* ===================================================================== *)
(** * History                                                              *)
(* ===================================================================== *)

Section History.

Lemma append_history_lookup u item h :
  default [] (append_history u item h !! u) = (default [] (h !! u) ++ [item])%list.
Proof. unfold append_history. rewrite lookup_insert_eq. reflexivity. Qed.

(** Appending a sequence of entries stores every one of them, in order. *)
Lemma append_history_all u (es : list history_item) h :
  default [] (fold_left (fun h item => append_history u item h) es h !! u)
  = (default [] (h !! u) ++ es)%list.
Proof.
  revert h. induction es as [|item es IH]; intros h; cbn [fold_left].
  - rewrite app_nil_r. reflexivity.
  - rewrite IH, append_history_lookup, <- app_assoc. reflexivity.
Qed.

(** The last five, most recent first, are the first five of the reversed
    list. *)
Lemma rev_last_n {A} (n : nat) (l : list A) : rev (last_n n l) = firstn n (rev l).
Proof. unfold last_n. symmetry. apply firstn_rev. Qed.

Lemma history_keyboard_rows e (all : list history_item) :
  history_keyboard e (last_n 5 all)
  = (map (history_row e) (firstn 5 (rev all)) ++ [back_row])%list.
Proof. unfold history_keyboard. rewrite rev_last_n. reflexivity. Qed.

(** A successful search stores one more entry and drops none. *)
Lemma process_chemical_search_appends e u query by_cid result w :
  PubChemClient.search_compound e (PyStr query) by_cid = Some result ->
  SEARCH_HISTORY (snd (process_chemical_search e u query by_cid w))
  = append_history u {| item_name := Name result; item_cid := CID result;
                        item_time := now e |} (SEARCH_HISTORY w).
Proof.
  intros Hr. unfold process_chemical_search. rewrite Hr.
  set (item := {| item_name := Name result |}).
  assert (Hk : keeps SEARCH_HISTORY (send_molecule_info e result)) by keeps_tac.
  unfold bind, modify. rewrite Hk. reflexivity.
Qed.

End History.



(* ===================================================================== *)
(** * Tokens back through the dispatcher                                   *)
(* ===================================================================== *)

Section TokenDispatch.
Variable e : env.

(** A token that none of the three conversation patterns matches is
    handled by [button_handler], whatever the conversation states. *)
Lemma dispatch_to_button ch u m data w :
  re_match_exact "search" data = false ->
  re_match_exact "compare" data = false ->
  re_match_exact "back_to_menu" data = false ->
  dispatch main e (CallbackQuery ch u m data) w =
  (let* _ := button_handler e (CallbackQuery ch u m data) in ret tt) w.
Proof.
  intros H1 H2 H3. rewrite dispatch_callback_query. cbv zeta.
  rewrite H1, H2, H3.
  destruct (search_conv w !! (ch, u)), (compare_conv w !! (ch, u)); reflexivity.
Qed.

Lemma button_handler_history ch u m s :
  button_handler e (CallbackQuery ch u m ("history_" ++ s)) =
  (let* _ := call e (answer None) in
   let* _ := process_chemical_search e m (replace ("history_" ++ s) "history_" "") true in
   ret None).
Proof. reflexivity. Qed.

Lemma button_handler_search_token ch u m s :
  button_handler e (CallbackQuery ch u m ("search_" ++ s)) =
  (let* _ := call e (answer None) in
   let* _ := process_chemical_search e m (replace ("search_" ++ s) "search_" "") false in
   ret None).
Proof. reflexivity. Qed.

Lemma button_handler_similar ch u m s :
  button_handler e (CallbackQuery ch u m ("similar_" ++ s)) =
  (let* _ := call e (answer None) in
   match PubChemClient.get_similar_compounds e (replace ("similar_" ++ s) "similar_" "") 5 with
   | [] => ret None
   | similar =>
       let* _ := safe_edit_or_reply e (Some u) (Text "🧪 Похожие молекулы:")
                   (Some (similar_keyboard e ("similar_" ++ s) similar)) None in
       ret None
   end).
Proof. reflexivity. Qed.

Lemma button_handler_save ch u m s :
  button_handler e (CallbackQuery ch u m ("save_" ++ s)) =
  (let* _ := call e (answer None) in
   let cid := replace ("save_" ++ s) "save_" "" in
   let* _ := modify (fun w => set_FAVORITES (ensure_favorites u (FAVORITES w)) w) in
   match PubChemClient.search_compound e (PyStr cid) true with
   | Some result =>
       let* _ := modify (fun w =>
                   set_FAVORITES (add_favorite u cid (Name result) (FAVORITES w)) w) in
       let* _ := call e (answer (Some ("Сохранено: " ++ Name result))) in
       ret None
   | None => ret None
   end).
Proof. reflexivity. Qed.

Lemma button_handler_remove ch u m s :
  button_handler e (CallbackQuery ch u m ("remove_" ++ s)) =
  (let* _ := call e (answer None) in
   let cid := replace ("remove_" ++ s) "remove_" "" in
   let* w := get_world in
   match remove_favorite u cid (FAVORITES w) with
   | (Some name, f') =>
       let* _ := modify (set_FAVORITES f') in
       let* _ := call e (answer (Some ("Удалено: " ++ name))) in
       let* _ := show_favorites e (CallbackQuery ch u m ("remove_" ++ s)) in
       ret None
   | (None, _) => ret None
   end).
Proof. reflexivity. Qed.

Lemma button_handler_random ch u m :
  button_handler e (CallbackQuery ch u m "random") =
  (let* _ := call e (answer None) in
   let* _ := random_molecule e (CallbackQuery ch u m "random") in
   ret None).
Proof. reflexivity. Qed.

(** The search by identifier asks PubChem for the record of that very
    identifier, and the record it builds carries it. *)
Lemma search_compound_by_cid (s : string) :
  match cid_record e s with
  | Some _ =>
      exists r, PubChemClient.search_compound e (PyStr s) true = Some r /\
                CID r = PyStr s
  | None => PubChemClient.search_compound e (PyStr s) true = None
  end.
Proof.
  unfold PubChemClient.search_compound. cbn [py_str].
  destruct (cid_record e s) as [c|]; [ | reflexivity].
  eexists. split; reflexivity.
Qed.

(** The token of a history row, pressed, looks its identifier up. *)
Lemma history_token_dispatch ch u m (s : string) w :
  id_string s = true ->
  replace ("history_" ++ s) "history_" "" = s /\
  dispatch main e (CallbackQuery ch u m ("history_" ++ s)) w =
  (let* _ := (let* _ := call e (answer None) in
              let* _ := process_chemical_search e m s true in
              ret (None : option Z)) in
   ret tt) w.
Proof.
  intros Hs.
  assert (Hr : replace ("history_" ++ s) "history_" "" = s)
    by (apply (replace_token "h" "istory_" s); [reflexivity | exact Hs]).
  split; [exact Hr|].
  rewrite dispatch_to_button by reflexivity.
  rewrite button_handler_history, Hr. reflexivity.
Qed.
End TokenDispatch.

(* ===================================================================== *)
(** * Favorites                                                            *)
(* ===================================================================== *)

Section Favorites.
Context {V : Type}.
Implicit Types (d : list (string * V)) (k : string) (v : V).

Lemma dict_get_set d k v : dict_get (dict_set d k v) k = Some v.
Proof.
  induction d as [|[k' v'] d IH]; cbn [dict_set dict_get].
  - rewrite String.eqb_refl. reflexivity.
  - destruct (String.eqb k' k) eqn:E; cbn [dict_get]; rewrite E; [reflexivity | exact IH].
Qed.

Lemma dict_get_remove d k : dict_get (dict_remove d k) k = None.
Proof.
  unfold dict_remove.
  induction d as [|[k' v'] d IH]; cbn [List.filter dict_get fst]; [reflexivity | ].
  destruct (String.eqb k' k) eqn:E; cbn [negb dict_get]; [exact IH | ].
  rewrite E. exact IH.
Qed.

Lemma dict_set_twice d k v : dict_set (dict_set d k v) k v = dict_set d k v.
Proof.
  induction d as [|[k' v'] d IH]; cbn [dict_set].
  - rewrite String.eqb_refl. reflexivity.
  - destruct (String.eqb k' k) eqn:E; cbn [dict_set]; rewrite E; [reflexivity | ].
    rewrite IH. reflexivity.
Qed.

Lemma dict_pop_set d k v : dict_pop (dict_set d k v) k = Some (v, dict_remove (dict_set d k v) k).
Proof. unfold dict_pop. rewrite dict_get_set. reflexivity. Qed.

Lemma dict_pop_remove d k : dict_pop (dict_remove d k) k = None.
Proof. unfold dict_pop. rewrite dict_get_remove. reflexivity. Qed.

End Favorites.

Section FavoritesOfUsers.
Implicit Types (f : gmap Z (list (string * string))) (u : Z) (cid name : string).

Lemma add_favorite_ensure f u cid name :
  add_favorite u cid name (ensure_favorites u f) = add_favorite u cid name f.
Proof.
  unfold add_favorite, ensure_favorites.
  destruct (f !! u) as [favs|] eqn:E; [rewrite E; reflexivity | ].
  rewrite lookup_insert_eq, insert_insert_eq. reflexivity.
Qed.

Lemma remove_favorite_added f u cid name :
  remove_favorite u cid (add_favorite u cid name f)
  = (Some name,
     <[u := dict_remove (dict_set (default [] (f !! u)) cid name) cid]> f).
Proof.
  unfold remove_favorite, add_favorite.
  rewrite lookup_insert_eq, dict_pop_set, insert_insert_eq. reflexivity.
Qed.

Lemma remove_favorite_absent f u cid :
  dict_get (default [] (f !! u)) cid = None -> remove_favorite u cid f = (None, f).
Proof.
  unfold remove_favorite, dict_pop. intros H.
  destruct (f !! u) as [favs|]; [ | reflexivity].
  cbn in H. rewrite H. reflexivity.
Qed.

Lemma remove_favorite_none f u cid f' :
  remove_favorite u cid f = (None, f') -> f' = f.
Proof.
  unfold remove_favorite. destruct (f !! u) as [favs|]; [ | congruence].
  destruct (dict_pop favs cid) as [[name favs']|]; congruence.
Qed.

(** After a removal the key is gone, so a second removal finds nothing. *)
Lemma remove_favorite_twice f u cid :
  remove_favorite u cid (snd (remove_favorite u cid f))
  = (None, snd (remove_favorite u cid f)).
Proof.
  unfold remove_favorite at 2 3.
  destruct (f !! u) as [favs|] eqn:E; cbn [snd].
  - unfold dict_pop. destruct (dict_get favs cid) as [name|] eqn:G; cbn [snd].
    + unfold remove_favorite. rewrite lookup_insert_eq, dict_pop_remove. reflexivity.
    + unfold remove_favorite, dict_pop. rewrite E, G. reflexivity.
  - unfold remove_favorite. rewrite E. reflexivity.
Qed.

Lemma add_favorite_twice f u cid name :
  add_favorite u cid name (add_favorite u cid name f) = add_favorite u cid name f.
Proof.
  unfold add_favorite.
  rewrite lookup_insert_eq, insert_insert_eq. cbn [default from_option id].
  rewrite dict_set_twice. reflexivity.
Qed.

End FavoritesOfUsers.

Section Transport.
Variable e : env.
Hypothesis Hok : transport_ok e.

Lemma call_ok c w :
  call e c w = (Ok tt, set_outbox (outbox w ++ [(c, true)]) w).
Proof. unfold call. rewrite Hok. reflexivity. Qed.

Lemma safe_edit_or_reply_ok u text markup pm w :
  safe_edit_or_reply e (Some u) text markup pm w
  = (Ok tt, set_outbox (outbox w ++ [(edit_message_text text markup pm, true)]) w).
Proof. unfold safe_edit_or_reply, try_except. rewrite call_ok. reflexivity. Qed.

Lemma show_main_menu_callback_ok ch u m data text w :
  show_main_menu e (CallbackQuery ch u m data) text w
  = (Ok tt, set_outbox (outbox w ++
       [(edit_message_text text (Some create_main_menu) (Some "Markdown"), true)]) w).
Proof. unfold show_main_menu. cbn [callback_user]. apply safe_edit_or_reply_ok. Qed.

(** With a working transport [show_favorites] answers a callback query with
    one message and changes nothing else. *)
Lemma show_favorites_ok ch u m data w :
  exists c, show_favorites e (CallbackQuery ch u m data) w
            = (Ok None, set_outbox (outbox w ++ [(c, true)]) w).
Proof.
  unfold show_favorites. cbn [callback_user]. unfold bind at 1. unfold get_world at 1.
  destruct (FAVORITES w !! u) as [[|x l]|]; unfold bind, ret;
    rewrite ?show_main_menu_callback_ok, ?safe_edit_or_reply_ok; eexists; reflexivity.
Qed.

(** The [save_] token of an identifier: the user's dictionary gets the name
    that the lookup returns; with a failed lookup it is only created. *)
Lemma save_token_effect ch u m s w :
  id_string s = true ->
  FAVORITES (process_update e (CallbackQuery ch u m ("save_" ++ s)) w)
  = match PubChemClient.search_compound e (PyStr s) true with
    | Some r => add_favorite u s (Name r) (FAVORITES w)
    | None => ensure_favorites u (FAVORITES w)
    end.
Proof.
  intros Hs. unfold process_update.
  rewrite dispatch_to_button by reflexivity.
  rewrite button_handler_save. cbv zeta.
  rewrite (replace_token "s" "ave_" s) by (reflexivity || exact Hs).
  unfold bind at 1 2. rewrite call_ok.
  unfold bind at 1. unfold modify at 1.
  destruct (PubChemClient.search_compound e (PyStr s) true) as [r|].
  - unfold bind, modify, ret. rewrite call_ok.
    cbn [snd FAVORITES set_FAVORITES set_outbox].
    apply add_favorite_ensure.
  - reflexivity.
Qed.

(** The [remove_] token of an identifier: the entry is popped and named in
    the answer; when it is not there nothing happens beyond the empty answer
    to the callback query. *)
Lemma remove_token_effect ch u m s w :
  id_string s = true ->
  let r := remove_favorite u s (FAVORITES w) in
  let w' := process_update e (CallbackQuery ch u m ("remove_" ++ s)) w in
  FAVORITES w' = snd r /\
  match fst r with
  | None => outbox w' = (outbox w ++ [(answer None, true)])%list
  | Some name =>
      exists c, outbox w' = (outbox w ++ [(answer None, true);
                                          (answer (Some ("Удалено: " ++ name)%string), true);
                                          (c, true)])%list
  end.
Proof.
  intros Hs. cbv zeta. unfold process_update.
  rewrite dispatch_to_button by reflexivity.
  rewrite button_handler_remove. cbv zeta.
  rewrite (replace_token "r" "emove_" s) by (reflexivity || exact Hs).
  unfold bind, get_world, modify, ret. rewrite call_ok.
  cbn [FAVORITES set_outbox].
  destruct (remove_favorite u s (FAVORITES w)) as [[name|] f'] eqn:R; cbn [fst snd].
  - rewrite call_ok.
    match goal with
    | |- context [show_favorites e ?upd ?W] =>
        destruct (show_favorites_ok ch u m ("remove_" ++ s) W) as [c Hc]; rewrite Hc
    end.
    cbn [snd FAVORITES outbox set_outbox set_FAVORITES].
    split; [reflexivity | ]. exists c. rewrite <- !app_assoc. reflexivity.
  - rewrite (remove_favorite_none _ _ _ _ R). split; reflexivity.
Qed.

End Transport.

(** C8: removing a favorite that was added returns the stored name; a second
    removal, or the removal of an identifier that was never added, returns
    nothing and changes nothing; adding twice is adding once and removing
    twice is removing once.  The [save_] and [remove_] tokens of an
    identifier do exactly these operations on the user's favorites. *)
Theorem favorites_add_remove (e : env) (ch u m : Z) (id : Z) (name : string)
    (f : gmap Z (list (string * string))) (w : world) :
  let cid := str_of_int id in
  fst (remove_favorite u cid (add_favorite u cid name f)) = Some name /\
  remove_favorite u cid (snd (remove_favorite u cid (add_favorite u cid name f)))
    = (None, snd (remove_favorite u cid (add_favorite u cid name f))) /\
  (dict_get (default [] (f !! u)) cid = None -> remove_favorite u cid f = (None, f)) /\
  add_favorite u cid name (add_favorite u cid name f) = add_favorite u cid name f /\
  remove_favorite u cid (snd (remove_favorite u cid f)) = (None, snd (remove_favorite u cid f)) /\
  (transport_ok e ->
   FAVORITES (process_update e (CallbackQuery ch u m ("save_" ++ cid)) w)
   = match PubChemClient.search_compound e (PyStr cid) true with
     | Some r => add_favorite u cid (Name r) (FAVORITES w)
     | None => ensure_favorites u (FAVORITES w)
     end) /\
  (transport_ok e ->
   let r := remove_favorite u cid (FAVORITES w) in
   let w' := process_update e (CallbackQuery ch u m ("remove_" ++ cid)) w in
   FAVORITES w' = snd r /\
   match fst r with
   | None => outbox w' = (outbox w ++ [(answer None, true)])%list
   | Some name' =>
       exists c, outbox w' = (outbox w ++ [(answer None, true);
                                           (answer (Some ("Удалено: " ++ name')%string), true);
                                           (c, true)])%list
   end).
Proof.
  cbv zeta. split; [ | split; [ | split; [ | split; [ | split; [ | split] ] ] ] ].
  - rewrite remove_favorite_added. reflexivity.
  - apply remove_favorite_twice.
  - apply remove_favorite_absent.
  - apply add_favorite_twice.
  - apply remove_favorite_twice.
  - intros Hok. apply save_token_effect; [exact Hok | apply id_string_str_of_int].
  - intros Hok.
    exact (remove_token_effect e Hok ch u m (str_of_int id) w (id_string_str_of_int id)).
Qed.

Lemma favorites_add_remove_witness :
  let w1 := process_update sample_env (CallbackQuery 7 7 99 "save_2244") initial_world in
  let w2 := process_update sample_env (CallbackQuery 7 7 99 "remove_2244") w1 in
  let w3 := process_update sample_env (CallbackQuery 7 7 99 "remove_2244") w2 in
  FAVORITES w1 = {[ 7 := [("2244", "2-acetyloxybenzoic acid")] ]} /\
  FAVORITES w2 = {[ 7 := [] ]} /\
  (exists c, outbox w2
             = (outbox w1 ++ [(answer None, true);
                              (answer (Some "Удалено: 2-acetyloxybenzoic acid"), true);
                              (c, true)])%list) /\
  FAVORITES w3 = FAVORITES w2 /\
  outbox w3 = (outbox w2 ++ [(answer None, true)])%list.
Proof.
  cbv zeta.
  set (w1 := process_update sample_env (CallbackQuery 7 7 99 "save_2244") initial_world).
  set (w2 := process_update sample_env (CallbackQuery 7 7 99 "remove_2244") w1).
  destruct (favorites_add_remove sample_env 7 7 99 2244 "" ∅ initial_world)
    as (_ & _ & _ & _ & _ & Hsave & _).
  destruct (favorites_add_remove sample_env 7 7 99 2244 "" ∅ w1)
    as (_ & _ & _ & _ & _ & _ & Hrem1).
  destruct (favorites_add_remove sample_env 7 7 99 2244 "" ∅ w2)
    as (_ & _ & _ & _ & _ & _ & Hrem2).
  specialize (Hsave (fun n c => eq_refl)).
  specialize (Hrem1 (fun n c => eq_refl)).
  specialize (Hrem2 (fun n c => eq_refl)).
  cbv zeta in Hsave, Hrem1, Hrem2.
  assert (H1 : FAVORITES w1 = {[ 7 := [("2244", "2-acetyloxybenzoic acid")] ]})
    by (etransitivity; [exact Hsave | vm_compute; reflexivity]).
  destruct Hrem1 as [Hf2 Ho2]. rewrite H1 in Hf2, Ho2.
  assert (H2 : FAVORITES w2 = {[ 7 := [] ]})
    by (etransitivity; [exact Hf2 | vm_compute; reflexivity]).
  destruct Hrem2 as [Hf3 Ho3]. rewrite H2 in Hf3, Ho3.
  split; [exact H1 | split; [exact H2 | split; [exact Ho2 | split] ] ].
  - etransitivity; [exact Hf3 | rewrite H2; vm_compute; reflexivity].
  - exact Ho3.
Defined.

(* ===================================================================== *)
(** * The random molecule                                                  *)
(* ===================================================================== *)

Section Random.
Variable e : env.
Hypothesis Hok : transport_ok e.

(** With a working transport a record is shown by exactly one message. *)
Lemma send_molecule_info_ok r w :
  exists c, shows_record e r c /\
            send_molecule_info e r w = (Ok tt, set_outbox (outbox w ++ [(c, true)]) w).
Proof.
  unfold send_molecule_info, try_except, raise, shows_record.
  destruct (image_status e (image_url r)) as [status|].
  - destruct (status =? 200); rewrite (call_ok e Hok);
      eexists; (split; [ | reflexivity ]); auto.
  - rewrite (call_ok e Hok). eexists; (split; [ | reflexivity ]); auto.
Qed.

(** The whole run of the [random] button. *)
Lemma random_run ch u m w :
  exists c,
    dispatch main e (CallbackQuery ch u m "random") w
    = (Ok tt, set_outbox (outbox w ++ [(answer None, true); (c, true)]) w) /\
    match PubChemClient.get_random_compound e with
    | Some r => shows_record e r c
    | None => c = random_failed
    end.
Proof.
  rewrite dispatch_to_button by reflexivity.
  rewrite button_handler_random. unfold random_molecule. cbn [callback_user].
  destruct (PubChemClient.get_random_compound e) as [r|].
  - destruct (send_molecule_info_ok r (set_outbox (outbox w ++ [(answer None, true)]) w))
      as (c & Hc & Hrun).
    exists c. split; [ | exact Hc].
    unfold bind, ret. rewrite (call_ok e Hok), Hrun.
    cbn [outbox set_outbox]. rewrite <- app_assoc. reflexivity.
  - exists random_failed. split; [ | reflexivity].
    unfold bind, ret. rewrite (call_ok e Hok), (show_main_menu_callback_ok e Hok).
    cbn [outbox set_outbox]. rewrite <- app_assoc. reflexivity.
Qed.

End Random.

(** C4, as the code has it: in the Idle state the [random] button calls the
    random lookup; on success the record is shown and the history stays as it
    was; on failure the error text is shown with the menu; the conversation
    state stays Idle. *)
Theorem random_shows_record_without_history (e : env) (ch u m : Z) (w : world) :
  transport_ok e ->
  spec_state w ch u = Some Idle ->
  let w' := process_update e (CallbackQuery ch u m "random") w in
  spec_state w' ch u = Some Idle /\
  SEARCH_HISTORY w' = SEARCH_HISTORY w /\
  exists c,
    outbox w' = (outbox w ++ [(answer None, true); (c, true)])%list /\
    match PubChemClient.get_random_compound e with
    | Some r => shows_record e r c
    | None => c = random_failed
    end.
Proof.
  intros Hok Hidle. cbv zeta. unfold process_update.
  destruct (random_run e Hok ch u m w) as (c & Hrun & Hc).
  rewrite Hrun. cbn [snd].
  split; [exact Hidle | split; [reflexivity | ] ].
  exists c. split; [reflexivity | exact Hc].
Qed.

Lemma random_shows_record_without_history_witness :
  let w' := process_update sample_env (CallbackQuery 7 7 99 "random") initial_world in
  spec_state w' 7 7 = Some Idle /\ SEARCH_HISTORY w' = ∅.
Proof.
  destruct (random_shows_record_without_history sample_env 7 7 99 initial_world
              (fun n c => eq_refl) eq_refl) as (Hs & Hh & _).
  split; [exact Hs | exact Hh].
Defined.

(** C4 as the specification words it fails: a successful [random] records no
    history entry, for the user or for anyone. *)
Lemma random_records_no_history :
  let w' := process_update sample_env (CallbackQuery 7 7 99 "random") initial_world in
  PubChemClient.get_random_compound sample_env = Some
    (Build_compound (PyInt 2244) "2-acetyloxybenzoic acid" "C9H8O4"
       (PyFloat (float_literal 18016 2)) "2-acetyloxybenzoic acid" "N/A" "N/A"
       "https://pubchem.ncbi.nlm.nih.gov/rest/pug/compound/cid/2244/PNG"
       "https://pubchem.ncbi.nlm.nih.gov/compound/2244") /\
  SEARCH_HISTORY w' = ∅ /\
  history_of w' 7 = [] /\
  ~ (forall e ch u m w,
        PubChemClient.get_random_compound e <> None ->
        history_of (process_update e (CallbackQuery ch u m "random") w) u <> history_of w u).
Proof.
  cbv zeta. split; [vm_compute; reflexivity | ].
  split; [vm_compute; reflexivity | ].
  split; [vm_compute; reflexivity | ].
  intros H. apply (H sample_env 7 7 99 initial_world).
  - vm_compute. discriminate.
  - vm_compute. reflexivity.
Qed.

(* ===================================================================== *)
(** * Failures that send nothing                                           *)
(* ===================================================================== *)

Section SilentFailures.
Variable e : env.
Hypothesis Hok : transport_ok e.

Lemma similar_failure_run ch u m s w :
  id_string s = true ->
  PubChemClient.get_similar_compounds e s 5 = [] ->
  dispatch main e (CallbackQuery ch u m ("similar_" ++ s)) w
  = (Ok tt, set_outbox (outbox w ++ [(answer None, true)]) w).
Proof.
  intros Hs Hnone.
  rewrite dispatch_to_button by reflexivity.
  rewrite button_handler_similar.
  rewrite (replace_token "s" "imilar_" s) by (reflexivity || exact Hs).
  rewrite Hnone. unfold bind, ret. rewrite (call_ok e Hok). reflexivity.
Qed.

Lemma save_failure_run ch u m s w :
  id_string s = true ->
  PubChemClient.search_compound e (PyStr s) true = None ->
  dispatch main e (CallbackQuery ch u m ("save_" ++ s)) w
  = (Ok tt, set_outbox (outbox w ++ [(answer None, true)])
              (set_FAVORITES (ensure_favorites u (FAVORITES w)) w)).
Proof.
  intros Hs Hnone.
  rewrite dispatch_to_button by reflexivity.
  rewrite button_handler_save. cbv zeta.
  rewrite (replace_token "s" "ave_" s) by (reflexivity || exact Hs).
  rewrite Hnone. unfold bind, ret, modify. rewrite (call_ok e Hok). reflexivity.
Qed.

End SilentFailures.

(** C5, the code at the failing inputs: when PubChem is down, the [similar_]
    button and the [save_] button of a record send nothing to the user; the
    only Bot API call is the empty answer that acknowledges the button press.
    The other failure paths send a message. *)
Theorem similar_and_save_failures_are_silent :
  outbox (process_update offline_env (CallbackQuery 7 7 99 "similar_2244") initial_world)
    = [(answer None, true)] /\
  outbox (process_update offline_env (CallbackQuery 7 7 99 "save_2244") initial_world)
    = [(answer None, true)] /\
  outbox (process_update offline_env (CallbackQuery 7 7 99 "random") initial_world)
    = [(answer None, true); (random_failed, true)] /\
  outbox (process_update offline_env (CallbackQuery 7 7 99 "history_2244") initial_world)
    = [(answer None, true); (not_found "2244", true)] /\
  outbox (process_update offline_env (TextMessage 7 7 "aspirin") initial_world)
    = [(not_found "aspirin", true)].
Proof.
  assert (Hok : transport_ok offline_env) by (intros n c; reflexivity).
  unfold process_update. split; [ | split; [ | split; [ | split ] ] ].
  - change "similar_2244" with ("similar_" ++ "2244").
    rewrite (similar_failure_run offline_env Hok 7 7 99 "2244" initial_world);
      reflexivity.
  - change "save_2244" with ("save_" ++ "2244").
    rewrite (save_failure_run offline_env Hok 7 7 99 "2244" initial_world);
      reflexivity.
  - vm_compute. reflexivity.
  - vm_compute. reflexivity.
  - vm_compute. reflexivity.
Qed.

(* ===================================================================== *)
(** * What one update leaves alone                                         *)
(* ===================================================================== *)

(** A part of the world is kept by [process_update] when every registered
    callback keeps it and the table updates of the two conversation handlers
    do; [compare_first] only matters when the compare conversation of the
    sender awaits the first term and its search conversation does not await
    the query. *)
Lemma process_update_keeps_at {X} (proj : world -> X) (e : env) (upd : update)
    (w : world) :
  (forall h, keeps proj (callback h e upd) ->
             proj (snd (conv_handle_update search_conv_handler h e upd w)) = proj w) ->
  (forall h, keeps proj (callback h e upd) ->
             proj (snd (conv_handle_update compare_conv_handler h e upd w)) = proj w) ->
  keeps proj (start e upd) ->
  keeps proj (search_command e upd) ->
  keeps proj (handle_search e upd) ->
  keeps proj (show_main_menu_fallback e upd) ->
  keeps proj (compare_command e upd) ->
  (search_conv w !! conversation_key upd <> Some SEARCH ->
   compare_conv w !! conversation_key upd = Some COMPARE_FIRST ->
   keeps proj (compare_first e upd)) ->
  keeps proj (compare_second e upd) ->
  keeps proj (handle_message e upd) ->
  keeps proj (button_handler e upd) ->
  proj (process_update e upd w) = proj w.
Proof.
  intros Hsc Hcc K1 K2 K3 K4 K5 K6 K7 K8 K9. unfold process_update.
  assert (Hplain : forall cb : env -> update -> M (option Z),
             keeps proj (cb e upd) ->
             proj (snd ((let* _ := cb e upd in ret tt) w)) = proj w).
  { intros cb Hk. apply (keeps_bind proj); [exact Hk | intros; apply keeps_ret]. }
  destruct upd as [ch u c t | ch u t | ch u m data | ch u oc t].
  - rewrite dispatch_command_message.
    destruct (String.eqb (lower c) "start"); [apply (Hplain start K1) | reflexivity].
  - rewrite dispatch_text_message. cbv zeta.
    unfold conversation_key in K6. cbn [effective_user effective_chat] in K6.
    destruct (search_conv w !! (ch, u)) as [s|]; [destruct (Z.eqb_spec SEARCH s) | ];
      try (apply Hsc; exact K3);
      (destruct (compare_conv w !! (ch, u)) as [s'|];
       [ destruct (Z.eqb_spec COMPARE_FIRST s');
         [apply Hcc; apply K6; congruence | ];
         destruct (COMPARE_SECOND =? s'); [apply Hcc; exact K7 | ] | ]);
      apply (Hplain handle_message K8).
  - rewrite dispatch_callback_query. cbv zeta.
    destruct (search_conv w !! (ch, u)) as [s|];
      [ destruct (re_match_exact "back_to_menu" data) eqn:B
      | destruct (re_match_exact "search" data) ];
      try (apply Hsc; assumption);
      (destruct (compare_conv w !! (ch, u)) as [s'|];
       [ try rewrite B; destruct (re_match_exact "back_to_menu" data)
       | destruct (re_match_exact "compare" data) ]);
      try (apply Hcc; assumption);
      apply (Hplain button_handler K9).
  - rewrite dispatch_edited_message. reflexivity.
Qed.

(** In particular a part that no table update touches. *)
Lemma process_update_keeps {X} (proj : world -> X) (e : env) (upd : update) :
  (forall t w, proj (set_search_conv t w) = proj w) ->
  (forall t w, proj (set_compare_conv t w) = proj w) ->
  keeps proj (start e upd) ->
  keeps proj (search_command e upd) ->
  keeps proj (handle_search e upd) ->
  keeps proj (show_main_menu_fallback e upd) ->
  keeps proj (compare_command e upd) ->
  keeps proj (compare_first e upd) ->
  keeps proj (compare_second e upd) ->
  keeps proj (handle_message e upd) ->
  keeps proj (button_handler e upd) ->
  forall w, proj (process_update e upd w) = proj w.
Proof.
  intros Hs Hc K1 K2 K3 K4 K5 K6 K7 K8 K9 w.
  apply process_update_keeps_at; try assumption.
  - intros h Hk. apply (conv_handle_update_keeps e proj); [exact Hs | exact Hk].
  - intros h Hk. apply (conv_handle_update_keeps e proj); [exact Hc | exact Hk].
  - intros _ _. exact K6.
Qed.

(* ===================================================================== *)
(** * Failed lookups                                                       *)
(* ===================================================================== *)

Section SpecStates.
Implicit Types (w : world) (u : Z).

Lemma spec_state_idle w ch u :
  spec_state w ch u = Some Idle <->
  search_conv w !! (ch, u) = None /\ compare_conv w !! (ch, u) = None.
Proof.
  unfold spec_state, SEARCH, COMPARE_FIRST, COMPARE_SECOND.
  destruct (search_conv w !! (ch, u)) as [s|], (compare_conv w !! (ch, u)) as [c|];
    try destruct (Z.eqb_spec s 0); try destruct (Z.eqb_spec c 1);
    try destruct (Z.eqb_spec c 2); try destruct (user_data w !! u);
    subst; cbn; intuition congruence.
Qed.

Lemma spec_state_search w ch u :
  spec_state w ch u = Some AwaitingSearchQuery <->
  search_conv w !! (ch, u) = Some SEARCH /\ compare_conv w !! (ch, u) = None.
Proof.
  unfold spec_state, SEARCH, COMPARE_FIRST, COMPARE_SECOND.
  destruct (search_conv w !! (ch, u)) as [s|], (compare_conv w !! (ch, u)) as [c|];
    try destruct (Z.eqb_spec s 0); try destruct (Z.eqb_spec c 1);
    try destruct (Z.eqb_spec c 2); try destruct (user_data w !! u);
    subst; cbn; intuition congruence.
Qed.

Lemma spec_state_first w ch u :
  spec_state w ch u = Some AwaitingFirstCompareTerm <->
  search_conv w !! (ch, u) = None /\ compare_conv w !! (ch, u) = Some COMPARE_FIRST.
Proof.
  unfold spec_state, SEARCH, COMPARE_FIRST, COMPARE_SECOND.
  destruct (search_conv w !! (ch, u)) as [s|], (compare_conv w !! (ch, u)) as [c|];
    try destruct (Z.eqb_spec s 0); try destruct (Z.eqb_spec c 1);
    try destruct (Z.eqb_spec c 2); try destruct (user_data w !! u);
    subst; cbn; intuition congruence.
Qed.

Lemma spec_state_second w ch u r :
  spec_state w ch u = Some (AwaitingSecondCompareTerm r) <->
  search_conv w !! (ch, u) = None /\ compare_conv w !! (ch, u) = Some COMPARE_SECOND /\
  user_data w !! u = Some r.
Proof.
  unfold spec_state, SEARCH, COMPARE_FIRST, COMPARE_SECOND.
  destruct (search_conv w !! (ch, u)) as [s|], (compare_conv w !! (ch, u)) as [c|];
    try destruct (Z.eqb_spec s 0); try destruct (Z.eqb_spec c 1);
    try destruct (Z.eqb_spec c 2); try destruct (user_data w !! u);
    subst; cbn; intuition congruence.
Qed.

End SpecStates.

Section FailedLookups.
Variable e : env.

Lemma process_chemical_search_failed k query by_cid :
  PubChemClient.search_compound e (PyStr query) by_cid = None ->
  process_chemical_search e k query by_cid = call e (not_found query).
Proof. intros H. unfold process_chemical_search. rewrite H. reflexivity. Qed.

(** What the four text callbacks do with a text that is not found. *)
Lemma handle_search_failed ch u t :
  PubChemClient.search_compound e (PyStr t) false = None ->
  handle_search e (TextMessage ch u t)
  = (let* _ := call e (not_found t) in ret (Some END)).
Proof.
  intros H. unfold handle_search. cbn [message_of].
  rewrite (process_chemical_search_failed u t false H). reflexivity.
Qed.

Lemma handle_message_failed ch u t :
  PubChemClient.search_compound e (PyStr t) false = None ->
  handle_message e (TextMessage ch u t)
  = (let* _ := call e (not_found t) in ret None).
Proof.
  intros H. unfold handle_message. cbn [message_of].
  rewrite (process_chemical_search_failed u t false H). reflexivity.
Qed.

Lemma compare_first_failed ch u t :
  PubChemClient.search_compound e (PyStr t) false = None ->
  compare_first e (TextMessage ch u t)
  = (let* _ := call e reprompt in ret (Some COMPARE_FIRST)).
Proof. intros H. unfold compare_first. cbn [message_of]. rewrite H. reflexivity. Qed.

Lemma compare_second_failed ch u t :
  PubChemClient.search_compound e (PyStr t) false = None ->
  compare_second e (TextMessage ch u t)
  = (let* _ := call e reprompt in ret (Some COMPARE_SECOND)).
Proof. intros H. unfold compare_second. cbn [message_of]. rewrite H. reflexivity. Qed.

Lemma button_handler_text ch u t : button_handler e (TextMessage ch u t) = raise.
Proof. reflexivity. Qed.

Ltac failed_text_keeps H :=
  apply process_update_keeps; try reflexivity;
  rewrite ?(handle_search_failed _ _ _ H), ?(handle_message_failed _ _ _ H),
    ?(compare_first_failed _ _ _ H), ?(compare_second_failed _ _ _ H),
    ?button_handler_text;
  keeps_tac.

(** A text that is not found writes nothing but the log and, at most, the
    conversation table of the handler that took it. *)
Lemma failed_text_frame ch u t w :
  PubChemClient.search_compound e (PyStr t) false = None ->
  let w' := process_update e (TextMessage ch u t) w in
  SEARCH_HISTORY w' = SEARCH_HISTORY w /\
  user_data w' = user_data w /\
  FAVORITES w' = FAVORITES w.
Proof.
  intros H. cbv zeta. split; [ | split].
  - revert w. failed_text_keeps H.
  - revert w. failed_text_keeps H.
  - revert w. failed_text_keeps H.
Qed.

(** The callbacks of a callback query that read [update.message] raise. *)
Lemma text_callbacks_raise ch u m data :
  handle_search e (CallbackQuery ch u m data) = raise /\
  handle_message e (CallbackQuery ch u m data) = raise /\
  compare_first e (CallbackQuery ch u m data) = raise /\
  compare_second e (CallbackQuery ch u m data) = raise.
Proof. repeat split. Qed.

Lemma failed_button_patterns ch u m data :
  lookup_failed e (CallbackQuery ch u m data) ->
  re_match_exact "search" data = false /\
  re_match_exact "compare" data = false /\
  re_match_exact "back_to_menu" data = false.
Proof.
  intros [ (s & -> & _) | [ (s & -> & _) | [-> _] ] ]; repeat split.
Qed.

Ltac failed_button_keeps H :=
  destruct H as [ (s & -> & H) | [ (s & -> & H) | [-> H] ] ];
  [ rewrite button_handler_history, (process_chemical_search_failed _ _ true H)
  | rewrite button_handler_search_token, (process_chemical_search_failed _ _ false H)
  | rewrite button_handler_random; unfold random_molecule; rewrite H ];
  keeps_tac.

(** A button whose lookup fails writes nothing but the log. *)
Lemma failed_button_frame ch u m data w :
  lookup_failed e (CallbackQuery ch u m data) ->
  let w' := process_update e (CallbackQuery ch u m data) w in
  SEARCH_HISTORY w' = SEARCH_HISTORY w /\
  user_data w' = user_data w /\
  FAVORITES w' = FAVORITES w /\
  search_conv w' = search_conv w /\
  compare_conv w' = compare_conv w.
Proof.
  intros H. cbv zeta.
  destruct (failed_button_patterns ch u m data H) as (P1 & P2 & P3).
  unfold process_update. rewrite (dispatch_to_button e ch u m data w P1 P2 P3).
  assert (K : forall X (proj : world -> X),
             keeps proj (button_handler e (CallbackQuery ch u m data)) ->
             proj (snd ((let* _ := button_handler e (CallbackQuery ch u m data)
                         in ret tt) w)) = proj w).
  { intros X proj Hk. apply (keeps_bind proj); [exact Hk | intros; apply keeps_ret]. }
  cbn [lookup_failed] in H.
  split; [ | split; [ | split; [ | split] ] ]; apply K; failed_button_keeps H.
Qed.

End FailedLookups.

Section FailedLookupRuns.
Variable e : env.
Hypothesis Hok : transport_ok e.

(** The awaited search query is not found, whatever the compare
    conversation awaits: the error text with the menu, and the search
    conversation is over. *)
Lemma failed_awaited_query ch u t w :
  search_conv w !! (ch, u) = Some SEARCH ->
  PubChemClient.search_compound e (PyStr t) false = None ->
  process_update e (TextMessage ch u t) w
  = set_search_conv (delete (ch, u) (search_conv w))
      (set_outbox (outbox w ++ [(not_found t, true)]) w).
Proof.
  intros Hs H. unfold process_update.
  rewrite dispatch_text_message. cbv zeta. rewrite Hs.
  change (SEARCH =? SEARCH) with true. cbv iota.
  unfold conv_handle_update, conversation_key. cbn [callback MessageHandler].
  rewrite (handle_search_failed e ch u t H).
  unfold bind, ret, modify. rewrite (call_ok e Hok).
  cbn [snd conversations set_conversations search_conv_handler update_state
       effective_user effective_chat search_conv set_outbox].
  change (END =? END) with true. cbv iota. reflexivity.
Qed.

(** The first compare term is not found: the prompt again, the same state. *)
Lemma failed_first_term ch u t w :
  spec_state w ch u = Some AwaitingFirstCompareTerm ->
  PubChemClient.search_compound e (PyStr t) false = None ->
  let w' := process_update e (TextMessage ch u t) w in
  spec_state w' ch u = Some AwaitingFirstCompareTerm /\
  outbox w' = (outbox w ++ [(reprompt, true)])%list.
Proof.
  intros [Hs Hc]%spec_state_first H. cbv zeta. unfold process_update.
  rewrite dispatch_text_message. cbv zeta. rewrite Hs, Hc.
  change (COMPARE_FIRST =? COMPARE_FIRST) with true. cbv iota.
  unfold conv_handle_update, conversation_key. cbn [callback MessageHandler].
  rewrite (compare_first_failed e ch u t H).
  unfold bind, ret, modify. rewrite (call_ok e Hok).
  cbn [snd conversations set_conversations compare_conv_handler].
  split; [ | reflexivity].
  apply spec_state_first. cbn [search_conv compare_conv set_compare_conv set_outbox].
  split; [exact Hs | ]. cbn [effective_user effective_chat update_state].
  change (COMPARE_FIRST =? END) with false. cbv iota. apply lookup_insert_eq.
Qed.

(** The second compare term is not found: the prompt again, the same state
    with the same pending record. *)
Lemma failed_second_term ch u t r w :
  spec_state w ch u = Some (AwaitingSecondCompareTerm r) ->
  PubChemClient.search_compound e (PyStr t) false = None ->
  let w' := process_update e (TextMessage ch u t) w in
  spec_state w' ch u = Some (AwaitingSecondCompareTerm r) /\
  outbox w' = (outbox w ++ [(reprompt, true)])%list.
Proof.
  intros (Hs & Hc & Hd)%spec_state_second H. cbv zeta. unfold process_update.
  rewrite dispatch_text_message. cbv zeta. rewrite Hs, Hc.
  change (COMPARE_FIRST =? COMPARE_SECOND) with false.
  change (COMPARE_SECOND =? COMPARE_SECOND) with true. cbv iota.
  unfold conv_handle_update, conversation_key. cbn [callback MessageHandler].
  rewrite (compare_second_failed e ch u t H).
  unfold bind, ret, modify. rewrite (call_ok e Hok).
  cbn [snd conversations set_conversations compare_conv_handler].
  split; [ | reflexivity].
  apply spec_state_second.
  cbn [search_conv compare_conv user_data set_compare_conv set_outbox].
  split; [exact Hs | split; [ | exact Hd] ]. cbn [effective_user effective_chat update_state].
  change (COMPARE_SECOND =? END) with false. cbv iota. apply lookup_insert_eq.
Qed.

(** The awaited search query is not found: the error text with the menu, and
    the user is Idle. *)
Lemma failed_search_query ch u t w :
  spec_state w ch u = Some AwaitingSearchQuery ->
  PubChemClient.search_compound e (PyStr t) false = None ->
  let w' := process_update e (TextMessage ch u t) w in
  spec_state w' ch u = Some Idle /\
  outbox w' = (outbox w ++ [(not_found t, true)])%list.
Proof.
  intros [Hs Hc]%spec_state_search H. cbv zeta.
  rewrite (failed_awaited_query ch u t w Hs H).
  split; [ | reflexivity].
  apply spec_state_idle. cbn [search_conv compare_conv set_search_conv set_outbox].
  split; [apply lookup_delete_eq | exact Hc].
Qed.

(** A text outside a conversation is not found: the error text with the
    menu. *)
Lemma failed_idle_text ch u t w :
  spec_state w ch u = Some Idle ->
  PubChemClient.search_compound e (PyStr t) false = None ->
  let w' := process_update e (TextMessage ch u t) w in
  spec_state w' ch u = Some Idle /\
  outbox w' = (outbox w ++ [(not_found t, true)])%list.
Proof.
  intros Hidle H. pose proof Hidle as [Hs Hc]%spec_state_idle.
  cbv zeta. unfold process_update.
  rewrite dispatch_text_message. cbv zeta. rewrite Hs, Hc.
  rewrite (handle_message_failed e ch u t H).
  unfold bind, ret. rewrite (call_ok e Hok).
  cbn [snd]. split; [exact Hidle | reflexivity].
Qed.

(** The message that a button sends when its lookup fails. *)
Lemma failed_button_run ch u m data w :
  lookup_failed e (CallbackQuery ch u m data) ->
  let w' := process_update e (CallbackQuery ch u m data) w in
  (forall s, data = "history_" ++ s ->
     outbox w' = (outbox w ++ [(answer None, true);
                               (not_found (replace data "history_" ""), true)])%list) /\
  (forall s, data = "search_" ++ s ->
     outbox w' = (outbox w ++ [(answer None, true);
                               (not_found (replace data "search_" ""), true)])%list) /\
  (data = "random" ->
     outbox w' = (outbox w ++ [(answer None, true); (random_failed, true)])%list).
Proof.
  intros H. cbv zeta.
  destruct (failed_button_patterns e ch u m data H) as (P1 & P2 & P3).
  unfold process_update. rewrite (dispatch_to_button e ch u m data w P1 P2 P3).
  assert (Hrun : forall c msg,
             button_handler e (CallbackQuery ch u m data)
             = (let* _ := call e (answer None) in let* _ := c in ret None) ->
             (forall w0, c w0 = (Ok tt, set_outbox (outbox w0 ++ [(msg, true)]) w0)) ->
             outbox (snd ((let* _ := button_handler e (CallbackQuery ch u m data) in ret tt) w))
             = (outbox w ++ [(answer None, true); (msg, true)])%list).
  { intros c msg Hb Hc. rewrite Hb. unfold bind, ret.
    rewrite (call_ok e Hok), Hc. cbn [snd outbox set_outbox].
    rewrite <- app_assoc. reflexivity. }
  destruct H as [ (s & -> & H) | [ (s & -> & H) | [-> H] ] ].
  - split; [ | split]; [ intros _ _ | intros s' Heq; discriminate Heq
                       | intros Heq; discriminate Heq ].
    apply (Hrun (call e (not_found (replace ("history_" ++ s) "history_" "")))).
    + rewrite button_handler_history.
      rewrite (process_chemical_search_failed e m _ true H). reflexivity.
    + intros w0. apply (call_ok e Hok).
  - split; [ | split]; [ intros s' Heq; discriminate Heq | intros _ _
                       | intros Heq; discriminate Heq ].
    apply (Hrun (call e (not_found (replace ("search_" ++ s) "search_" "")))).
    + rewrite button_handler_search_token.
      rewrite (process_chemical_search_failed e m _ false H). reflexivity.
    + intros w0. apply (call_ok e Hok).
  - split; [ | split]; [ intros s' Heq; discriminate Heq
                       | intros s' Heq; discriminate Heq | intros _ ].
    rewrite button_handler_random. unfold random_molecule. rewrite H.
    unfold bind, ret. rewrite (call_ok e Hok), (show_main_menu_callback_ok e Hok).
    cbn [snd outbox set_outbox]. rewrite <- app_assoc. reflexivity.
Qed.

End FailedLookupRuns.

(** C3, as the code has it: an update whose lookup fails leaves the
    history, the pending records and the favorites as they were, whether or
    not the answer can be delivered.  With a working transport a text that is
    not found is answered by the prompt again while only the compare
    conversation is open, which stays in the state it was in, and by the
    not-found text with the menu otherwise: from the awaited search query
    and from Idle the user is Idle afterwards, and when both conversations
    are open the search conversation ends and the compare conversation stays
    as it was.  A [history_], [search_] or [random] button whose lookup
    fails leaves every conversation as it was and sends the error text with
    the menu. *)
Theorem lookup_failure_keeps_session (e : env) (upd : update) (w : world) :
  lookup_failed e upd ->
  let w' := process_update e upd w in
  SEARCH_HISTORY w' = SEARCH_HISTORY w /\
  user_data w' = user_data w /\
  FAVORITES w' = FAVORITES w /\
  (transport_ok e ->
   forall ch u t, upd = TextMessage ch u t ->
     match spec_state w ch u with
     | Some AwaitingFirstCompareTerm | Some (AwaitingSecondCompareTerm _) =>
         spec_state w' ch u = spec_state w ch u /\
         outbox w' = (outbox w ++ [(reprompt, true)])%list
     | Some AwaitingSearchQuery | Some Idle =>
         spec_state w' ch u = Some Idle /\
         outbox w' = (outbox w ++ [(not_found t, true)])%list
     | None =>
         search_conv w !! (ch, u) = Some SEARCH ->
         search_conv w' = delete (ch, u) (search_conv w) /\
         compare_conv w' = compare_conv w /\
         outbox w' = (outbox w ++ [(not_found t, true)])%list
     end) /\
  (forall ch u m data, upd = CallbackQuery ch u m data ->
     (forall ch' v, spec_state w' ch' v = spec_state w ch' v) /\
     (transport_ok e ->
      (forall s, data = "history_" ++ s ->
         outbox w' = (outbox w ++ [(answer None, true);
                                   (not_found (replace data "history_" ""), true)])%list) /\
      (forall s, data = "search_" ++ s ->
         outbox w' = (outbox w ++ [(answer None, true);
                                   (not_found (replace data "search_" ""), true)])%list) /\
      (data = "random" ->
         outbox w' = (outbox w ++ [(answer None, true); (random_failed, true)])%list))).
Proof.
  intros Hfail. cbv zeta.
  destruct upd as [ch u c t | ch u t | ch u m data | ch u oc t]; cbn [lookup_failed] in Hfail;
    [destruct Hfail | | | destruct Hfail].
  - destruct (failed_text_frame e ch u t w Hfail) as (Hh & Hd & Hf). cbv zeta in Hh, Hd, Hf.
    split; [exact Hh | split; [exact Hd | split; [exact Hf | split] ] ].
    + intros Hok ch' u' t' [= <- <- <-].
      destruct (spec_state w ch u) as [ [| | |r]|] eqn:S.
      * apply (failed_idle_text e Hok); assumption.
      * apply (failed_search_query e Hok); assumption.
      * apply (failed_first_term e Hok); assumption.
      * apply (failed_second_term e Hok); assumption.
      * intros Hs. rewrite (failed_awaited_query e Hok ch u t w Hs Hfail).
        repeat split.
    + intros ch' u' m data Heq. discriminate Heq.
  - destruct (failed_button_frame e ch u m data w Hfail) as (Hh & Hd & Hf & Hs & Hc).
    cbv zeta in Hh, Hd, Hf, Hs, Hc.
    split; [exact Hh | split; [exact Hd | split; [exact Hf | split] ] ].
    + intros Hok ch' u' t Heq. discriminate Heq.
    + intros ch' u' m' data' [= <- <- <- <-]. split.
      * intros ch' v. unfold spec_state. rewrite Hs, Hc, Hd. reflexivity.
      * intros Hok. apply (failed_button_run e Hok). exact Hfail.
Qed.

Lemma lookup_failure_keeps_session_witness :
  let w0 := process_update sample_env (CallbackQuery 7 7 99 "compare") initial_world in
  let w1 := process_update sample_env (TextMessage 7 7 "unobtainium") w0 in
  spec_state w0 7 7 = Some AwaitingFirstCompareTerm /\
  spec_state w1 7 7 = Some AwaitingFirstCompareTerm /\
  outbox w1 = (outbox w0 ++ [(reprompt, true)])%list /\
  SEARCH_HISTORY w1 = SEARCH_HISTORY w0 /\
  user_data w1 = user_data w0.
Proof.
  cbv zeta.
  set (w0 := process_update sample_env (CallbackQuery 7 7 99 "compare") initial_world).
  assert (S0 : spec_state w0 7 7 = Some AwaitingFirstCompareTerm) by (vm_compute; reflexivity).
  assert (Hfail : lookup_failed sample_env (TextMessage 7 7 "unobtainium"))
    by (vm_compute; reflexivity).
  destruct (lookup_failure_keeps_session sample_env (TextMessage 7 7 "unobtainium") w0 Hfail)
    as (Hh & Hd & _ & Ht & _).
  specialize (Ht (fun n c => eq_refl) 7 7 "unobtainium" eq_refl).
  rewrite S0 in Ht. destruct Ht as [Hs Ho].
  split; [exact S0 | split; [exact Hs | split; [exact Ho | split; [exact Hh | exact Hd] ] ] ].
Defined.

(** C3 as the specification words it fails: while the first compare term is
    awaited, a history button whose lookup fails is answered with the
    not-found text and the menu, which is not the prompt, and the
    conversation is not Idle afterwards: it still awaits the first term. *)
Lemma failed_button_lookup_in_compare_flow :
  let w0 := process_update sample_env (CallbackQuery 7 7 99 "compare") initial_world in
  let w1 := process_update sample_env (CallbackQuery 7 7 99 "history_5") w0 in
  PubChemClient.search_compound sample_env (PyStr "5") true = None /\
  spec_state w0 7 7 = Some AwaitingFirstCompareTerm /\
  spec_state w1 7 7 = Some AwaitingFirstCompareTerm /\
  spec_state w1 7 7 <> Some Idle /\
  outbox w1 = (outbox w0 ++ [(answer None, true); (not_found "5", true)])%list /\
  not_found "5" <> reprompt.
Proof.
  cbv zeta.
  split; [vm_compute; reflexivity | ].
  split; [vm_compute; reflexivity | ].
  split; [vm_compute; reflexivity | ].
  split; [vm_compute; discriminate | ].
  split; [vm_compute; reflexivity | ].
  discriminate.
Qed.

(* ===================================================================== *)
(** * The pending record of a comparison                                   *)
(* ===================================================================== *)

Section Pending.
Variable e : env.

Lemma update_state_other (key k : Z * Z) (new_state : option Z) (t : gmap (Z * Z) Z) :
  key <> k -> update_state key new_state t !! k = t !! k.
Proof.
  intros Hne. unfold update_state. destruct new_state as [s|]; [ | reflexivity].
  destruct (s =? END); [apply lookup_delete_ne | apply lookup_insert_ne]; exact Hne.
Qed.

(** A conversation handler writes its table at the key of the update only. *)
Lemma conv_handle_update_other_key c h upd (k : Z * Z) w :
  (forall t w', conversations c (set_conversations c t w') = t) ->
  conversation_key upd <> k ->
  keeps (fun w => conversations c w !! k) (callback h e upd) ->
  conversations c (snd (conv_handle_update c h e upd w)) !! k = conversations c w !! k.
Proof.
  intros Hget Hne Hk. unfold conv_handle_update, bind, modify.
  specialize (Hk w).
  destruct (callback h e upd w) as [[a|] w1]; cbn [snd] in *; [ | exact Hk].
  rewrite Hget, update_state_other by exact Hne. exact Hk.
Qed.

Lemma message_of_user upd v text :
  message_of upd = Some (v, text) -> v = effective_user upd.
Proof.
  destruct upd as [ch u c t | ch u t | ch u m data | ch u oc t]; cbn; congruence.
Qed.

(** [compare_first] writes the pending record of the sender only. *)
Lemma compare_first_keeps_other_user upd u :
  effective_user upd <> u ->
  keeps (fun w => user_data w !! u) (compare_first e upd).
Proof.
  intros Hne. unfold compare_first.
  destruct (message_of upd) as [[v text]|]; [ | apply keeps_raise].
  destruct (PubChemClient.search_compound e (PyStr text) false) as [result|].
  - apply keeps_bind; [ | intros; keeps_tac].
    apply keeps_modify. intros w. cbn [user_data set_user_data].
    apply lookup_insert_ne. exact Hne.
  - keeps_tac.
Qed.

(** The pending record of a user changes only when a text of that user is
    taken as a first compare term and is found. *)
Lemma user_data_step upd u w :
  (search_conv w !! conversation_key upd <> Some SEARCH ->
   compare_conv w !! conversation_key upd = Some COMPARE_FIRST ->
   forall t, message_of upd = Some (u, t) ->
             PubChemClient.search_compound e (PyStr t) false = None) ->
  user_data (process_update e upd w) !! u = user_data w !! u.
Proof.
  intros Hst.
  apply (process_update_keeps_at (fun w => user_data w !! u)).
  - intros h Hk. apply (conv_handle_update_keeps e (fun w => user_data w !! u));
      [reflexivity | exact Hk].
  - intros h Hk. apply (conv_handle_update_keeps e (fun w => user_data w !! u));
      [reflexivity | exact Hk].
  - keeps_tac.
  - keeps_tac.
  - keeps_tac.
  - keeps_tac.
  - keeps_tac.
  - intros Hs Hc. destruct (decide (effective_user upd = u)) as [Heq | Hne];
      [ | apply compare_first_keeps_other_user; exact Hne].
    unfold compare_first.
    destruct (message_of upd) as [[v text]|] eqn:M; [ | apply keeps_raise].
    pose proof (message_of_user upd v text M) as Hv. rewrite Heq in Hv. subst v.
    rewrite (Hst Hs Hc text eq_refl). keeps_tac.
  - keeps_tac.
  - keeps_tac.
  - keeps_tac.
Qed.

(** A compare conversation is not touched by the updates of other
    conversations. *)
Lemma compare_conv_other_key upd (k : Z * Z) w :
  conversation_key upd <> k ->
  compare_conv (process_update e upd w) !! k = compare_conv w !! k.
Proof.
  intros Hne.
  apply (process_update_keeps_at (fun w => compare_conv w !! k)).
  - intros h Hk. apply (conv_handle_update_keeps e (fun w => compare_conv w !! k));
      [reflexivity | exact Hk].
  - intros h Hk.
    apply (conv_handle_update_other_key compare_conv_handler);
      [reflexivity | exact Hne | exact Hk].
  - keeps_tac.
  - keeps_tac.
  - keeps_tac.
  - keeps_tac.
  - keeps_tac.
  - intros _ _. keeps_tac.
  - keeps_tac.
  - keeps_tac.
  - keeps_tac.
Qed.

Lemma compare_conv_other_user upd ch u w :
  effective_user upd <> u ->
  compare_conv (process_update e upd w) !! (ch, u) = compare_conv w !! (ch, u).
Proof.
  intros Hne. apply compare_conv_other_key. unfold conversation_key. congruence.
Qed.

End Pending.

Section SecondTerm.
Variable e : env.

(** While a compare conversation is under way no button press changes the
    compare table: the entry point is not tried again, the fallback returns
    [None], and [button_handler] is not a conversation handler. *)
Lemma callback_query_keeps_compare_conv ch u m data s w :
  compare_conv w !! (ch, u) = Some s ->
  compare_conv (process_update e (CallbackQuery ch u m data) w) = compare_conv w.
Proof.
  intros Hc. unfold process_update. rewrite dispatch_callback_query. cbv zeta.
  rewrite Hc.
  assert (Hfb : keeps compare_conv (callback back_fallback e (CallbackQuery ch u m data)))
    by (cbn [callback back_fallback CallbackQueryHandler]; keeps_tac).
  assert (Hse : keeps compare_conv (callback search_entry e (CallbackQuery ch u m data)))
    by (cbn [callback search_entry CallbackQueryHandler]; keeps_tac).
  assert (Hcompare :
    compare_conv (snd
      (if re_match_exact "back_to_menu" data
       then conv_handle_update compare_conv_handler back_fallback e (CallbackQuery ch u m data) w
       else (let* _ := button_handler e (CallbackQuery ch u m data) in ret tt) w))
    = compare_conv w).
  { destruct (re_match_exact "back_to_menu" data).
    - apply (conv_handle_update_none e compare_conv_handler);
        [reflexivity | exact Hfb | intros a w'; apply fallback_returns_none].
    - apply (keeps_bind compare_conv);
        [apply button_handler_keeps_compare_conv | intros; apply keeps_ret]. }
  destruct (search_conv w !! (ch, u)) as [s0|].
  - destruct (re_match_exact "back_to_menu" data) eqn:B; [ | exact Hcompare].
    apply (conv_handle_update_keeps e compare_conv); [reflexivity | exact Hfb].
  - destruct (re_match_exact "search" data); [ | exact Hcompare].
    apply (conv_handle_update_keeps e compare_conv); [reflexivity | exact Hse].
Qed.

Lemma command_keeps_compare_conv ch u c t w :
  compare_conv (process_update e (CommandMessage ch u c t) w) = compare_conv w.
Proof.
  unfold process_update. rewrite dispatch_command_message.
  destruct (String.eqb (lower c) "start"); [ | reflexivity].
  apply (keeps_bind compare_conv); [keeps_tac | intros; apply keeps_ret].
Qed.

Lemma command_keeps_user_data ch u c t w :
  user_data (process_update e (CommandMessage ch u c t) w) = user_data w.
Proof.
  unfold process_update. rewrite dispatch_command_message.
  destruct (String.eqb (lower c) "start"); [ | reflexivity].
  apply (keeps_bind user_data); [keeps_tac | intros; apply keeps_ret].
Qed.

(** What the conversation that awaits the second term does with a text: the
    run of [compare_second], and the update of the table when it returns. *)
Lemma second_term_run ch u t r second w :
  search_conv w !! (ch, u) <> Some SEARCH ->
  compare_conv w !! (ch, u) = Some COMPARE_SECOND ->
  user_data w !! u = Some r ->
  PubChemClient.search_compound e (PyStr t) false = Some second ->
  process_update e (TextMessage ch u t) w
  = match send_comparison e r second w with
    | (Ok _, w1) => set_compare_conv (delete (ch, u) (compare_conv w1)) w1
    | (Raise, w1) => w1
    end.
Proof.
  intros Hs Hc Hd Hsec. unfold process_update.
  rewrite dispatch_text_message. cbv zeta. rewrite Hc.
  change (COMPARE_FIRST =? COMPARE_SECOND) with false.
  change (COMPARE_SECOND =? COMPARE_SECOND) with true. cbv iota.
  assert (Hrun :
    snd (conv_handle_update compare_conv_handler (MessageHandler compare_second)
           e (TextMessage ch u t) w)
    = match send_comparison e r second w with
      | (Ok _, w1) => set_compare_conv (delete (ch, u) (compare_conv w1)) w1
      | (Raise, w1) => w1
      end).
  { unfold conv_handle_update, conversation_key. cbn [callback MessageHandler].
    unfold compare_second. cbn [message_of effective_user effective_chat]. rewrite Hsec.
    unfold bind, get_world, ret, modify. rewrite Hd.
    destruct (send_comparison e r second w) as [[[]|] w1]; reflexivity. }
  destruct (search_conv w !! (ch, u)) as [s|]; [ | exact Hrun].
  destruct (Z.eqb_spec SEARCH s) as [<- | Hne]; [congruence | exact Hrun].
Qed.

(** What the conversation that awaits the first term does with a text that
    is found: the record is stored for the user, the prompt for the second
    term is sent, and the state moves on when the prompt was delivered. *)
Lemma first_term_run ch u t r w :
  search_conv w !! (ch, u) <> Some SEARCH ->
  compare_conv w !! (ch, u) = Some COMPARE_FIRST ->
  PubChemClient.search_compound e (PyStr t) false = Some r ->
  process_update e (TextMessage ch u t) w
  = let sent := tg_ok e (length (outbox w)) second_prompt in
    let w1 := set_outbox (outbox w ++ [(second_prompt, sent)])
                (set_user_data (<[u := r]> (user_data w)) w) in
    if sent then set_compare_conv (<[(ch, u) := COMPARE_SECOND]> (compare_conv w)) w1
    else w1.
Proof.
  intros Hs Hc Hr. unfold process_update.
  rewrite dispatch_text_message. cbv zeta. rewrite Hc.
  change (COMPARE_FIRST =? COMPARE_FIRST) with true. cbv iota.
  assert (Hrun :
    snd (conv_handle_update compare_conv_handler (MessageHandler compare_first)
           e (TextMessage ch u t) w)
    = if tg_ok e (length (outbox w)) second_prompt
      then set_compare_conv (<[(ch, u) := COMPARE_SECOND]> (compare_conv w))
             (set_outbox (outbox w ++ [(second_prompt, true)])
                (set_user_data (<[u := r]> (user_data w)) w))
      else set_outbox (outbox w ++ [(second_prompt, false)])
             (set_user_data (<[u := r]> (user_data w)) w)).
  { unfold conv_handle_update, conversation_key. cbn [callback MessageHandler].
    unfold compare_first. cbn [message_of effective_user effective_chat]. rewrite Hr.
    unfold bind, ret, modify, call. fold second_prompt.
    cbn [outbox set_user_data].
    destruct (tg_ok e (length (outbox w)) second_prompt); reflexivity. }
  destruct (tg_ok e (length (outbox w)) second_prompt) eqn:Hsent;
    (destruct (search_conv w !! (ch, u)) as [s|]; [ | exact Hrun];
     destruct (Z.eqb_spec SEARCH s) as [<- | Hne]; [congruence | exact Hrun]).
Qed.

(** The first term is resolved: the record is pending, and the conversation
    awaits the second term once the prompt for it was delivered. *)
Lemma first_term_resolved ch u t r w :
  spec_state w ch u = Some AwaitingFirstCompareTerm ->
  PubChemClient.search_compound e (PyStr t) false = Some r ->
  let w' := process_update e (TextMessage ch u t) w in
  let sent := tg_ok e (length (outbox w)) second_prompt in
  user_data w' !! u = Some r /\
  outbox w' = (outbox w ++ [(second_prompt, sent)])%list /\
  spec_state w' ch u
  = Some (if sent then AwaitingSecondCompareTerm r else AwaitingFirstCompareTerm).
Proof.
  intros [Hs Hc]%spec_state_first Hr. cbv zeta.
  rewrite (first_term_run ch u t r w) by (assumption || congruence). cbv zeta.
  destruct (tg_ok e (length (outbox w)) second_prompt);
    cbn [user_data outbox set_compare_conv set_outbox set_user_data].
  - split; [apply lookup_insert_eq | split; [reflexivity | ] ].
    apply spec_state_second.
    cbn [search_conv compare_conv user_data set_compare_conv set_outbox set_user_data].
    split; [exact Hs | split; apply lookup_insert_eq].
  - split; [apply lookup_insert_eq | split; [reflexivity | ] ].
    apply spec_state_first.
    cbn [search_conv compare_conv user_data set_compare_conv set_outbox set_user_data].
    split; assumption.
Qed.

(** A text of the same user that another chat takes as a first compare term
    and finds: the record of that term is pending now, for every chat. *)
Lemma first_term_replaces ch' u t r' w :
  search_conv w !! (ch', u) <> Some SEARCH ->
  compare_conv w !! (ch', u) = Some COMPARE_FIRST ->
  PubChemClient.search_compound e (PyStr t) false = Some r' ->
  user_data (process_update e (TextMessage ch' u t) w) !! u = Some r'.
Proof.
  intros Hs Hc Hr. rewrite (first_term_run ch' u t r' w Hs Hc Hr). cbv zeta.
  destruct (tg_ok e (length (outbox w)) second_prompt);
    cbn [user_data set_compare_conv set_outbox set_user_data]; apply lookup_insert_eq.
Qed.

(** The second term is found: the comparison of the pending record with it
    is the one message sent, and the conversation is over. *)
Lemma found_second_term (Hok : transport_ok e) ch u t r second w :
  spec_state w ch u = Some (AwaitingSecondCompareTerm r) ->
  PubChemClient.search_compound e (PyStr t) false = Some second ->
  let w' := process_update e (TextMessage ch u t) w in
  spec_state w' ch u = Some Idle /\
  user_data w' !! u = Some r /\
  outbox w' = (outbox w ++ [(comparison_message e r second, true)])%list.
Proof.
  intros (Hs & Hc & Hd)%spec_state_second Hr. cbv zeta.
  rewrite (second_term_run ch u t r second w) by (assumption || congruence).
  rewrite (send_comparison_ok e r second w Hok).
  split; [ | split; [exact Hd | reflexivity] ].
  apply spec_state_idle. cbn [search_conv compare_conv set_compare_conv set_outbox].
  split; [exact Hs | apply lookup_delete_eq].
Qed.

End SecondTerm.

(** One update while the second term is awaited in the chat [ch]: the
    record is still pending, or the update resolved the second term and the
    comparison of that record was sent, or the same user's first term in
    another chat took its place. *)
Lemma awaits_second_step (e : env) (upd : update) (ch u : Z) (r : compound) (w : world) :
  awaits_second w ch u r ->
  let w' := process_update e upd w in
  awaits_second w' ch u r \/
  (exists second,
      second_term e upd w ch u second /\
      fst (send_comparison e r second w) = Ok tt /\
      w' = set_compare_conv (delete (ch, u) (compare_conv w))
             (snd (send_comparison e r second w))) \/
  (exists r', first_term_elsewhere e upd w ch u r' /\ awaits_second w' ch u r').
Proof.
  intros [Hc Hd]. cbv zeta.
  destruct (decide (conversation_key upd = (ch, u))) as [Hkey | Hkey].
  - (* an update of this conversation *)
    assert (Hud : user_data (process_update e upd w) !! u = Some r).
    { rewrite user_data_step; [exact Hd | ]. rewrite Hkey, Hc. discriminate. }
    destruct upd as [ch' v c t | ch' v t | ch' v m data | ch' v oc t];
      unfold conversation_key in Hkey; cbn [effective_user effective_chat] in Hkey;
      injection Hkey as -> ->.
    + left. split; [ | exact Hud].
      rewrite command_keeps_compare_conv. exact Hc.
    + destruct (decide (search_conv w !! (ch, u) = Some SEARCH)) as [Hs | Hs].
      * left. split; [ | exact Hud].
        unfold process_update. rewrite dispatch_text_message. cbv zeta. rewrite Hs.
        change (SEARCH =? SEARCH) with true. cbv iota.
        rewrite (conv_handle_update_keeps e (fun w => compare_conv w !! (ch, u))
                   search_conv_handler (MessageHandler handle_search) (TextMessage ch u t)
                   (fun _ _ => eq_refl));
          [exact Hc | cbn [callback MessageHandler]; keeps_tac].
      * destruct (PubChemClient.search_compound e (PyStr t) false) as [second|] eqn:Hsec.
        -- pose proof (second_term_run e ch u t r second w Hs Hc Hd Hsec) as Hrun.
           assert (Hk : keeps compare_conv (send_comparison e r second)) by keeps_tac.
           specialize (Hk w).
           destruct (send_comparison e r second w) as [[[]|] w1] eqn:S; cbn [fst snd] in *.
           ++ right. left. exists second. rewrite S. cbn [fst snd].
              split; [exists t; split; [reflexivity | split; assumption] | ].
              split; [reflexivity | ]. rewrite Hrun, Hk. reflexivity.
           ++ left. split; [ | exact Hud]. rewrite Hrun, Hk. exact Hc.
        -- left. split; [ | exact Hud].
           unfold process_update. rewrite dispatch_text_message. cbv zeta. rewrite Hc.
           change (COMPARE_FIRST =? COMPARE_SECOND) with false.
           change (COMPARE_SECOND =? COMPARE_SECOND) with true. cbv iota.
           assert (Hrun :
             compare_conv (snd (conv_handle_update compare_conv_handler
                                  (MessageHandler compare_second) e (TextMessage ch u t) w))
               !! (ch, u) = Some COMPARE_SECOND).
           { unfold conv_handle_update, conversation_key. cbn [callback MessageHandler].
             rewrite (compare_second_failed e ch u t Hsec).
             unfold bind, ret, modify, call.
             destruct (tg_ok e (length (outbox w)) reprompt);
               cbn [snd conversations set_conversations compare_conv_handler update_state
                    effective_user effective_chat compare_conv set_compare_conv set_outbox].
             - change (COMPARE_SECOND =? END) with false. cbv iota. apply lookup_insert_eq.
             - exact Hc. }
           destruct (search_conv w !! (ch, u)) as [s|]; [ | exact Hrun].
           destruct (Z.eqb_spec SEARCH s) as [<- | Hne]; [congruence | exact Hrun].
    + left. split; [ | exact Hud].
      rewrite (callback_query_keeps_compare_conv e ch u m data _ w Hc). exact Hc.
    + left. unfold process_update. rewrite dispatch_edited_message. split; assumption.
  - (* an update of another conversation *)
    assert (Hcc : compare_conv (process_update e upd w) !! (ch, u) = Some COMPARE_SECOND).
    { rewrite compare_conv_other_key by exact Hkey. exact Hc. }
    destruct upd as [ch' v c t | ch' v t | ch' v m data | ch' v oc t].
    + left. split; [exact Hcc | ]. rewrite command_keeps_user_data. exact Hd.
    + unfold conversation_key in Hkey. cbn [effective_user effective_chat] in Hkey.
      destruct (decide (v = u /\ search_conv w !! (ch', v) <> Some SEARCH /\
                        compare_conv w !! (ch', v) = Some COMPARE_FIRST))
        as [ (-> & Hs & Hf) | Hno].
      * destruct (PubChemClient.search_compound e (PyStr t) false) as [r'|] eqn:Hr.
        -- right. right. exists r'. split.
           ++ exists ch', t. split; [congruence | ].
              split; [reflexivity | split; [exact Hs | split; [exact Hf | exact Hr] ] ].
           ++ split; [exact Hcc | ].
              apply (first_term_replaces e ch' u t r' w Hs Hf Hr).
        -- left. split; [exact Hcc | ].
           rewrite user_data_step; [exact Hd | ].
           intros _ _ t' M'. cbn [message_of] in M'. injection M' as <-. exact Hr.
      * left. split; [exact Hcc | ].
        rewrite user_data_step; [exact Hd | ].
        unfold conversation_key. cbn [effective_user effective_chat message_of].
        intros Hs Hf t' M'. exfalso. apply Hno. injection M' as -> _.
        split; [reflexivity | split; assumption].
    + left. split; [exact Hcc | ].
      rewrite user_data_step; [exact Hd | ].
      intros _ _ t' M'. discriminate M'.
    + left. unfold process_update. rewrite dispatch_edited_message. split; assumption.
Qed.

(** C6, as the code has it.  A first term that resolves is stored as the
    pending record of the user and the prompt for the second term is sent;
    when the prompt was delivered the conversation awaits the second term
    with exactly that record, otherwise it still awaits the first term.
    While the second term is awaited in a chat, one update, of any user in
    any chat, leaves that record pending, or resolves the second term, in
    which case the comparison is computed against that record and the
    conversation ends, or is a first compare term that the same user enters
    in another chat: the pending record is kept per user and not per
    conversation, so the record resolved there takes its place and the later
    comparison is computed against it. *)
Theorem pending_record_carried (e : env) (ch u : Z) (r : compound) (w : world) :
  (forall t,
      spec_state w ch u = Some AwaitingFirstCompareTerm ->
      PubChemClient.search_compound e (PyStr t) false = Some r ->
      let w' := process_update e (TextMessage ch u t) w in
      let sent := tg_ok e (length (outbox w)) second_prompt in
      user_data w' !! u = Some r /\
      outbox w' = (outbox w ++ [(second_prompt, sent)])%list /\
      spec_state w' ch u
      = Some (if sent then AwaitingSecondCompareTerm r else AwaitingFirstCompareTerm)) /\
  (awaits_second w ch u r ->
   forall upd,
     let w' := process_update e upd w in
     awaits_second w' ch u r \/
     (exists second,
         second_term e upd w ch u second /\
         fst (send_comparison e r second w) = Ok tt /\
         w' = set_compare_conv (delete (ch, u) (compare_conv w))
                (snd (send_comparison e r second w))) \/
     (exists r', first_term_elsewhere e upd w ch u r' /\ awaits_second w' ch u r')) /\
  (awaits_second w ch u r ->
   forall upd r',
     first_term_elsewhere e upd w ch u r' ->
     awaits_second (process_update e upd w) ch u r') /\
  (forall t second,
      spec_state w ch u = Some (AwaitingSecondCompareTerm r) ->
      PubChemClient.search_compound e (PyStr t) false = Some second ->
      let w' := process_update e (TextMessage ch u t) w in
      w' = match send_comparison e r second w with
           | (Ok _, w1) => set_compare_conv (delete (ch, u) (compare_conv w1)) w1
           | (Raise, w1) => w1
           end /\
      (transport_ok e ->
       spec_state w' ch u = Some Idle /\
       user_data w' !! u = Some r /\
       outbox w' = (outbox w ++ [(comparison_message e r second, true)])%list)).
Proof.
  split; [ | split; [ | split] ].
  - intros t Hs Hr. apply first_term_resolved; assumption.
  - intros Ha upd. apply awaits_second_step. exact Ha.
  - intros [Hc Hd] upd r' (ch' & t & Hne & -> & Hs & Hf & Hr). split.
    + rewrite compare_conv_other_key; [exact Hc | ].
      unfold conversation_key. cbn [effective_chat effective_user]. congruence.
    + apply first_term_replaces; assumption.
  - intros t second Hst Hsec. cbv zeta. split.
    + apply spec_state_second in Hst. destruct Hst as (Hs & Hc & Hd).
      apply second_term_run; [congruence | assumption | assumption | assumption].
    + intros Hok. apply (found_second_term e Hok); assumption.
Qed.

Lemma pending_record_carried_witness :
  let w0 := process_update sample_env (CallbackQuery 7 7 99 "compare") initial_world in
  let w1 := process_update sample_env (TextMessage 7 7 "aspirin") w0 in
  let w2 := process_update sample_env (CallbackQuery 7 7 99 "history") w1 in
  let w3 := process_update sample_env (TextMessage 7 7 "glycolic acid") w2 in
  exists r second,
    PubChemClient.search_compound sample_env (PyStr "aspirin") false = Some r /\
    PubChemClient.search_compound sample_env (PyStr "glycolic acid") false = Some second /\
    spec_state w1 7 7 = Some (AwaitingSecondCompareTerm r) /\
    spec_state w2 7 7 = Some (AwaitingSecondCompareTerm r) /\
    spec_state w3 7 7 = Some Idle /\
    outbox w3 = (outbox w2 ++ [(comparison_message sample_env r second, true)])%list.
Proof.
  cbv zeta.
  set (w0 := process_update sample_env (CallbackQuery 7 7 99 "compare") initial_world).
  set (w1 := process_update sample_env (TextMessage 7 7 "aspirin") w0).
  set (w2 := process_update sample_env (CallbackQuery 7 7 99 "history") w1).
  destruct (PubChemClient.search_compound sample_env (PyStr "aspirin") false) as [r|] eqn:Hr;
    [ | vm_compute in Hr; discriminate Hr].
  destruct (PubChemClient.search_compound sample_env (PyStr "glycolic acid") false)
    as [second|] eqn:Hsec; [ | vm_compute in Hsec; discriminate Hsec].
  exists r, second. split; [reflexivity | split; [reflexivity | ] ].
  destruct (pending_record_carried sample_env 7 7 r w0) as [Hfirst _].
  assert (S0 : spec_state w0 7 7 = Some AwaitingFirstCompareTerm) by (vm_compute; reflexivity).
  destruct (Hfirst "aspirin" S0 Hr) as (_ & _ & S1). fold w1 in S1.
  change (tg_ok sample_env (length (outbox w0)) second_prompt) with true in S1.
  cbv iota in S1.
  split; [exact S1 | ].
  apply spec_state_second in S1. destruct S1 as (Hs1 & Hc1 & Hd1).
  destruct (pending_record_carried sample_env 7 7 r w1) as (_ & Hstep & _).
  assert (S2 : spec_state w2 7 7 = Some (AwaitingSecondCompareTerm r)).
  { destruct (Hstep (conj Hc1 Hd1) (CallbackQuery 7 7 99 "history"))
      as [ [Hc2 Hd2] | [ (s & (t & Ht & _) & _) | (r' & (c' & t & _ & Ht & _) & _) ] ];
      [ | discriminate Ht | discriminate Ht].
    fold w2 in Hc2, Hd2. apply spec_state_second.
    split; [vm_compute; reflexivity | split; assumption]. }
  split; [exact S2 | ].
  destruct (pending_record_carried sample_env 7 7 r w2) as (_ & _ & _ & Hsecond).
  destruct (Hsecond "glycolic acid" second S2 Hsec) as (_ & Hdone).
  destruct (Hdone (fun n c => eq_refl)) as (S3 & _ & Ho).
  split; [exact S3 | exact Ho].
Defined.

(** C6 as the specification words it fails: the user awaits the second term
    in one chat, starts a comparison in another chat and enters a first
    term there; the record pending in the first chat is now the one
    resolved in the other chat, and the comparison that the first chat
    sends is computed against it. *)
Lemma pending_record_replaced_in_another_chat :
  let w0 := process_update sample_env (CallbackQuery 7 7 99 "compare") initial_world in
  let w1 := process_update sample_env (TextMessage 7 7 "aspirin") w0 in
  let w2 := process_update sample_env (CallbackQuery (-100) 7 99 "compare") w1 in
  let w3 := process_update sample_env (TextMessage (-100) 7 "glycolic acid") w2 in
  let w4 := process_update sample_env (TextMessage 7 7 "mixture") w3 in
  exists r r' second,
    PubChemClient.search_compound sample_env (PyStr "aspirin") false = Some r /\
    PubChemClient.search_compound sample_env (PyStr "glycolic acid") false = Some r' /\
    PubChemClient.search_compound sample_env (PyStr "mixture") false = Some second /\
    r' <> r /\
    spec_state w1 7 7 = Some (AwaitingSecondCompareTerm r) /\
    spec_state w2 7 7 = Some (AwaitingSecondCompareTerm r) /\
    spec_state w3 7 7 = Some (AwaitingSecondCompareTerm r') /\
    outbox w4 = (outbox w3 ++ [(comparison_message sample_env r' second, true)])%list /\
    comparison_message sample_env r' second <> comparison_message sample_env r second.
Proof.
  cbv zeta.
  destruct (PubChemClient.search_compound sample_env (PyStr "aspirin") false) as [r|] eqn:Hr;
    vm_compute in Hr; [injection Hr as <- | discriminate Hr].
  destruct (PubChemClient.search_compound sample_env (PyStr "glycolic acid") false)
    as [r'|] eqn:Hr'; vm_compute in Hr'; [injection Hr' as <- | discriminate Hr'].
  destruct (PubChemClient.search_compound sample_env (PyStr "mixture") false)
    as [second|] eqn:Hsec; vm_compute in Hsec; [injection Hsec as <- | discriminate Hsec].
  eexists _, _, _.
  split; [reflexivity | ]. split; [reflexivity | ]. split; [reflexivity | ].
  split; [discriminate | ].
  split; [vm_compute; reflexivity | ].
  split; [vm_compute; reflexivity | ].
  split; [vm_compute; reflexivity | ].
  split; [vm_compute; reflexivity | ].
  vm_compute. discriminate.
Qed.

(* ===================================================================== *)
(** * A history token, from the keyboard back to the lookup               *)
(* ===================================================================== *)

Section HistoryTokens.
Variable e : env.
Hypothesis Hok : transport_ok e.

(** A found record is stored in the history of the sender of the message
    and shown by one message. *)
Lemma process_chemical_search_found u query by_cid r w :
  PubChemClient.search_compound e (PyStr query) by_cid = Some r ->
  exists c,
    shows_record e r c /\
    process_chemical_search e u query by_cid w
    = (Ok tt,
       set_outbox (outbox w ++ [(c, true)])
         (set_SEARCH_HISTORY (append_history u (history_entry e r) (SEARCH_HISTORY w)) w)).
Proof.
  intros Hr. unfold process_chemical_search. rewrite Hr.
  unfold bind, modify.
  destruct (send_molecule_info_ok e Hok r
              (set_SEARCH_HISTORY (append_history u (history_entry e r) (SEARCH_HISTORY w)) w))
    as (c & Hc & Hrun).
  exists c. split; [exact Hc | ]. exact Hrun.
Qed.

Lemma show_history_run ch u m data w :
  show_history e (CallbackQuery ch u m data) w
  = (Ok None, set_outbox (outbox w ++ [(history_message e (history_of w u), true)]) w).
Proof.
  unfold show_history, history_of. cbn [callback_user].
  unfold bind at 1. unfold get_world at 1.
  destruct (SEARCH_HISTORY w !! u) as [ [|x l]|]; unfold bind, ret;
    rewrite ?(show_main_menu_callback_ok e Hok), ?(safe_edit_or_reply_ok e Hok);
    reflexivity.
Qed.

Lemma history_press_run ch u m w :
  process_update e (CallbackQuery ch u m "history") w
  = set_outbox (outbox w ++ [(answer None, true);
                             (history_message e (history_of w u), true)]) w.
Proof.
  unfold process_update. rewrite dispatch_to_button by reflexivity.
  change (button_handler e (CallbackQuery ch u m "history"))
    with (let* _ := call e (answer None) in
          let* _ := show_history e (CallbackQuery ch u m "history") in
          ret (None : option Z)).
  unfold bind, ret. rewrite (call_ok e Hok), show_history_run.
  cbn [snd outbox set_outbox]. unfold history_of. cbn [SEARCH_HISTORY set_outbox].
  rewrite <- app_assoc. reflexivity.
Qed.

(** The row of an entry among the last five is a row of the keyboard. *)
Lemma history_keyboard_row (item : history_item) (history : list history_item) :
  In item history ->
  In [CallbackButton (item_name item) ("history_" ++ py_str e (item_cid item))]
     (history_keyboard e history).
Proof.
  intros Hin. unfold history_keyboard. apply in_or_app. left.
  apply (in_map (fun item =>
           [CallbackButton (item_name item) ("history_" ++ py_str e (item_cid item))])).
  apply in_rev. rewrite rev_involutive. exact Hin.
Qed.

(** The press of a history token whose identifier is known to PubChem. *)
Lemma history_token_found ch u m (s : string) r w :
  id_string s = true ->
  PubChemClient.search_compound e (PyStr s) true = Some r ->
  exists c,
    shows_record e r c /\
    process_update e (CallbackQuery ch u m ("history_" ++ s)) w
    = set_outbox (outbox w ++ [(answer None, true); (c, true)])
        (set_SEARCH_HISTORY (append_history m (history_entry e r) (SEARCH_HISTORY w)) w).
Proof.
  intros Hs Hr. unfold process_update.
  destruct (history_token_dispatch e ch u m s w Hs) as [_ ->].
  unfold bind, ret. rewrite (call_ok e Hok). cbn [fst snd].
  destruct (process_chemical_search_found m s true r
              (set_outbox (outbox w ++ [(answer None, true)]) w) Hr) as (c & Hc & ->).
  exists c. split; [exact Hc | ].
  cbn [snd outbox set_outbox SEARCH_HISTORY set_SEARCH_HISTORY].
  rewrite <- app_assoc. reflexivity.
Qed.

(** The press of a history token whose identifier PubChem does not know. *)
Lemma history_token_not_found ch u m (s : string) w :
  id_string s = true ->
  PubChemClient.search_compound e (PyStr s) true = None ->
  process_update e (CallbackQuery ch u m ("history_" ++ s)) w
  = set_outbox (outbox w ++ [(answer None, true); (not_found s, true)]) w.
Proof.
  intros Hs Hr. unfold process_update.
  destruct (history_token_dispatch e ch u m s w Hs) as [_ ->].
  unfold bind, ret. rewrite (call_ok e Hok). cbn [fst snd].
  unfold process_chemical_search. rewrite Hr. fold (not_found s).
  rewrite (call_ok e Hok).
  cbn [snd outbox set_outbox]. rewrite <- app_assoc. reflexivity.
Qed.

End HistoryTokens.

(** C9: with a working transport, the history display of a user carries,
    for each of the last five entries of that user, a button whose token is
    [history_] followed by the text of the identifier of the entry;
    stripping the prefix, as the handler does, gives that text back; and the
    press of the token makes the lookup by identifier of that very text:
    when PubChem knows it, the record built from its answer carries that
    identifier, is stored in the history and is shown; when PubChem does
    not, the not-found text names it. *)
Theorem history_token_round_trip (e : env) (ch u m : Z) (item : history_item) (w : world) :
  transport_ok e ->
  In item (last_n 5 (history_of w u)) ->
  id_string (py_str e (item_cid item)) = true ->
  let s := py_str e (item_cid item) in
  let token := "history_" ++ s in
  (outbox (process_update e (CallbackQuery ch u m "history") w)
   = (outbox w ++ [(answer None, true);
                   (edit_message_text (Text "🔍 История поиска:")
                      (Some (history_keyboard e (last_n 5 (history_of w u)))) None,
                    true)])%list /\
   In [CallbackButton (item_name item) token]
      (history_keyboard e (last_n 5 (history_of w u)))) /\
  replace token "history_" "" = s /\
  (let w' := process_update e (CallbackQuery ch u m token) w in
   match cid_record e s with
   | Some _ =>
       exists r c,
         PubChemClient.search_compound e (PyStr s) true = Some r /\
         CID r = PyStr s /\
         shows_record e r c /\
         w' = set_outbox (outbox w ++ [(answer None, true); (c, true)])
                (set_SEARCH_HISTORY
                   (append_history m (history_entry e r) (SEARCH_HISTORY w)) w)
   | None =>
       PubChemClient.search_compound e (PyStr s) true = None /\
       w' = set_outbox (outbox w ++ [(answer None, true); (not_found s, true)]) w
   end).
Proof.
  intros Hok Hin Hid. cbv zeta.
  split; [split | split].
  - rewrite (history_press_run e Hok). cbn [outbox set_outbox].
    unfold history_message.
    destruct (history_of w u) as [|x l]; [destruct Hin | reflexivity].
  - apply history_keyboard_row. exact Hin.
  - apply (replace_token "h" "istory_"); [reflexivity | exact Hid].
  - pose proof (search_compound_by_cid e (py_str e (item_cid item))) as H.
    destruct (cid_record e (py_str e (item_cid item))).
    + destruct H as (r & Hr & Hc).
      destruct (history_token_found e Hok ch u m _ r w Hid Hr) as (c & Hshow & Hrun).
      exists r, c. split; [exact Hr | split; [exact Hc | split; [exact Hshow | exact Hrun] ] ].
    + split; [exact H | ]. apply (history_token_not_found e Hok); assumption.
Qed.

Lemma history_token_round_trip_witness :
  let w1 := process_update sample_env (TextMessage 7 7 "aspirin") initial_world in
  let w2 := process_update sample_env (CallbackQuery 7 7 7 "history") w1 in
  let w3 := process_update sample_env (CallbackQuery 7 7 7 "history_2244") w2 in
  outbox w2
  = (outbox w1 ++ [(answer None, true);
                   (edit_message_text (Text "🔍 История поиска:")
                      (Some [[CallbackButton "aspirin" "history_2244"];
                             [CallbackButton "↩️ Назад" "back_to_menu"]]) None,
                    true)])%list /\
  replace "history_2244" "history_" "" = "2244" /\
  exists r,
    PubChemClient.search_compound sample_env (PyStr "2244") true = Some r /\
    CID r = PyStr "2244" /\
    map item_cid (history_of w3 7) = [PyInt 2244; PyStr "2244"].
Proof.
  cbv zeta.
  set (w1 := process_update sample_env (TextMessage 7 7 "aspirin") initial_world).
  set (w2 := process_update sample_env (CallbackQuery 7 7 7 "history") w1).
  set (item := {| item_name := "aspirin"; item_cid := PyInt 2244; item_time := fzero |}).
  assert (Hin1 : In item (last_n 5 (history_of w1 7))) by (vm_compute; left; reflexivity).
  assert (Hin2 : In item (last_n 5 (history_of w2 7))) by (vm_compute; left; reflexivity).
  destruct (history_token_round_trip sample_env 7 7 7 item w1 (fun n c => eq_refl) Hin1 eq_refl)
    as ((Hshow & _) & Hrep & _).
  destruct (history_token_round_trip sample_env 7 7 7 item w2 (fun n c => eq_refl) Hin2 eq_refl)
    as (_ & _ & Hpress).
  split; [exact Hshow | split; [exact Hrep | ] ].
  cbv zeta in Hpress.
  change (py_str sample_env (item_cid item)) with "2244" in Hpress.
  change (cid_record sample_env "2244") with
    (Some (sample_pc "C9H8O4" (Some (PyFloat (float_literal 18016 2)))
             "2-acetyloxybenzoic acid")) in Hpress.
  destruct Hpress as (r & c & Hr & Hc & _ & Hrun).
  exists r. split; [exact Hr | split; [exact Hc | ] ].
  change ("history_" ++ "2244") with "history_2244" in Hrun. rewrite Hrun.
  unfold history_of. cbn [SEARCH_HISTORY set_outbox set_SEARCH_HISTORY].
  unfold append_history. rewrite lookup_insert_eq.
  unfold history_entry. rewrite Hc.
  vm_compute. reflexivity.
Defined.

(* ===================================================================== *)
(** * The number that a comparison prints                                  *)
(* ===================================================================== *)

Section PrintedDifference.

Lemma hundredths_exact (m : positive) (ex : Z) :
  0 <= ex -> hundredths m ex = Z.pos m * 100 * 2 ^ ex.
Proof.
  intros H. unfold hundredths.
  destruct (Z.leb_spec 0 ex) as [_|Hlt]; [reflexivity | lia].
Qed.

Lemma hundredths_rounds (m : positive) (ex : Z) :
  ex < 0 ->
  2 * Z.abs (Z.pos m * 100 - hundredths m ex * 2 ^ (- ex)) <= 2 ^ (- ex).
Proof.
  intros H. unfold hundredths.
  destruct (Z.leb_spec 0 ex) as [Hle|_]; [lia | ].
  assert (Hd : 0 < 2 ^ (- ex)) by (apply Z.pow_pos_nonneg; lia).
  set (d := 2 ^ (- ex)) in *. set (n := Z.pos m * 100).
  pose proof (Z.div_mod n d ltac:(lia)) as Hdm.
  pose proof (Z.mod_pos_bound n d Hd) as Hr.
  set (q := n / d) in *. set (r := n mod d) in *.
  destruct (Z.compare_spec (2 * r) d) as [He|Hl|Hg].
  - destruct (Z.even q); nia.
  - nia.
  - nia.
Qed.

(** On a tie the even number of hundredths is taken. *)
Lemma hundredths_tie_even (m : positive) (ex : Z) :
  ex < 0 ->
  2 * Z.abs (Z.pos m * 100 - hundredths m ex * 2 ^ (- ex)) = 2 ^ (- ex) ->
  Z.even (hundredths m ex) = true.
Proof.
  intros H. unfold hundredths.
  destruct (Z.leb_spec 0 ex) as [Hle|_]; [lia | ].
  assert (Hd : 0 < 2 ^ (- ex)) by (apply Z.pow_pos_nonneg; lia).
  set (d := 2 ^ (- ex)) in *. set (n := Z.pos m * 100).
  pose proof (Z.div_mod n d ltac:(lia)) as Hdm.
  pose proof (Z.mod_pos_bound n d Hd) as Hr.
  set (q := n / d) in *. set (r := n mod d) in *.
  destruct (Z.compare_spec (2 * r) d) as [He|Hl|Hg].
  - destruct (Z.even q) eqn:E; intros _; [exact E | ].
    rewrite Z.even_add, E. reflexivity.
  - intros Habs. nia.
  - intros Habs. nia.
Qed.

End PrintedDifference.

Section SignOfDifference.

Lemma digits_unsigned (n : Z) :
  exists c r, digits n = String c r /\ c <> "-"%char.
Proof.
  unfold digits. destruct (N.to_uint (Z.to_N n)) as [|d|d|d|d|d|d|d|d|d|d];
    cbn; eexists; eexists; (split; [reflexivity | discriminate]).
Qed.

Lemma format_2f_float_unsigned (x : float) :
  sign_clear x -> unsigned_text (format_2f_float x).
Proof.
  destruct x as [s|s| |s m ex]; cbn [sign_clear]; intros H; subst;
    try (cbn; discriminate).
  cbn [format_2f_float].
  destruct (digits_unsigned (hundredths m ex / 100)) as (c & r & Hd & Hc).
  rewrite Hd. exact Hc.
Qed.

Lemma fabs_sign_clear (x : float) : sign_clear (fabs x).
Proof. destruct x; cbn; auto. Qed.

(** Rounding keeps the sign it is given. *)
Lemma binary_round_aux_sign s mx ex lx :
  SFabs (binary_round_aux prec emax s mx ex lx)
  = SFabs (binary_round_aux prec emax false mx ex lx).
Proof.
  unfold binary_round_aux.
  destruct (shr_fexp prec emax mx ex lx) as [mrs' e'].
  destruct (shr_fexp prec emax _ e' loc_Exact) as [mrs'' e''].
  destruct (shr_m mrs'') as [|p|p]; [reflexivity | | reflexivity].
  destruct (e'' <=? emax - prec); reflexivity.
Qed.

Lemma binary_round_sign s m ex :
  SFabs (binary_round prec emax s m ex) = SFabs (binary_round prec emax false m ex).
Proof.
  unfold binary_round.
  destruct (shl_align m ex _) as [mz ez]. apply binary_round_aux_sign.
Qed.

Lemma binary_normalize_opp (z ex : Z) :
  SFabs (binary_normalize prec emax (- z) ex false)
  = SFabs (binary_normalize prec emax z ex false).
Proof.
  destruct z as [|p|p]; cbn [Z.opp binary_normalize]; [reflexivity | | ].
  - apply binary_round_sign.
  - symmetry. apply binary_round_sign.
Qed.

(** The absolute difference of two floats does not depend on their order. *)
Lemma fabs_fsub_comm (x y : float) : fabs (fsub x y) = fabs (fsub y x).
Proof.
  destruct x as [sx|sx| |sx mx ex], y as [sy|sy| |sy my ey];
    try (destruct sx, sy; reflexivity); try (destruct sx; reflexivity);
    try (destruct sy; reflexivity); try reflexivity.
  unfold fabs, fsub, SFsub.
  rewrite (Z.min_comm ey ex).
  set (a := cond_Zopp sx (Z.pos (fst (shl_align mx ex (Z.min ex ey))))).
  set (b := cond_Zopp sy (Z.pos (fst (shl_align my ey (Z.min ex ey))))).
  replace (b - a) with (- (a - b)) by lia.
  symmetry. apply binary_normalize_opp.
Qed.

Lemma py_abs_sub_comm (a b : num) :
  option_map Py.abs (Py.sub a b) = option_map Py.abs (Py.sub b a).
Proof.
  destruct a as [x|x], b as [y|y]; cbn [Py.sub option_map Py.abs].
  - f_equal. f_equal. lia.
  - destruct (float_of_int x) as [x'|]; cbn [option_map Py.abs]; [ | reflexivity].
    rewrite fabs_fsub_comm. reflexivity.
  - destruct (float_of_int y) as [y'|]; cbn [option_map Py.abs]; [ | reflexivity].
    rewrite fabs_fsub_comm. reflexivity.
  - rewrite fabs_fsub_comm. reflexivity.
Qed.

Lemma float_of_int_sign_clear z x :
  0 <= z -> float_of_int z = Some x -> sign_clear x.
Proof.
  unfold float_of_int. intros Hz.
  destruct z as [|p|p]; [ | | lia].
  - cbn. intros [= <-]. reflexivity.
  - cbn [binary_normalize]. unfold binary_round.
    destruct (shl_align p 0 _) as [mz ez]. unfold binary_round_aux.
    destruct (shr_fexp prec emax (Z.pos mz) ez loc_Exact) as [mrs' e'].
    destruct (shr_fexp prec emax _ e' loc_Exact) as [mrs'' e''].
    destruct (shr_m mrs'') as [|q|q]; [ | | ].
    + intros [= <-]. reflexivity.
    + destruct (e'' <=? emax - prec); [intros [= <-]; reflexivity | discriminate].
    + intros [= <-]. exact I.
Qed.

End SignOfDifference.

(** X1: the order of the two compounds does not matter to the difference
    that a comparison computes, whatever their weights are (numbers, strings
    or ['N/A']). *)
Theorem mass_diff_symmetric (e : env) (first second : compound) :
  mass_diff e first second = mass_diff e second first.
Proof.
  unfold mass_diff.
  destruct (weight_number e first) as [mw1|], (weight_number e second) as [mw2|];
    try reflexivity.
  apply py_abs_sub_comm.
Qed.

(** X2: the difference that a comparison prints never carries a minus sign:
    it is the two-decimal text of an absolute value. *)
Theorem printed_difference_unsigned (e : env) (first second : compound)
    (d : num) (text : string) :
  mass_diff e first second = Some d ->
  format_2f d = Some text ->
  unsigned_text text.
Proof.
  unfold mass_diff.
  destruct (weight_number e first) as [mw1|]; [ | discriminate].
  destruct (weight_number e second) as [mw2|]; [ | discriminate].
  destruct (Py.sub mw1 mw2) as [d0|]; [ | discriminate].
  cbn [option_map]. intros [= <-].
  destruct d0 as [z|x]; cbn [Py.abs format_2f].
  - destruct (float_of_int (Z.abs z)) as [x|] eqn:E; [ | discriminate].
    cbn [option_map]. intros [= <-]. apply format_2f_float_unsigned.
    apply (float_of_int_sign_clear (Z.abs z) x); [lia | exact E].
  - intros [= <-]. apply format_2f_float_unsigned, fabs_sign_clear.
Qed.

Lemma printed_difference_unsigned_witness :
  unsigned_text "104.11".
Proof.
  apply (printed_difference_unsigned sample_env glycolic_acid aspirin
           (NFloat (fabs (fsub (float_literal 7605 2) (float_literal 18016 2))))).
  - vm_compute. reflexivity.
  - vm_compute. reflexivity.
Defined.

(** X3: the two decimals that [.2f] prints for a finite float are the number
    of hundredths nearest to its exact binary value, the even one on a tie;
    the error is at most half a hundredth. *)
Theorem format_2f_nearest_hundredth (s : bool) (m : positive) (ex : Z) :
  let q := hundredths m ex in
  format_2f_float (S754_finite s m ex)
  = (if s then "-" else "") ++ digits (q / 100) ++ "." ++ two_digits (q mod 100) /\
  0 <= q mod 100 < 100 /\
  (0 <= ex -> q = Z.pos m * 100 * 2 ^ ex) /\
  (ex < 0 ->
   2 * Z.abs (Z.pos m * 100 - q * 2 ^ (- ex)) <= 2 ^ (- ex) /\
   (2 * Z.abs (Z.pos m * 100 - q * 2 ^ (- ex)) = 2 ^ (- ex) -> Z.even q = true)).
Proof.
  cbv zeta. split; [reflexivity | split; [ | split] ].
  - apply Z.mod_pos_bound. lia.
  - apply hundredths_exact.
  - intros H. split; [apply hundredths_rounds | apply hundredths_tie_even]; exact H.
Qed.

Lemma format_2f_nearest_hundredth_witness :
  format_2f_float (S754_finite false 1 (-3)) = "0.12" /\
  format_2f_float (S754_finite false 3 (-3)) = "0.38" /\
  Z.even (hundredths 1 (-3)) = true.
Proof.
  destruct (format_2f_nearest_hundredth false 1 (-3)) as (H1 & _ & _ & Hr).
  destruct (format_2f_nearest_hundredth false 3 (-3)) as (H3 & _).
  split; [rewrite H1; reflexivity | split; [rewrite H3; reflexivity | ] ].
  apply Hr; [lia | reflexivity].
Defined.

(* ===================================================================== *)
(** * Tokens and their payload                                             *)
(* ===================================================================== *)

Section Payload.

Lemma replace_from_no_occurrence (old new s : string) :
  occurs old s = false -> replace_from old new O s = s.
Proof.
  induction s as [|c s IH]; [reflexivity | ].
  cbn [occurs]. intros [Hp Ho]%orb_false_iff.
  cbn [replace_from]. rewrite Hp. f_equal. exact (IH Ho).
Qed.

Lemma replace_prefixed (c0 : ascii) (p' new s : string) :
  occurs (String c0 p') s = false ->
  replace (String c0 p' ++ s) (String c0 p') new = new ++ s.
Proof.
  intros Ho. unfold replace.
  change (String c0 p' ++ s) with (String c0 (p' ++ s)).
  cbn [replace_from].
  change (String c0 (p' ++ s)) with (String c0 p' ++ s).
  rewrite startswith_app.
  change (Nat.pred (String.length (String c0 p'))) with (String.length p').
  rewrite replace_from_skip, replace_from_no_occurrence by exact Ho.
  reflexivity.
Qed.

End Payload.

(** X4: a token is a prefix followed by a payload, and the handler gets the
    payload back by deleting the prefix text: exactly the payload when the
    prefix text does not occur in it, and for a text without any occurrence
    the deletion changes nothing. *)
Theorem token_payload_recovered (prefix payload : string) :
  prefix <> "" ->
  occurs prefix payload = false ->
  replace (prefix ++ payload) prefix "" = payload /\
  replace payload prefix "" = payload.
Proof.
  intros Hne Ho. destruct prefix as [|c0 p']; [congruence | ].
  split.
  - rewrite replace_prefixed by exact Ho. reflexivity.
  - unfold replace. apply replace_from_no_occurrence. exact Ho.
Qed.

Lemma token_payload_recovered_witness :
  replace "search_ascorbic acid" "search_" "" = "ascorbic acid".
Proof.
  apply (token_payload_recovered "search_" "ascorbic acid"); [discriminate | reflexivity].
Defined.

(* ===================================================================== *)
(** * The examples menu                                                    *)
(* ===================================================================== *)

Section Examples.
Variable e : env.
Hypothesis Hok : transport_ok e.

Lemma button_handler_examples ch u m :
  button_handler e (CallbackQuery ch u m "examples") =
  (let* _ := call e (answer None) in
   let* _ := show_examples e (CallbackQuery ch u m "examples") in
   ret None).
Proof. reflexivity. Qed.

Lemma button_handler_category ch u m s :
  button_handler e (CallbackQuery ch u m ("category_" ++ s)) =
  (let* _ := call e (answer None) in
   let* _ := show_category e (CallbackQuery ch u m ("category_" ++ s)) in
   ret None).
Proof. reflexivity. Qed.

Lemma examples_run ch u m w :
  dispatch main e (CallbackQuery ch u m "examples") w
  = (Ok tt,
     set_outbox
       (outbox w ++
        [(answer None, true);
         (edit_message_text (Text "📚 Примеры молекул:")
            (Some (map category_row MOLECULE_EXAMPLES
                   ++ [[CallbackButton "↩️ Назад" "back_to_menu"]])%list) None, true)]) w).
Proof.
  rewrite dispatch_to_button by reflexivity.
  rewrite button_handler_examples. unfold show_examples. cbn [callback_user].
  unfold bind, ret. rewrite (call_ok e Hok), (safe_edit_or_reply_ok e Hok).
  cbn [outbox set_outbox]. rewrite <- app_assoc. reflexivity.
Qed.

Lemma category_run ch u m s w :
  occurs "category_" s = false ->
  dispatch main e (CallbackQuery ch u m ("category_" ++ s)) w
  = (Ok tt,
     set_outbox
       (outbox w ++
        [(answer None, true);
         (edit_message_text (Text ("🔬 " ++ s ++ ":"))
            (Some (map example_row (default [] (dict_get MOLECULE_EXAMPLES s))
                   ++ [[CallbackButton "↩️ Назад" "examples"]])%list) None, true)]) w).
Proof.
  intros Ho.
  rewrite dispatch_to_button by reflexivity.
  rewrite button_handler_category. unfold show_category. cbn [callback_user].
  rewrite (replace_prefixed "c" "ategory_" "" s Ho).
  change ("" ++ s) with s.
  unfold bind, ret. rewrite (call_ok e Hok), (safe_edit_or_reply_ok e Hok).
  cbn [outbox set_outbox]. rewrite <- app_assoc.
  erewrite map_ext; [reflexivity | intros [name term]; reflexivity].
Qed.

Lemma search_token_run ch u m term w :
  occurs "search_" term = false ->
  dispatch main e (CallbackQuery ch u m ("search_" ++ term)) w
  = (let* _ := (let* _ := call e (answer None) in
                let* _ := process_chemical_search e m term false in
                ret (None : option Z)) in
     ret tt) w.
Proof.
  intros Ho. rewrite dispatch_to_button by reflexivity.
  rewrite button_handler_search_token.
  rewrite (replace_prefixed "s" "earch_" "" term Ho). reflexivity.
Qed.

Lemma search_by_name_fields t r :
  PubChemClient.search_compound e (PyStr t) false = Some r ->
  Name r = t /\ name_cids e t = Some (CID r).
Proof.
  unfold PubChemClient.search_compound. cbn [py_str].
  destruct (name_cids e t) as [cid|]; [ | discriminate].
  destruct (cid_record e (py_str e cid)) as [c|]; [ | discriminate].
  intros [= <-]. split; reflexivity.
Qed.

(** The press of the button of an example, with a working transport: the
    answer to the query, then the search by name for the term. *)
Lemma search_token_press ch u m term w :
  occurs "search_" term = false ->
  dispatch main e (CallbackQuery ch u m ("search_" ++ term)) w
  = (let (res, w1) := process_chemical_search e m term false
                        (set_outbox (outbox w ++ [(answer None, true)]) w) in
     (match res with Ok _ => Ok tt | Raise => Raise end, w1)).
Proof.
  intros Ho. rewrite (search_token_run ch u m term w Ho).
  unfold bind, ret. rewrite (call_ok e Hok).
  destruct (process_chemical_search e m term false
              (set_outbox (outbox w ++ [(answer None, true)]) w)) as [ [[]|] w1];
    reflexivity.
Qed.

Lemma search_token_found ch u m term r w :
  occurs "search_" term = false ->
  PubChemClient.search_compound e (PyStr term) false = Some r ->
  exists c,
    shows_record e r c /\
    dispatch main e (CallbackQuery ch u m ("search_" ++ term)) w
    = (Ok tt,
       set_outbox (outbox w ++ [(answer None, true); (c, true)])
         (set_SEARCH_HISTORY (append_history m (history_entry e r) (SEARCH_HISTORY w)) w)).
Proof.
  intros Ho Hr. rewrite (search_token_press ch u m term w Ho).
  destruct (process_chemical_search_found e Hok m term false r
              (set_outbox (outbox w ++ [(answer None, true)]) w) Hr) as (c & Hc & ->).
  exists c. split; [exact Hc | ].
  cbn [outbox set_outbox SEARCH_HISTORY set_SEARCH_HISTORY].
  rewrite <- app_assoc. reflexivity.
Qed.

Lemma search_token_not_found ch u m term w :
  occurs "search_" term = false ->
  PubChemClient.search_compound e (PyStr term) false = None ->
  dispatch main e (CallbackQuery ch u m ("search_" ++ term)) w
  = (Ok tt, set_outbox (outbox w ++ [(answer None, true); (not_found term, true)]) w).
Proof.
  intros Ho Hr. rewrite (search_token_press ch u m term w Ho).
  unfold process_chemical_search. rewrite Hr. fold (not_found term).
  rewrite (call_ok e Hok).
  cbn [outbox set_outbox]. rewrite <- app_assoc. reflexivity.
Qed.

End Examples.

(** X5: the examples menu closes on itself.  The [examples] button lists one
    button per category of the table; the button of a category lists the
    examples of that category, one button each; the button of an example
    makes the search by name for the term of that example: a record that is
    found bears that name, is stored in the history and is shown, and a term
    that is not found is answered by the not-found text.  A category that is
    not in the table lists nothing but the back button. *)
Theorem examples_menu_round_trip (e : env) (ch u m : Z) (w : world) :
  transport_ok e ->
  dispatch main e (CallbackQuery ch u m "examples") w
  = (Ok tt,
     set_outbox
       (outbox w ++
        [(answer None, true);
         (edit_message_text (Text "📚 Примеры молекул:")
            (Some (map category_row MOLECULE_EXAMPLES
                   ++ [[CallbackButton "↩️ Назад" "back_to_menu"]])%list) None, true)]) w) /\
  (forall category examples,
      In (category, examples) MOLECULE_EXAMPLES ->
      dispatch main e (CallbackQuery ch u m ("category_" ++ category)) w
      = (Ok tt,
         set_outbox
           (outbox w ++
            [(answer None, true);
             (edit_message_text (Text ("🔬 " ++ category ++ ":"))
                (Some (map example_row examples
                       ++ [[CallbackButton "↩️ Назад" "examples"]])%list) None, true)]) w) /\
      forall name term,
        In (name, term) examples ->
        match PubChemClient.search_compound e (PyStr term) false with
        | Some r =>
            Name r = term /\
            exists c,
              shows_record e r c /\
              dispatch main e (CallbackQuery ch u m ("search_" ++ term)) w
              = (Ok tt,
                 set_outbox (outbox w ++ [(answer None, true); (c, true)])
                   (set_SEARCH_HISTORY
                      (append_history m (history_entry e r) (SEARCH_HISTORY w)) w))
        | None =>
            dispatch main e (CallbackQuery ch u m ("search_" ++ term)) w
            = (Ok tt,
               set_outbox (outbox w ++ [(answer None, true); (not_found term, true)]) w)
        end) /\
  (forall s,
      occurs "category_" s = false ->
      dict_get MOLECULE_EXAMPLES s = None ->
      dispatch main e (CallbackQuery ch u m ("category_" ++ s)) w
      = (Ok tt,
         set_outbox
           (outbox w ++
            [(answer None, true);
             (edit_message_text (Text ("🔬 " ++ s ++ ":"))
                (Some [[CallbackButton "↩️ Назад" "examples"]]) None, true)]) w)).
Proof.
  intros Hok. split; [apply examples_run; exact Hok | split].
  - intros category examples Hin.
    assert (Hcat : occurs "category_" category = false /\
                   dict_get MOLECULE_EXAMPLES category = Some examples /\
                   forall name term, In (name, term) examples ->
                                     occurs "search_" term = false).
    { unfold MOLECULE_EXAMPLES in Hin. cbn [In] in Hin.
      destruct Hin as [H|[H|[H|[]]]]; injection H as <- <-;
        (split; [reflexivity | split; [reflexivity | ] ]);
        intros name term Hex; cbn [In] in Hex;
        repeat (destruct Hex as [Hex|Hex]; [injection Hex as <- <-; reflexivity | ]);
        destruct Hex. }
    destruct Hcat as (Ho & Hget & Hterms). split.
    + rewrite (category_run e Hok ch u m category w Ho), Hget. reflexivity.
    + intros name term Hex. pose proof (Hterms name term Hex) as Hterm.
      destruct (PubChemClient.search_compound e (PyStr term) false) as [r|] eqn:Hr.
      * split; [exact (proj1 (search_by_name_fields e term r Hr)) | ].
        apply (search_token_found e Hok); assumption.
      * apply (search_token_not_found e Hok); assumption.
  - intros s Ho Hnone. rewrite (category_run e Hok ch u m s w Ho), Hnone. reflexivity.
Qed.

Lemma examples_menu_round_trip_witness :
  dispatch main sample_env (CallbackQuery 7 7 99 "category_Витамины") initial_world
  = (Ok tt,
     set_outbox
       [(answer None, true);
        (edit_message_text (Text "🔬 Витамины:")
           (Some [[CallbackButton "Витамин C" "search_ascorbic acid"];
                  [CallbackButton "Витамин B12" "search_vitamin b12"];
                  [CallbackButton "↩️ Назад" "examples"]]) None, true)] initial_world).
Proof.
  destruct (examples_menu_round_trip sample_env 7 7 99 initial_world (fun n c => eq_refl))
    as (_ & Hcat & _).
  destruct (Hcat "Витамины"
              [("Витамин C", "ascorbic acid"); ("Витамин B12", "vitamin b12")]) as [Hrun _].
  - unfold MOLECULE_EXAMPLES. cbn [In]. right. right. left. reflexivity.
  - exact Hrun.
Defined.

(* ===================================================================== *)
(** * The search flow                                                      *)
(* ===================================================================== *)

Section Flows.
Variable e : env.
Hypothesis Hok : transport_ok e.

Lemma search_button_from_idle ch u m w :
  spec_state w ch u = Some Idle ->
  let w' := process_update e (CallbackQuery ch u m "search") w in
  spec_state w' ch u = Some AwaitingSearchQuery /\
  outbox w' = (outbox w ++ [(search_prompt, true)])%list.
Proof.
  intros [Hs Hc]%spec_state_idle. cbv zeta. unfold process_update.
  rewrite dispatch_callback_query. cbv zeta. rewrite Hs.
  change (re_match_exact "search" "search") with true. cbv iota.
  unfold conv_handle_update, conversation_key. cbn [callback search_entry CallbackQueryHandler].
  unfold search_command. cbn [callback_user].
  unfold bind, ret, modify. rewrite (safe_edit_or_reply_ok e Hok).
  cbn [snd conversations set_conversations search_conv_handler update_state effective_user effective_chat
       conversation_key].
  change (SEARCH =? END) with false. cbv iota.
  split; [ | reflexivity].
  apply spec_state_search. cbn [search_conv compare_conv set_search_conv set_outbox].
  split; [apply lookup_insert_eq | exact Hc].
Qed.

Lemma compare_button_from_idle ch u m w :
  spec_state w ch u = Some Idle ->
  let w' := process_update e (CallbackQuery ch u m "compare") w in
  spec_state w' ch u = Some AwaitingFirstCompareTerm /\
  outbox w' = (outbox w ++ [(compare_prompt, true)])%list.
Proof.
  intros [Hs Hc]%spec_state_idle. cbv zeta. unfold process_update.
  rewrite dispatch_callback_query. cbv zeta. rewrite Hs, Hc.
  change (re_match_exact "search" "compare") with false.
  change (re_match_exact "compare" "compare") with true. cbv iota.
  unfold conv_handle_update, conversation_key. cbn [callback compare_entry CallbackQueryHandler].
  unfold compare_command. cbn [callback_user].
  unfold bind, ret, modify. rewrite (safe_edit_or_reply_ok e Hok).
  cbn [snd conversations set_conversations compare_conv_handler update_state effective_user effective_chat
       conversation_key].
  change (COMPARE_FIRST =? END) with false. cbv iota.
  split; [ | reflexivity].
  apply spec_state_first. cbn [search_conv compare_conv set_compare_conv set_outbox].
  split; [exact Hs | apply lookup_insert_eq].
Qed.

(** The awaited query is found: one more history entry for the sender, the
    record is shown, and the conversation is over. *)
Lemma found_search_query ch u t r w :
  spec_state w ch u = Some AwaitingSearchQuery ->
  PubChemClient.search_compound e (PyStr t) false = Some r ->
  let w' := process_update e (TextMessage ch u t) w in
  spec_state w' ch u = Some Idle /\
  history_of w' u = (history_of w u ++ [history_entry e r])%list /\
  exists c, shows_record e r c /\ outbox w' = (outbox w ++ [(c, true)])%list.
Proof.
  intros [Hs Hc]%spec_state_search Hr. cbv zeta. unfold process_update.
  rewrite dispatch_text_message. cbv zeta. rewrite Hs.
  change (SEARCH =? SEARCH) with true. cbv iota.
  unfold conv_handle_update, conversation_key. cbn [callback MessageHandler].
  unfold handle_search. cbn [message_of].
  destruct (process_chemical_search_found e Hok u t false r w Hr) as (c & Hshow & Hrun).
  unfold bind, ret, modify. rewrite Hrun.
  cbn [snd conversations set_conversations search_conv_handler update_state effective_user effective_chat
       conversation_key].
  change (END =? END) with true. cbv iota.
  split; [ | split].
  - apply spec_state_idle.
    cbn [search_conv compare_conv set_search_conv set_outbox set_SEARCH_HISTORY].
    split; [apply lookup_delete_eq | exact Hc].
  - unfold history_of. cbn [SEARCH_HISTORY set_search_conv set_outbox set_SEARCH_HISTORY].
    apply append_history_lookup.
  - exists c. split; [exact Hshow | reflexivity].
Qed.

(** A text outside a conversation is a search as well. *)
Lemma found_idle_text ch u t r w :
  spec_state w ch u = Some Idle ->
  PubChemClient.search_compound e (PyStr t) false = Some r ->
  let w' := process_update e (TextMessage ch u t) w in
  spec_state w' ch u = Some Idle /\
  history_of w' u = (history_of w u ++ [history_entry e r])%list /\
  exists c, shows_record e r c /\ outbox w' = (outbox w ++ [(c, true)])%list.
Proof.
  intros Hidle Hr. pose proof Hidle as [Hs Hc]%spec_state_idle.
  cbv zeta. unfold process_update.
  rewrite dispatch_text_message. cbv zeta. rewrite Hs, Hc.
  unfold handle_message. cbn [message_of].
  destruct (process_chemical_search_found e Hok u t false r w Hr) as (c & Hshow & Hrun).
  unfold bind, ret. rewrite Hrun. cbn [snd].
  split; [ | split].
  - apply spec_state_idle.
    cbn [search_conv compare_conv set_outbox set_SEARCH_HISTORY].
    split; [exact Hs | exact Hc].
  - unfold history_of. cbn [SEARCH_HISTORY set_outbox set_SEARCH_HISTORY].
    apply append_history_lookup.
  - exists c. split; [exact Hshow | reflexivity].
Qed.

End Flows.

(** The terms of a comparison are not searches: they leave the history as
    it is, found or not, delivered or not. *)
Lemma compare_terms_keep_history (e : env) (ch u : Z) (t : string) (w : world) :
  search_conv w !! (ch, u) = None ->
  compare_conv w !! (ch, u) <> None ->
  (forall s, compare_conv w !! (ch, u) = Some s -> s = COMPARE_FIRST \/ s = COMPARE_SECOND) ->
  SEARCH_HISTORY (process_update e (TextMessage ch u t) w) = SEARCH_HISTORY w.
Proof.
  intros Hs Hne Hst. unfold process_update.
  rewrite dispatch_text_message. cbv zeta. rewrite Hs.
  destruct (compare_conv w !! (ch, u)) as [s|]; [ | congruence].
  destruct (Hst s eq_refl) as [-> | ->].
  - change (COMPARE_FIRST =? COMPARE_FIRST) with true. cbv iota.
    apply (conv_handle_update_keeps e SEARCH_HISTORY); [reflexivity | ].
    cbn [callback MessageHandler]. keeps_tac.
  - change (COMPARE_FIRST =? COMPARE_SECOND) with false.
    change (COMPARE_SECOND =? COMPARE_SECOND) with true. cbv iota.
    apply (conv_handle_update_keeps e SEARCH_HISTORY); [reflexivity | ].
    cbn [callback MessageHandler]. keeps_tac.
Qed.

(** X6: the search flow.  From Idle the [search] button sends the prompt and
    the conversation awaits the query.  A text that is found, awaited or
    typed outside any conversation, adds one entry to the end of the
    sender's history, named by the typed text and carrying the resolved
    identifier, shows the record in one message, and leaves the user Idle. *)
Theorem search_flow (e : env) (ch u m : Z) (t : string) (r : compound) (w : world) :
  transport_ok e ->
  (spec_state w ch u = Some Idle ->
   let w' := process_update e (CallbackQuery ch u m "search") w in
   spec_state w' ch u = Some AwaitingSearchQuery /\
   outbox w' = (outbox w ++ [(search_prompt, true)])%list) /\
  (spec_state w ch u = Some AwaitingSearchQuery \/ spec_state w ch u = Some Idle ->
   PubChemClient.search_compound e (PyStr t) false = Some r ->
   let w' := process_update e (TextMessage ch u t) w in
   spec_state w' ch u = Some Idle /\
   history_of w' u
   = (history_of w u ++ [{| item_name := t; item_cid := CID r; item_time := now e |}])%list /\
   name_cids e t = Some (CID r) /\
   exists c, shows_record e r c /\ outbox w' = (outbox w ++ [(c, true)])%list).
Proof.
  intros Hok. split.
  - intros Hidle. apply (search_button_from_idle e Hok). exact Hidle.
  - intros Hst Hr. cbv zeta.
    destruct (search_by_name_fields e t r Hr) as [Hname Hcid].
    assert (Hentry : history_entry e r
                     = {| item_name := t; item_cid := CID r; item_time := now e |})
      by (unfold history_entry; rewrite Hname; reflexivity).
    rewrite <- Hentry.
    destruct Hst as [Hst|Hst].
    + destruct (found_search_query e Hok ch u t r w Hst Hr) as (H1 & H2 & H3).
      split; [exact H1 | split; [exact H2 | split; [exact Hcid | exact H3] ] ].
    + destruct (found_idle_text e Hok ch u t r w Hst Hr) as (H1 & H2 & H3).
      split; [exact H1 | split; [exact H2 | split; [exact Hcid | exact H3] ] ].
Qed.

Lemma search_flow_witness :
  let w1 := process_update sample_env (CallbackQuery 7 7 99 "search") initial_world in
  let w2 := process_update sample_env (TextMessage 7 7 "aspirin") w1 in
  spec_state w1 7 7 = Some AwaitingSearchQuery /\
  spec_state w2 7 7 = Some Idle /\
  history_of w2 7 = [{| item_name := "aspirin"; item_cid := PyInt 2244; item_time := fzero |}].
Proof.
  cbv zeta.
  set (w1 := process_update sample_env (CallbackQuery 7 7 99 "search") initial_world).
  destruct (PubChemClient.search_compound sample_env (PyStr "aspirin") false) as [r|] eqn:Hr;
    [ | vm_compute in Hr; discriminate Hr].
  destruct (search_flow sample_env 7 7 99 "aspirin" r initial_world (fun n c => eq_refl))
    as [Hpress _].
  destruct (Hpress eq_refl) as [S1 _]. fold w1 in S1.
  destruct (search_flow sample_env 7 7 99 "aspirin" r w1 (fun n c => eq_refl))
    as [_ Htext].
  destruct (Htext (or_introl S1) Hr) as (S2 & Hh & _).
  split; [exact S1 | split; [exact S2 | ] ].
  etransitivity; [exact Hh | ].
  vm_compute in Hr. injection Hr as <-. vm_compute. reflexivity.
Defined.

(** X7: the compare flow.  From Idle the [compare] button sends the prompt
    for the first term.  When the second term is found, the one message sent
    is the comparison of the pending record with it (or the error text when
    a weight cannot be read), the user is Idle afterwards and the pending
    record is still stored.  The terms of a comparison never enter the
    history. *)
Theorem compare_flow (e : env) (ch u m : Z) (t : string) (r second : compound) (w : world) :
  (transport_ok e ->
   spec_state w ch u = Some Idle ->
   let w' := process_update e (CallbackQuery ch u m "compare") w in
   spec_state w' ch u = Some AwaitingFirstCompareTerm /\
   outbox w' = (outbox w ++ [(compare_prompt, true)])%list) /\
  (transport_ok e ->
   spec_state w ch u = Some (AwaitingSecondCompareTerm r) ->
   PubChemClient.search_compound e (PyStr t) false = Some second ->
   let w' := process_update e (TextMessage ch u t) w in
   spec_state w' ch u = Some Idle /\
   user_data w' !! u = Some r /\
   outbox w' = (outbox w ++ [(comparison_message e r second, true)])%list) /\
  (spec_state w ch u = Some AwaitingFirstCompareTerm \/
   spec_state w ch u = Some (AwaitingSecondCompareTerm r) ->
   SEARCH_HISTORY (process_update e (TextMessage ch u t) w) = SEARCH_HISTORY w).
Proof.
  split; [ | split].
  - intros Hok Hidle. apply (compare_button_from_idle e Hok). exact Hidle.
  - intros Hok Hst Hr. apply (found_second_term e Hok); assumption.
  - intros [Hst|Hst].
    + apply spec_state_first in Hst. destruct Hst as [Hs Hc].
      apply compare_terms_keep_history; [exact Hs | congruence | ].
      intros s Hs'. left. congruence.
    + apply spec_state_second in Hst. destruct Hst as (Hs & Hc & _).
      apply compare_terms_keep_history; [exact Hs | congruence | ].
      intros s Hs'. right. congruence.
Qed.

Lemma compare_flow_witness :
  let w1 := process_update sample_env (CallbackQuery 7 7 99 "compare") initial_world in
  let w2 := process_update sample_env (TextMessage 7 7 "aspirin") w1 in
  let w3 := process_update sample_env (TextMessage 7 7 "glycolic acid") w2 in
  spec_state w1 7 7 = Some AwaitingFirstCompareTerm /\
  spec_state w3 7 7 = Some Idle /\
  SEARCH_HISTORY w3 = ∅ /\
  exists first second,
    comparison_text sample_env first second
    = Some (comparison_header sample_env first second ++ "📊 Разница масс: `104.11`") /\
    outbox w3 = (outbox w2 ++ [(comparison_message sample_env first second, true)])%list.
Proof.
  cbv zeta.
  set (w1 := process_update sample_env (CallbackQuery 7 7 99 "compare") initial_world).
  set (w2 := process_update sample_env (TextMessage 7 7 "aspirin") w1).
  destruct (PubChemClient.search_compound sample_env (PyStr "aspirin") false)
    as [first|] eqn:H1; [ | vm_compute in H1; discriminate H1].
  destruct (PubChemClient.search_compound sample_env (PyStr "glycolic acid") false)
    as [second|] eqn:H2; [ | vm_compute in H2; discriminate H2].
  assert (S2 : spec_state w2 7 7 = Some (AwaitingSecondCompareTerm first)).
  { vm_compute in H1. injection H1 as <-. vm_compute. reflexivity. }
  destruct (compare_flow sample_env 7 7 99 "aspirin" first second initial_world)
    as (Hpress & _ & _).
  destruct (Hpress (fun n c => eq_refl) eq_refl) as [S1 _]. fold w1 in S1.
  destruct (compare_flow sample_env 7 7 99 "glycolic acid" first second w2)
    as (_ & Hdone & Hhist).
  destruct (Hdone (fun n c => eq_refl) S2 H2) as (S3 & _ & Ho).
  split; [exact S1 | split; [exact S3 | split] ].
  - rewrite (Hhist (or_intror S2)). vm_compute. reflexivity.
  - exists first, second. split; [ | exact Ho].
    vm_compute in H1, H2. injection H1 as <-. injection H2 as <-.
    vm_compute. reflexivity.
Defined.

(* ===================================================================== *)
(** * Commands and tokens without a handler                                *)
(* ===================================================================== *)

(** X8: the only command with a handler is [/start], in any letter case:
    it sends the main menu as a new message and writes nothing else, so it
    ends no conversation; any other command is dropped without a call.  The
    edit of a message, command or text, has no effect: the handler that
    takes it raises at [update.message] before any call. *)
Theorem command_updates (e : env) (ch u : Z) (c t : string) (w : world) :
  process_update e (CommandMessage ch u c t) w
  = (if String.eqb (lower c) "start"
     then set_outbox
            (outbox w ++ [(main_menu_reply, tg_ok e (length (outbox w)) main_menu_reply)]) w
     else w) /\
  (forall oc, process_update e (EditedMessage ch u oc t) w = w).
Proof.
  split.
  - unfold process_update. rewrite dispatch_command_message.
    destruct (String.eqb (lower c) "start"); [ | reflexivity].
    unfold start, show_main_menu. cbn [callback_user message_of].
    unfold bind, call, ret. fold main_menu_reply.
    destruct (tg_ok e (length (outbox w)) main_menu_reply); reflexivity.
  - intros oc. unfold process_update. apply dispatch_edited_message.
Qed.

Section UnknownToken.
Variable e : env.

Lemma re_match_exact_false lit data :
  re_match_exact lit data = false -> String.eqb data lit = false.
Proof. unfold re_match_exact. intros [H _]%orb_false_elim. exact H. Qed.

Lemma known_token_patterns data :
  known_token data = false ->
  re_match_exact "search" data = false /\
  re_match_exact "compare" data = false /\
  re_match_exact "back_to_menu" data = false.
Proof.
  unfold known_token. intros H.
  destruct (re_match_exact "search" data); [discriminate H | ].
  destruct (re_match_exact "compare" data); [discriminate H | ].
  destruct (re_match_exact "back_to_menu" data); [discriminate H | ].
  repeat split.
Qed.

Lemma button_handler_unknown ch u m data w :
  known_token data = false ->
  button_handler e (CallbackQuery ch u m data) w
  = ((if tg_ok e (length (outbox w)) (answer None) then Ok None else Raise),
     set_outbox (outbox w ++ [(answer None, tg_ok e (length (outbox w)) (answer None))]) w).
Proof.
  intros H. destruct (known_token_patterns data H) as (P1 & P2 & P3).
  apply re_match_exact_false in P1, P2, P3.
  unfold known_token in H.
  repeat (apply orb_false_elim in H; destruct H as [H ?]).
  unfold button_handler, bind, call.
  destruct (tg_ok e (length (outbox w)) (answer None)); [ | reflexivity].
  repeat match goal with
         | Hf : ?t = false |- context [if ?t then _ else _] => rewrite Hf
         end.
  reflexivity.
Qed.

End UnknownToken.

(** X9: a callback token that no pattern and no test of the dispatcher
    names is answered with the empty answer and nothing else happens,
    whatever the conversation state. *)
Theorem unknown_token_only_answered (e : env) (ch u m : Z) (data : string) (w : world) :
  known_token data = false ->
  process_update e (CallbackQuery ch u m data) w
  = set_outbox (outbox w ++ [(answer None, tg_ok e (length (outbox w)) (answer None))]) w.
Proof.
  intros Hk. pose proof (button_handler_unknown e ch u m data w Hk) as Hb.
  destruct (known_token_patterns data Hk) as (P1 & P2 & P3).
  unfold process_update. rewrite dispatch_callback_query. cbv zeta.
  rewrite P1, P2, P3.
  assert (Hvia : snd ((let* _ := button_handler e (CallbackQuery ch u m data) in ret tt) w)
                 = set_outbox
                     (outbox w ++
                      [(answer None, tg_ok e (length (outbox w)) (answer None))]) w).
  { unfold bind at 1. rewrite Hb.
    destruct (tg_ok e (length (outbox w)) (answer None)); reflexivity. }
  destruct (search_conv w !! (ch, u)), (compare_conv w !! (ch, u)); exact Hvia.
Qed.

Lemma unknown_token_only_answered_witness :
  process_update sample_env (CallbackQuery 7 7 99 "noop") initial_world
  = set_outbox [(answer None, true)] initial_world.
Proof.
  exact (unknown_token_only_answered sample_env 7 7 99 "noop" initial_world eq_refl).
Defined.

(* ===================================================================== *)
(** * Buttons and texts while a conversation is under way                  *)
(* ===================================================================== *)

Section InsideConversation.
Variable e : env.
Hypothesis Hok : transport_ok e.

Lemma search_button_inside ch u m s w :
  search_conv w !! (ch, u) = Some s ->
  process_update e (CallbackQuery ch u m "search") w
  = set_outbox (outbox w ++ [(answer None, true); (search_prompt, true)]) w.
Proof.
  intros Hs. unfold process_update. rewrite dispatch_callback_query. cbv zeta.
  rewrite Hs.
  change (re_match_exact "back_to_menu" "search") with false.
  change (re_match_exact "compare" "search") with false. cbv iota.
  assert (Hvia : snd ((let* _ := button_handler e (CallbackQuery ch u m "search") in ret tt) w)
                 = set_outbox (outbox w ++ [(answer None, true); (search_prompt, true)]) w).
  { unfold button_handler. cbn [String.eqb Ascii.eqb Bool.eqb].
    unfold search_command. cbn [callback_user].
    unfold bind, ret. rewrite (call_ok e Hok), (safe_edit_or_reply_ok e Hok).
    cbn [snd set_outbox outbox]. rewrite <- app_assoc. reflexivity. }
  destruct (compare_conv w !! (ch, u)); exact Hvia.
Qed.

Lemma compare_button_inside ch u m s w :
  compare_conv w !! (ch, u) = Some s ->
  process_update e (CallbackQuery ch u m "compare") w
  = set_outbox (outbox w ++ [(answer None, true); (compare_prompt, true)]) w.
Proof.
  intros Hc. unfold process_update. rewrite dispatch_callback_query. cbv zeta.
  rewrite Hc.
  change (re_match_exact "back_to_menu" "compare") with false.
  change (re_match_exact "search" "compare") with false. cbv iota.
  assert (Hvia : snd ((let* _ := button_handler e (CallbackQuery ch u m "compare") in ret tt) w)
                 = set_outbox (outbox w ++ [(answer None, true); (compare_prompt, true)]) w).
  { unfold button_handler. cbn [String.eqb Ascii.eqb Bool.eqb].
    unfold compare_command. cbn [callback_user].
    unfold bind, ret. rewrite (call_ok e Hok), (safe_edit_or_reply_ok e Hok).
    cbn [snd set_outbox outbox]. rewrite <- app_assoc. reflexivity. }
  destruct (search_conv w !! (ch, u)); exact Hvia.
Qed.

(** The text that the search conversation awaits is a search, whatever the
    compare conversation awaits. *)
Lemma awaited_query_run ch u t w :
  search_conv w !! (ch, u) = Some SEARCH ->
  exists log,
    process_update e (TextMessage ch u t) w
    = set_search_conv (delete (ch, u) (search_conv w))
        (set_outbox (outbox w ++ log)
           (set_SEARCH_HISTORY
              (match PubChemClient.search_compound e (PyStr t) false with
               | Some r => append_history u (history_entry e r) (SEARCH_HISTORY w)
               | None => SEARCH_HISTORY w
               end) w)).
Proof.
  intros Hs. unfold process_update. rewrite dispatch_text_message. cbv zeta.
  rewrite Hs. change (SEARCH =? SEARCH) with true. cbv iota.
  unfold conv_handle_update, conversation_key. cbn [callback MessageHandler].
  unfold handle_search. cbn [message_of].
  destruct (PubChemClient.search_compound e (PyStr t) false) as [r|] eqn:Hr.
  - destruct (process_chemical_search_found e Hok u t false r w Hr) as (c & _ & Hrun).
    exists [(c, true)]. unfold bind, ret, modify. rewrite Hrun. reflexivity.
  - exists [(not_found t, true)].
    unfold process_chemical_search. rewrite Hr.
    unfold bind, ret, modify. rewrite (call_ok e Hok).
    cbn [snd]. destruct w; reflexivity.
Qed.

End InsideConversation.

(** X10: the [search] button pressed while the search conversation of the
    user is under way, and the [compare] button pressed while the compare
    conversation is, show the prompt again and change nothing else: a
    pending first record stays pending and the next text is still taken as
    the term that was awaited before. *)
Theorem entry_button_inside_conversation (e : env) (ch u m s : Z) (w : world) :
  transport_ok e ->
  (search_conv w !! (ch, u) = Some s ->
   process_update e (CallbackQuery ch u m "search") w
   = set_outbox (outbox w ++ [(answer None, true); (search_prompt, true)]) w) /\
  (compare_conv w !! (ch, u) = Some s ->
   let w' := process_update e (CallbackQuery ch u m "compare") w in
   w' = set_outbox (outbox w ++ [(answer None, true); (compare_prompt, true)]) w /\
   spec_state w' ch u = spec_state w ch u).
Proof.
  intros Hok. split.
  - apply search_button_inside. exact Hok.
  - intros Hc. cbv zeta. rewrite (compare_button_inside e Hok ch u m s w Hc).
    split; reflexivity.
Qed.

Lemma entry_button_inside_conversation_witness :
  let w1 := process_update sample_env (CallbackQuery 7 7 99 "compare") initial_world in
  let w2 := process_update sample_env (TextMessage 7 7 "aspirin") w1 in
  let w3 := process_update sample_env (CallbackQuery 7 7 99 "compare") w2 in
  exists r,
    Name r = "aspirin" /\
    spec_state w2 7 7 = Some (AwaitingSecondCompareTerm r) /\
    spec_state w3 7 7 = Some (AwaitingSecondCompareTerm r) /\
    outbox w3 = (outbox w2 ++ [(answer None, true); (compare_prompt, true)])%list.
Proof.
  cbv zeta.
  set (w1 := process_update sample_env (CallbackQuery 7 7 99 "compare") initial_world).
  set (w2 := process_update sample_env (TextMessage 7 7 "aspirin") w1).
  destruct (PubChemClient.search_compound sample_env (PyStr "aspirin") false)
    as [r|] eqn:Hr; [ | vm_compute in Hr; discriminate Hr].
  assert (S2 : spec_state w2 7 7 = Some (AwaitingSecondCompareTerm r)).
  { vm_compute in Hr. injection Hr as <-. vm_compute. reflexivity. }
  assert (C2 : compare_conv w2 !! (7, 7) = Some COMPARE_SECOND) by (vm_compute; reflexivity).
  destruct (entry_button_inside_conversation sample_env 7 7 99 COMPARE_SECOND w2
              (fun n c => eq_refl)) as [_ H].
  destruct (H C2) as [Hw Hs].
  exists r. split; [ | split; [exact S2 | split] ].
  - vm_compute in Hr. injection Hr as <-. reflexivity.
  - rewrite Hs. exact S2.
  - rewrite Hw. reflexivity.
Defined.

(** X11: while the search conversation of a user awaits the query, a text
    of that user is the query, also when the compare conversation awaits a
    term at the same time: the search conversation ends, the history gets
    the entry of a found record, and the compare conversation, the pending
    record and the favorites are as before. *)
Theorem awaited_query_has_precedence (e : env) (ch u : Z) (t : string) (w : world) :
  transport_ok e ->
  search_conv w !! (ch, u) = Some SEARCH ->
  let w' := process_update e (TextMessage ch u t) w in
  search_conv w' = delete (ch, u) (search_conv w) /\
  compare_conv w' = compare_conv w /\
  user_data w' = user_data w /\
  FAVORITES w' = FAVORITES w /\
  SEARCH_HISTORY w'
  = match PubChemClient.search_compound e (PyStr t) false with
    | Some r => append_history u (history_entry e r) (SEARCH_HISTORY w)
    | None => SEARCH_HISTORY w
    end.
Proof.
  intros Hok Hs. cbv zeta.
  destruct (awaited_query_run e Hok ch u t w Hs) as [log ->].
  repeat split.
Qed.

Lemma awaited_query_has_precedence_witness :
  let w1 := process_update sample_env (CallbackQuery 7 7 99 "search") initial_world in
  let w2 := process_update sample_env (CallbackQuery 7 7 99 "compare") w1 in
  let w3 := process_update sample_env (TextMessage 7 7 "aspirin") w2 in
  (search_conv w2 !! (7, 7) = Some SEARCH /\ compare_conv w2 !! (7, 7) = Some COMPARE_FIRST) /\
  spec_state w3 7 7 = Some AwaitingFirstCompareTerm /\
  user_data w3 !! 7 = None /\
  map item_name (history_of w3 7) = ["aspirin"].
Proof.
  cbv zeta.
  set (w1 := process_update sample_env (CallbackQuery 7 7 99 "search") initial_world).
  set (w2 := process_update sample_env (CallbackQuery 7 7 99 "compare") w1).
  assert (S2 : search_conv w2 !! (7, 7) = Some SEARCH) by (vm_compute; reflexivity).
  assert (C2 : compare_conv w2 !! (7, 7) = Some COMPARE_FIRST) by (vm_compute; reflexivity).
  destruct (awaited_query_has_precedence sample_env 7 7 "aspirin" w2 (fun n c => eq_refl) S2)
    as (Hs & Hc & Hu & _ & Hh).
  split; [split; [exact S2 | exact C2] | split; [ | split] ].
  - apply spec_state_first. rewrite Hs, Hc. split; [apply lookup_delete_eq | exact C2].
  - rewrite Hu. vm_compute. reflexivity.
  - unfold history_of. rewrite Hh. vm_compute. reflexivity.
Defined.

(* ===================================================================== *)
(** * The routes of one update                                             *)
(* ===================================================================== *)

Section Cases.
Variables (e : env) (upd : update) (w : world).

Lemma conv_handle_update_world c h :
  snd (conv_handle_update c h e upd w)
  = match callback h e upd w with
    | (Ok a, w1) =>
        set_conversations c (update_state (conversation_key upd) a (conversations c w1)) w1
    | (Raise, w1) => w1
    end.
Proof.
  unfold conv_handle_update, conversation_key, bind, modify.
  destruct (callback h e upd w) as [[a|] w1]; reflexivity.
Qed.

Lemma plain_world (cb : env -> update -> M (option Z)) :
  snd ((let* _ := cb e upd in ret tt) w) = snd (cb e upd w).
Proof. unfold bind, ret. destruct (cb e upd w) as [[a|] w1]; reflexivity. Qed.

(** What holds after every route that [main] offers to an update holds
    after the update. *)
Lemma process_update_cases (Q : world -> Prop) :
  Q w ->
  Q (snd (start e upd w)) ->
  Q (snd (handle_message e upd w)) ->
  Q (snd (button_handler e upd w)) ->
  (search_conv w !! conversation_key upd = None ->
   Q (snd (conv_handle_update search_conv_handler search_entry e upd w))) ->
  (search_conv w !! conversation_key upd = Some SEARCH ->
   Q (snd (conv_handle_update search_conv_handler (MessageHandler handle_search) e upd w))) ->
  (search_conv w !! conversation_key upd <> None ->
   Q (snd (conv_handle_update search_conv_handler back_fallback e upd w))) ->
  (compare_conv w !! conversation_key upd = None ->
   Q (snd (conv_handle_update compare_conv_handler compare_entry e upd w))) ->
  (compare_conv w !! conversation_key upd = Some COMPARE_FIRST ->
   Q (snd (conv_handle_update compare_conv_handler (MessageHandler compare_first) e upd w))) ->
  (compare_conv w !! conversation_key upd = Some COMPARE_SECOND ->
   Q (snd (conv_handle_update compare_conv_handler (MessageHandler compare_second) e upd w))) ->
  (compare_conv w !! conversation_key upd <> None ->
   Q (snd (conv_handle_update compare_conv_handler back_fallback e upd w))) ->
  Q (process_update e upd w).
Proof.
  intros Q0 Qstart Qmsg Qbtn Qse Qs Qsb Qce Qc1 Qc2 Qcb. unfold process_update.
  rewrite <- plain_world in Qstart, Qmsg, Qbtn.
  destruct upd as [ch u c t | ch u t | ch u m data | ch u oc t];
    unfold conversation_key in *; cbn [effective_user effective_chat] in *.
  - rewrite dispatch_command_message.
    destruct (String.eqb (lower c) "start"); [exact Qstart | exact Q0].
  - rewrite dispatch_text_message. cbv zeta.
    destruct (search_conv w !! (ch, u)) as [s|];
      [ destruct (Z.eqb_spec SEARCH s); [apply Qs; congruence | ] | ];
      (destruct (compare_conv w !! (ch, u)) as [s'|];
       [ destruct (Z.eqb_spec COMPARE_FIRST s'); [apply Qc1; congruence | ];
         destruct (Z.eqb_spec COMPARE_SECOND s'); [apply Qc2; congruence | ] | ]);
      exact Qmsg.
  - rewrite dispatch_callback_query. cbv zeta.
    destruct (search_conv w !! (ch, u)) as [s|];
      [ destruct (re_match_exact "back_to_menu" data) eqn:B; [apply Qsb; congruence | ]
      | destruct (re_match_exact "search" data); [apply Qse; reflexivity | ] ];
      (destruct (compare_conv w !! (ch, u)) as [s'|];
       [ lazymatch goal with
         | |- context [re_match_exact "back_to_menu" data] =>
             destruct (re_match_exact "back_to_menu" data); [apply Qcb; congruence | ]
         | |- _ => idtac
         end
       | destruct (re_match_exact "compare" data); [apply Qce; reflexivity | ] ]);
      exact Qbtn.
  - rewrite dispatch_edited_message. exact Q0.
Qed.

End Cases.

(* ===================================================================== *)
(** * Users do not interfere                                               *)
(* ===================================================================== *)

Section OtherUsers.
Variable e : env.

Lemma keeps_bind_get_world {X B} (proj : world -> X) (k : world -> M B) :
  (forall w, proj (snd (k w w)) = proj w) -> keeps proj (bind get_world k).
Proof. intros H w. unfold bind, get_world. apply H. Qed.

Lemma bind_ret_world {A B} (m : M A) (b : B) w :
  snd ((let* _ := m in ret b) w) = snd (m w).
Proof. unfold bind, ret. destruct (m w) as [[a|] w1]; reflexivity. Qed.

Lemma ensure_favorites_other u v f :
  u <> v -> ensure_favorites u f !! v = f !! v.
Proof.
  intros Hne. unfold ensure_favorites.
  destruct (f !! u); [reflexivity | apply lookup_insert_ne; exact Hne].
Qed.

Lemma add_favorite_other u v cid name f :
  u <> v -> add_favorite u cid name f !! v = f !! v.
Proof. intros Hne. unfold add_favorite. apply lookup_insert_ne. exact Hne. Qed.

Lemma remove_favorite_other u v cid f :
  u <> v -> snd (remove_favorite u cid f) !! v = f !! v.
Proof.
  intros Hne. unfold remove_favorite.
  destruct (f !! u) as [favs|]; [ | reflexivity].
  destruct (dict_pop favs cid) as [[name favs']|]; [ | reflexivity].
  cbn [snd]. apply lookup_insert_ne. exact Hne.
Qed.

(** The [save_] and [remove_] tokens write the dictionary of the user who
    pressed the button. *)
Lemma button_handler_keeps_other_favorites upd u :
  effective_user upd <> u ->
  keeps (fun w => FAVORITES w !! u) (button_handler e upd).
Proof.
  intros Hne. destruct upd as [ch v c t | ch v t | ch v m data | ch v oc t];
    [keeps_tac | keeps_tac | | keeps_tac].
  cbn [effective_user] in Hne. unfold button_handler.
  apply keeps_bind; [keeps_tac | intros _].
  repeat lazymatch goal with
         | |- keeps _ (if ?b then _ else _) => destruct b
         end;
    try (solve [keeps_tac]).
  - apply keeps_bind; [ | intros _].
    + apply keeps_modify. intros w. cbn [FAVORITES set_FAVORITES].
      apply ensure_favorites_other. exact Hne.
    + destruct (PubChemClient.search_compound e (PyStr (replace data "save_" "")) true);
        [ | keeps_tac].
      apply keeps_bind; [ | intros; keeps_tac].
      apply keeps_modify. intros w. cbn [FAVORITES set_FAVORITES].
      apply add_favorite_other. exact Hne.
  - apply keeps_bind_get_world. intros w.
    pose proof (remove_favorite_other v u (replace data "remove_" "") (FAVORITES w) Hne) as Hr.
    destruct (remove_favorite v (replace data "remove_" "") (FAVORITES w)) as [[name|] f'];
      [ | reflexivity].
    cbn [snd] in Hr. unfold bind at 1. unfold modify at 1.
    assert (K : keeps (fun w => FAVORITES w !! u)
                  (let* _ := call e (answer (Some ("Удалено: " ++ name))) in
                   let* _ := show_favorites e (CallbackQuery ch v m data) in
                   ret (None : option Z))) by keeps_tac.
    rewrite (K (set_FAVORITES f' w)). exact Hr.
Qed.

Lemma favorites_other_user upd u w :
  effective_user upd <> u ->
  FAVORITES (process_update e upd w) !! u = FAVORITES w !! u.
Proof.
  intros Hne.
  apply (process_update_keeps (fun w => FAVORITES w !! u)); try reflexivity;
    try (keeps_tac; fail).
  apply button_handler_keeps_other_favorites. exact Hne.
Qed.

Lemma search_conv_other_user upd ch u w :
  effective_user upd <> u ->
  search_conv (process_update e upd w) !! (ch, u) = search_conv w !! (ch, u).
Proof.
  intros Hne.
  apply (process_update_keeps_at (fun w => search_conv w !! (ch, u))).
  - intros h Hk.
    apply (conv_handle_update_other_key e search_conv_handler);
      [reflexivity | unfold conversation_key; congruence | exact Hk].
  - intros h Hk. apply (conv_handle_update_keeps e (fun w => search_conv w !! (ch, u)));
      [reflexivity | exact Hk].
  - keeps_tac.
  - keeps_tac.
  - keeps_tac.
  - keeps_tac.
  - keeps_tac.
  - intros _ _. keeps_tac.
  - keeps_tac.
  - keeps_tac.
  - keeps_tac.
Qed.

Lemma user_data_other_user upd u w :
  effective_user upd <> u ->
  user_data (process_update e upd w) !! u = user_data w !! u.
Proof.
  intros Hne.
  apply (process_update_keeps (fun w => user_data w !! u)); try reflexivity;
    try (keeps_tac; fail).
  apply compare_first_keeps_other_user. exact Hne.
Qed.

End OtherUsers.

(** X12: an update of one user leaves the conversations, the pending record
    and the favorites of every other user as they are, and with them the
    state of that user. *)
Theorem other_users_untouched (e : env) (upd : update) (ch u : Z) (w : world) :
  effective_user upd <> u ->
  let w' := process_update e upd w in
  search_conv w' !! (ch, u) = search_conv w !! (ch, u) /\
  compare_conv w' !! (ch, u) = compare_conv w !! (ch, u) /\
  user_data w' !! u = user_data w !! u /\
  FAVORITES w' !! u = FAVORITES w !! u /\
  spec_state w' ch u = spec_state w ch u.
Proof.
  intros Hne. cbv zeta.
  pose proof (search_conv_other_user e upd ch u w Hne) as H1.
  pose proof (compare_conv_other_user e upd ch u w Hne) as H2.
  pose proof (user_data_other_user e upd u w Hne) as H3.
  pose proof (favorites_other_user e upd u w Hne) as H4.
  split; [exact H1 | split; [exact H2 | split; [exact H3 | split; [exact H4 | ] ] ] ].
  unfold spec_state. rewrite H1, H2, H3. reflexivity.
Qed.

Lemma other_users_untouched_witness :
  let w1 := process_update sample_env (CallbackQuery 7 7 99 "compare") initial_world in
  let w2 := process_update sample_env (TextMessage 7 7 "aspirin") w1 in
  let w3 := process_update sample_env (CallbackQuery 8 8 99 "save_757") w2 in
  let w4 := process_update sample_env (TextMessage 8 8 "glycolic acid") w3 in
  spec_state w4 7 7 = spec_state w2 7 7 /\ favorites_of w4 7 = [] /\
  favorites_of w4 8 = [("757", "2-hydroxyacetic acid")].
Proof.
  cbv zeta.
  set (w1 := process_update sample_env (CallbackQuery 7 7 99 "compare") initial_world).
  set (w2 := process_update sample_env (TextMessage 7 7 "aspirin") w1).
  set (w3 := process_update sample_env (CallbackQuery 8 8 99 "save_757") w2).
  assert (Hne : 8 <> 7) by discriminate.
  destruct (other_users_untouched sample_env (CallbackQuery 8 8 99 "save_757") 7 7 w2 Hne)
    as (_ & _ & _ & F3 & S3).
  destruct (other_users_untouched sample_env (TextMessage 8 8 "glycolic acid") 7 7 w3 Hne)
    as (_ & _ & _ & F4 & S4).
  fold w3 in F3, S3, F4, S4.
  split; [ | split].
  - rewrite S4, S3. reflexivity.
  - unfold favorites_of. rewrite F4, F3. vm_compute. reflexivity.
  - vm_compute. reflexivity.
Defined.

(* ===================================================================== *)
(** * The history only grows                                               *)
(* ===================================================================== *)

Section HistorySteps.
Variable e : env.

Lemma process_chemical_search_history k q b w :
  SEARCH_HISTORY (snd (process_chemical_search e k q b w))
  = match PubChemClient.search_compound e (PyStr q) b with
    | Some r => append_history k (history_entry e r) (SEARCH_HISTORY w)
    | None => SEARCH_HISTORY w
    end.
Proof.
  destruct (PubChemClient.search_compound e (PyStr q) b) as [r|] eqn:Hr.
  - apply process_chemical_search_appends. exact Hr.
  - unfold process_chemical_search. rewrite Hr. reflexivity.
Qed.

Lemma history_steps_keeps {A} k (m : M A) w :
  keeps SEARCH_HISTORY m -> history_steps e k w (snd (m w)).
Proof. intros K. left. apply K. Qed.

Lemma history_steps_search {B} k q b (a : B) w0 w :
  SEARCH_HISTORY w = SEARCH_HISTORY w0 ->
  history_steps e k w0
    (snd ((let* _ := process_chemical_search e k q b in ret a) w)).
Proof.
  intros Hw. rewrite bind_ret_world. unfold history_steps.
  rewrite process_chemical_search_history, Hw.
  destruct (PubChemClient.search_compound e (PyStr q) b) as [r|].
  - right. exists r. reflexivity.
  - left. reflexivity.
Qed.

Lemma button_handler_history_steps upd w :
  history_steps e (history_key upd) w (snd (button_handler e upd w)).
Proof.
  destruct upd as [ch u c t | ch u t | ch u m data | ch u oc t];
    [ apply history_steps_keeps; keeps_tac | apply history_steps_keeps; keeps_tac |
    | apply history_steps_keeps; keeps_tac ].
  cbn [history_key]. unfold button_handler. unfold bind at 1.
  pose proof (keeps_call SEARCH_HISTORY (fun _ _ => eq_refl) e (answer None) w) as Hc.
  destruct (call e (answer None) w) as [[[]|] w1]; cbn [snd] in Hc;
    [ | left; exact Hc].
  repeat lazymatch goal with
         | |- context [if ?b then _ else _] => destruct b
         end;
    try (left; rewrite <- Hc;
         lazymatch goal with
         | |- SEARCH_HISTORY (snd (?f w1)) = _ =>
             let K := fresh "K" in
             assert (K : keeps SEARCH_HISTORY f) by keeps_tac; exact (K w1)
         end);
    apply history_steps_search; exact Hc.
Qed.

Lemma message_history_steps (a : option Z) upd w :
  history_steps e (history_key upd) w
    (snd (match message_of upd with
          | None => raise
          | Some (u, text) =>
              let* _ := process_chemical_search e u text false in
              ret a
          end w)).
Proof.
  destruct upd as [ch u c t | ch u t | ch u m data | ch u oc t]; cbn [message_of history_key];
    [ apply history_steps_search; reflexivity
    | apply history_steps_search; reflexivity
    | left; reflexivity
    | left; reflexivity ].
Qed.

Lemma conv_handle_update_proj {X} (proj : world -> X) c h upd w :
  (forall t w, proj (set_conversations c t w) = proj w) ->
  proj (snd (conv_handle_update c h e upd w)) = proj (snd (callback h e upd w)).
Proof.
  intros Hset. rewrite conv_handle_update_world.
  destruct (callback h e upd w) as [[a|] w1]; [apply Hset | reflexivity].
Qed.

Lemma process_update_history_steps upd w :
  history_steps e (history_key upd) w (process_update e upd w).
Proof.
  assert (Hconv : forall c h,
             (forall t w, SEARCH_HISTORY (set_conversations c t w) = SEARCH_HISTORY w) ->
             history_steps e (history_key upd) w (snd (callback h e upd w)) ->
             history_steps e (history_key upd) w (snd (conv_handle_update c h e upd w))).
  { intros c h Hset Hcb. unfold history_steps in *.
    rewrite (conv_handle_update_proj SEARCH_HISTORY c h upd w Hset). exact Hcb. }
  apply process_update_cases.
  - left. reflexivity.
  - apply history_steps_keeps. keeps_tac.
  - apply message_history_steps.
  - apply button_handler_history_steps.
  - intros _. apply Hconv; [reflexivity | ]. apply history_steps_keeps.
    cbn [callback search_entry CallbackQueryHandler]. keeps_tac.
  - intros _. apply Hconv; [reflexivity | ]. apply message_history_steps.
  - intros _. apply Hconv; [reflexivity | ]. apply history_steps_keeps.
    cbn [callback back_fallback CallbackQueryHandler]. keeps_tac.
  - intros _. apply Hconv; [reflexivity | ]. apply history_steps_keeps.
    cbn [callback compare_entry CallbackQueryHandler]. keeps_tac.
  - intros _. apply Hconv; [reflexivity | ]. apply history_steps_keeps.
    cbn [callback MessageHandler]. keeps_tac.
  - intros _. apply Hconv; [reflexivity | ]. apply history_steps_keeps.
    cbn [callback MessageHandler]. keeps_tac.
  - intros _. apply Hconv; [reflexivity | ]. apply history_steps_keeps.
    cbn [callback back_fallback CallbackQueryHandler]. keeps_tac.
Qed.

End HistorySteps.

(** X13: one update leaves the stored history as it is or appends one entry
    for the sender of the message that the search was given: the user who
    wrote the text, or the sender of the message that carries the pressed
    button.  No entry is ever dropped, changed or moved, and no history but
    that one grows. *)
Theorem history_only_grows (e : env) (upd : update) (w : world) :
  let w' := process_update e upd w in
  (SEARCH_HISTORY w' = SEARCH_HISTORY w \/
   exists r,
     SEARCH_HISTORY w'
     = append_history (history_key upd) (history_entry e r) (SEARCH_HISTORY w)) /\
  (forall k, exists l,
      history_of w' k = (history_of w k ++ l)%list /\
      (length l <= 1)%nat /\
      (k <> history_key upd -> l = [])).
Proof.
  cbv zeta. pose proof (process_update_history_steps e upd w) as H.
  split; [exact H | ]. intros k. unfold history_of.
  destruct H as [-> | [r ->] ].
  - exists []. rewrite app_nil_r. split; [reflexivity | split; [cbn; lia | reflexivity] ].
  - destruct (decide (k = history_key upd)) as [-> | Hne].
    + exists [history_entry e r]. rewrite append_history_lookup.
      split; [reflexivity | split; [cbn; lia | congruence] ].
    + exists []. unfold append_history.
      rewrite lookup_insert_ne by congruence. rewrite app_nil_r.
      split; [reflexivity | split; [cbn; lia | reflexivity] ].
Qed.

(* ===================================================================== *)
(** * The states that can be reached                                       *)
(* ===================================================================== *)

Section Reachable.
Variable e : env.

Lemma well_formed_grow w w1 :
  well_formed w ->
  search_conv w1 = search_conv w ->
  compare_conv w1 = compare_conv w ->
  (forall v, user_data w !! v <> None -> user_data w1 !! v <> None) ->
  well_formed w1.
Proof.
  intros [Hs Hc] Es Ec Hu. split.
  - intros ch u s. rewrite Es. apply Hs.
  - intros ch u s. rewrite Ec. intros H.
    destruct (Hc ch u s H) as [-> | [-> Hp] ]; [left; reflexivity | right].
    split; [reflexivity | apply Hu; exact Hp].
Qed.

Lemma well_formed_search_step w w1 (k : Z * Z) a :
  well_formed w ->
  search_conv w1 = search_conv w ->
  compare_conv w1 = compare_conv w ->
  user_data w1 = user_data w ->
  (a = None \/ a = Some SEARCH \/ a = Some END) ->
  well_formed (set_search_conv (update_state k a (search_conv w1)) w1).
Proof.
  intros [Hs Hc] Es Ec Eu Ha. split.
  - intros ch v s. cbn [search_conv set_search_conv]. rewrite Es.
    destruct Ha as [-> | [-> | ->] ]; cbn [update_state].
    + apply Hs.
    + change (SEARCH =? END) with false. cbv iota.
      destruct (decide (k = (ch, v))) as [-> | Hne].
      * rewrite lookup_insert_eq. congruence.
      * rewrite lookup_insert_ne by exact Hne. apply Hs.
    + change (END =? END) with true. cbv iota.
      destruct (decide (k = (ch, v))) as [-> | Hne].
      * rewrite lookup_delete_eq. discriminate.
      * rewrite lookup_delete_ne by exact Hne. apply Hs.
  - intros ch v s. cbn [compare_conv user_data set_search_conv]. rewrite Ec, Eu. apply Hc.
Qed.

Lemma well_formed_compare_step w w1 (k : Z * Z) a :
  well_formed w ->
  search_conv w1 = search_conv w ->
  compare_conv w1 = compare_conv w ->
  (forall v, user_data w !! v <> None -> user_data w1 !! v <> None) ->
  (a = None \/ a = Some COMPARE_FIRST \/ a = Some END \/
   (a = Some COMPARE_SECOND /\ user_data w1 !! snd k <> None)) ->
  well_formed (set_compare_conv (update_state k a (compare_conv w1)) w1).
Proof.
  intros [Hs Hc] Es Ec Hu Ha. split.
  - intros ch v s. cbn [search_conv set_compare_conv]. rewrite Es. apply Hs.
  - assert (Hold : forall ch v s, compare_conv w !! (ch, v) = Some s ->
               s = COMPARE_FIRST \/ (s = COMPARE_SECOND /\ user_data w1 !! v <> None)).
    { intros ch v s H. destruct (Hc ch v s H) as [-> | [-> Hp] ]; [left; reflexivity | right].
      split; [reflexivity | apply Hu; exact Hp]. }
    intros ch v s. cbn [compare_conv user_data set_compare_conv]. rewrite Ec.
    destruct Ha as [-> | [-> | [-> | [-> Hp] ] ] ]; cbn [update_state].
    + apply Hold.
    + change (COMPARE_FIRST =? END) with false. cbv iota.
      destruct (decide (k = (ch, v))) as [-> | Hne].
      * rewrite lookup_insert_eq. intros [= <-]. left. reflexivity.
      * rewrite lookup_insert_ne by exact Hne. apply Hold.
    + change (END =? END) with true. cbv iota.
      destruct (decide (k = (ch, v))) as [-> | Hne].
      * rewrite lookup_delete_eq. discriminate.
      * rewrite lookup_delete_ne by exact Hne. apply Hold.
    + change (COMPARE_SECOND =? END) with false. cbv iota.
      destruct (decide (k = (ch, v))) as [-> | Hne].
      * rewrite lookup_insert_eq. intros [= <-]. right. split; [reflexivity | exact Hp].
      * rewrite lookup_insert_ne by exact Hne. apply Hold.
Qed.

(** What the callbacks of the conversations return. *)
Lemma search_command_returns upd w a w1 :
  search_command e upd w = (Ok a, w1) -> a = Some SEARCH.
Proof.
  unfold search_command, bind, ret.
  destruct (safe_edit_or_reply e (callback_user upd) _ _ _ w) as [[[]|] w2];
    intros [= <- <-]; reflexivity.
Qed.

Lemma compare_command_returns upd w a w1 :
  compare_command e upd w = (Ok a, w1) -> a = Some COMPARE_FIRST.
Proof.
  unfold compare_command, bind, ret.
  destruct (safe_edit_or_reply e (callback_user upd) _ _ _ w) as [[[]|] w2];
    intros [= <- <-]; reflexivity.
Qed.

Lemma handle_search_returns upd w a w1 :
  handle_search e upd w = (Ok a, w1) -> a = Some END.
Proof.
  unfold handle_search. destruct (message_of upd) as [[u text]|]; [ | discriminate].
  unfold bind, ret.
  destruct (process_chemical_search e u text false w) as [[[]|] w2];
    intros [= <- <-]; reflexivity.
Qed.

Lemma compare_second_returns upd w a w1 :
  compare_second e upd w = (Ok a, w1) -> a = Some END \/ a = Some COMPARE_SECOND.
Proof.
  unfold compare_second. destruct (message_of upd) as [[u text]|]; [ | discriminate].
  destruct (PubChemClient.search_compound e (PyStr text) false) as [second|].
  - unfold bind, get_world, ret.
    destruct (user_data w !! effective_user upd) as [first|]; [ | discriminate].
    destruct (send_comparison e first second w) as [[[]|] w2];
      intros [= <- <-]. left. reflexivity.
  - unfold bind, ret.
    destruct (call e _ w) as [[[]|] w2]; intros [= <- <-]. right. reflexivity.
Qed.

(** [compare_first] returns [COMPARE_SECOND] only after it has stored the
    record, and it removes no record. *)
Lemma compare_first_returns upd w :
  let res := compare_first e upd w in
  (forall v, user_data w !! v <> None -> user_data (snd res) !! v <> None) /\
  (forall a, fst res = Ok a ->
     a = Some COMPARE_FIRST \/
     (a = Some COMPARE_SECOND /\ user_data (snd res) !! effective_user upd <> None)).
Proof.
  cbv zeta. unfold compare_first.
  destruct (message_of upd) as [[u text]|];
    [ | split; [intros v H; exact H | intros a; discriminate] ].
  destruct (PubChemClient.search_compound e (PyStr text) false) as [result|].
  - unfold bind, modify, ret.
    pose proof (keeps_call user_data (fun _ _ => eq_refl) e
                  (reply_text (Text "Теперь введите вторую молекулу:")
                     (Some (back_markup "back_to_menu")) None)
                  (set_user_data (<[effective_user upd := result]> (user_data w)) w)) as K.
    destruct (call e _ (set_user_data _ w)) as [[[]|] w2]; cbn [fst snd] in *;
      rewrite K; cbn [user_data set_user_data].
    + split.
      * intros v H. destruct (decide (effective_user upd = v)) as [-> | Hne].
        -- rewrite lookup_insert_eq. discriminate.
        -- rewrite lookup_insert_ne by exact Hne. exact H.
      * intros a [= <-]. right. split; [reflexivity | ].
        rewrite lookup_insert_eq. discriminate.
    + split; [ | intros a; discriminate].
      intros v H. destruct (decide (effective_user upd = v)) as [-> | Hne].
      * rewrite lookup_insert_eq. discriminate.
      * rewrite lookup_insert_ne by exact Hne. exact H.
  - unfold bind, ret.
    pose proof (keeps_call user_data (fun _ _ => eq_refl) e
                  (reply_text (Text "Молекула не найдена. Попробуйте снова:")
                     (Some (back_markup "back_to_menu")) None) w) as K.
    destruct (call e _ w) as [[[]|] w2]; cbn [fst snd] in *; rewrite K.
    + split; [intros v H; exact H | intros a [= <-]; left; reflexivity].
    + split; [intros v H; exact H | intros a; discriminate].
Qed.

Lemma well_formed_plain (cb : env -> update -> M (option Z)) upd w :
  well_formed w ->
  keeps search_conv (cb e upd) -> keeps compare_conv (cb e upd) ->
  keeps user_data (cb e upd) ->
  well_formed (snd (cb e upd w)).
Proof.
  intros Hw K1 K2 K3. apply (well_formed_grow w); [exact Hw | apply K1 | apply K2 | ].
  intros v. rewrite K3. auto.
Qed.

Lemma well_formed_search_route h upd w :
  well_formed w ->
  keeps search_conv (callback h e upd) -> keeps compare_conv (callback h e upd) ->
  keeps user_data (callback h e upd) ->
  (forall a w1, callback h e upd w = (Ok a, w1) ->
                a = None \/ a = Some SEARCH \/ a = Some END) ->
  well_formed (snd (conv_handle_update search_conv_handler h e upd w)).
Proof.
  intros Hw K1 K2 K3 Hret. rewrite conv_handle_update_world.
  specialize (K1 w). specialize (K2 w). specialize (K3 w).
  destruct (callback h e upd w) as [[a|] w1]; cbn [snd] in K1, K2, K3.
  - apply (well_formed_search_step w); try assumption. exact (Hret a w1 eq_refl).
  - apply (well_formed_grow w); try assumption. intros v. rewrite K3. auto.
Qed.

Lemma well_formed_compare_route h upd w :
  well_formed w ->
  keeps search_conv (callback h e upd) -> keeps compare_conv (callback h e upd) ->
  (forall v, user_data w !! v <> None ->
             user_data (snd (callback h e upd w)) !! v <> None) ->
  (forall a, fst (callback h e upd w) = Ok a ->
     a = None \/ a = Some COMPARE_FIRST \/ a = Some END \/
     (a = Some COMPARE_SECOND /\
      user_data (snd (callback h e upd w)) !! effective_user upd <> None)) ->
  well_formed (snd (conv_handle_update compare_conv_handler h e upd w)).
Proof.
  intros Hw K1 K2 Hu Hret. rewrite conv_handle_update_world.
  specialize (K1 w). specialize (K2 w).
  destruct (callback h e upd w) as [[a|] w1]; cbn [fst snd] in K1, K2, Hu, Hret.
  - apply (well_formed_compare_step w); try assumption. exact (Hret a eq_refl).
  - apply (well_formed_grow w); assumption.
Qed.

Ltac route_keeps :=
  cbn [callback search_entry compare_entry back_fallback MessageHandler
       CallbackQueryHandler];
  keeps_tac.

Lemma process_update_well_formed upd w :
  well_formed w -> well_formed (process_update e upd w).
Proof.
  intros Hw. apply process_update_cases.
  - exact Hw.
  - apply well_formed_plain; [exact Hw | keeps_tac | keeps_tac | keeps_tac].
  - apply well_formed_plain; [exact Hw | keeps_tac | keeps_tac | keeps_tac].
  - apply well_formed_plain;
      [ exact Hw | apply button_handler_keeps_search_conv
      | apply button_handler_keeps_compare_conv | apply button_handler_keeps_user_data ].
  - intros _. apply well_formed_search_route;
      [exact Hw | route_keeps | route_keeps | route_keeps | ].
    cbn [callback search_entry back_fallback MessageHandler CallbackQueryHandler].
    intros a w1 H. right. left. exact (search_command_returns upd w a w1 H).
  - intros _. apply well_formed_search_route;
      [exact Hw | route_keeps | route_keeps | route_keeps | ].
    cbn [callback search_entry back_fallback MessageHandler CallbackQueryHandler].
    intros a w1 H. right. right. exact (handle_search_returns upd w a w1 H).
  - intros _. apply well_formed_search_route;
      [exact Hw | route_keeps | route_keeps | route_keeps | ].
    cbn [callback search_entry back_fallback MessageHandler CallbackQueryHandler].
    intros a w1 H. left. exact (fallback_returns_none e upd w a w1 H).
  - intros _. apply well_formed_compare_route; [exact Hw | route_keeps | route_keeps | | ].
    + intros v. cbn [callback compare_entry CallbackQueryHandler].
      assert (K : keeps user_data (compare_command e upd)) by keeps_tac.
      rewrite K. auto.
    + intros a. cbn [callback compare_entry CallbackQueryHandler].
      destruct (compare_command e upd w) as [r w1] eqn:E. cbn [fst]. intros ->.
      right. left. exact (compare_command_returns upd w a w1 E).
  - intros _. apply well_formed_compare_route; [exact Hw | route_keeps | route_keeps | | ].
    + cbn [callback MessageHandler]. apply (compare_first_returns upd w).
    + cbn [callback MessageHandler]. intros a Ha.
      destruct (proj2 (compare_first_returns upd w) a Ha) as [-> | H];
        [right; left; reflexivity | right; right; right; exact H].
  - intros Hst. apply well_formed_compare_route; [exact Hw | route_keeps | route_keeps | | ].
    + intros v. cbn [callback MessageHandler].
      assert (K : keeps user_data (compare_second e upd)) by keeps_tac.
      rewrite K. auto.
    + intros a. cbn [callback MessageHandler].
      assert (K : keeps user_data (compare_second e upd)) by keeps_tac.
      specialize (K w).
      destruct (compare_second e upd w) as [r w1] eqn:E. cbn [fst snd] in *. intros ->.
      destruct (compare_second_returns upd w a w1 E) as [-> | ->].
      * right. right. left. reflexivity.
      * right. right. right. split; [reflexivity | ]. rewrite K.
        destruct Hw as [_ Hc].
        destruct (Hc (effective_chat upd) (effective_user upd) _ Hst) as [H | [_ H] ];
          [discriminate H | exact H].
  - intros _. apply well_formed_compare_route; [exact Hw | route_keeps | route_keeps | | ].
    + intros v. cbn [callback back_fallback CallbackQueryHandler].
      assert (K : keeps user_data (show_main_menu_fallback e upd)) by keeps_tac.
      rewrite K. auto.
    + intros a. cbn [callback back_fallback CallbackQueryHandler].
      destruct (show_main_menu_fallback e upd w) as [r w1] eqn:E. cbn [fst]. intros ->.
      left. exact (fallback_returns_none e upd w a w1 E).
Qed.

End Reachable.

Lemma run_polling_well_formed (es : list (env * update)) (w : world) :
  well_formed w -> well_formed (run_polling es w).
Proof.
  revert w. induction es as [|[e upd] es IH]; intros w Hw; cbn [run_polling].
  - exact Hw.
  - apply IH. apply process_update_well_formed. exact Hw.
Qed.

(** X14: whatever updates arrive after the start, the search table holds
    only [SEARCH], the compare table only [COMPARE_FIRST] and
    [COMPARE_SECOND], and a user whose compare conversation awaits the
    second term has a pending record, so [compare_second] always finds it.
    Each user is then in one of the four states of the two flows, or has
    both conversations open at once. *)
Theorem reachable_states (es : list (env * update)) (ch u : Z) :
  let w := run_polling es initial_world in
  well_formed w /\
  (compare_conv w !! (ch, u) = Some COMPARE_SECOND -> user_data w !! u <> None) /\
  (spec_state w ch u <> None \/
   (search_conv w !! (ch, u) = Some SEARCH /\ compare_conv w !! (ch, u) <> None)).
Proof.
  cbv zeta.
  assert (Hw : well_formed (run_polling es initial_world)).
  { apply run_polling_well_formed.
    split; intros c v s; cbn; rewrite lookup_empty; discriminate. }
  split; [exact Hw | ]. destruct Hw as [Hs Hc]. split.
  - intros H. destruct (Hc ch u _ H) as [E | [_ Hp] ]; [discriminate E | exact Hp].
  - unfold spec_state.
    destruct (search_conv (run_polling es initial_world) !! (ch, u)) as [s|] eqn:Es;
      destruct (compare_conv (run_polling es initial_world) !! (ch, u)) as [c|] eqn:Ec.
    + right. rewrite (Hs ch u s Es). split; [reflexivity | discriminate].
    + left. rewrite (Hs ch u s Es). discriminate.
    + left. destruct (Hc ch u c Ec) as [-> | [-> Hp] ].
      * discriminate.
      * change (COMPARE_SECOND =? COMPARE_FIRST) with false.
        change (COMPARE_SECOND =? COMPARE_SECOND) with true. cbv iota.
        destruct (user_data (run_polling es initial_world) !! u); [discriminate | congruence].
    + left. discriminate.
Qed.

(* ===================================================================== *)
(** * Who writes the favorites                                             *)
(* ===================================================================== *)

(** X15: the favorites are written by the [save_] and [remove_] tokens
    only: a message, a command or any other token leaves the favorites of
    every user as they are. *)
Theorem favorites_written_by_own_tokens (e : env) (upd : update) (w : world) :
  (forall ch u m data, upd = CallbackQuery ch u m data ->
     startswith data "save_" = false /\ startswith data "remove_" = false) ->
  FAVORITES (process_update e upd w) = FAVORITES w.
Proof.
  intros Htok.
  apply (process_update_keeps FAVORITES); try reflexivity; try (keeps_tac; fail).
  destruct upd as [ch u c t | ch u t | ch u m data | ch u oc t];
    [keeps_tac | keeps_tac | | keeps_tac].
  destruct (Htok ch u m data eq_refl) as [Hs Hr].
  unfold button_handler. rewrite Hs, Hr. cbv iota. keeps_tac.
Qed.

Lemma favorites_written_by_own_tokens_witness :
  let w1 := process_update sample_env (CallbackQuery 7 7 99 "save_2244") initial_world in
  let w2 := process_update sample_env (CallbackQuery 7 7 99 "history_757") w1 in
  favorites_of w2 7 = [("2244", "2-acetyloxybenzoic acid")].
Proof.
  cbv zeta.
  set (w1 := process_update sample_env (CallbackQuery 7 7 99 "save_2244") initial_world).
  assert (H : forall ch u m data,
             CallbackQuery 7 7 99 "history_757" = CallbackQuery ch u m data ->
             startswith data "save_" = false /\ startswith data "remove_" = false).
  { intros ch u m data [= <- <- <- <-]. split; reflexivity. }
  unfold favorites_of.
  rewrite (favorites_written_by_own_tokens sample_env (CallbackQuery 7 7 99 "history_757") w1 H).
  vm_compute. reflexivity.
Defined.

(* ===================================================================== *)
(** * A transport that is down                                             *)
(* ===================================================================== *)

Section TransportDown.
Variable e : env.
Hypothesis Hdown : transport_down e.

Lemma raises_raise {A} : raises (@raise A).
Proof. intros w. reflexivity. Qed.

Lemma raises_call c : raises (call e c).
Proof. intros w. unfold call. rewrite Hdown. reflexivity. Qed.

Lemma raises_bind_l {A B} (m : M A) (k : A -> M B) : raises m -> raises (bind m k).
Proof.
  intros Hm w. unfold bind. specialize (Hm w).
  destruct (m w) as [[a|] w1]; [discriminate Hm | reflexivity].
Qed.

Lemma raises_bind_r {A B} (m : M A) (k : A -> M B) :
  (forall a, raises (k a)) -> raises (bind m k).
Proof.
  intros Hk w. unfold bind.
  destruct (m w) as [[a|] w1]; [apply Hk | reflexivity].
Qed.

Lemma raises_try_except {A} (m h : M A) : raises m -> raises h -> raises (try_except m h).
Proof.
  intros Hm Hh w. unfold try_except. specialize (Hm w).
  destruct (m w) as [[a|] w1]; [discriminate Hm | apply Hh].
Qed.

Ltac raises_step :=
  lazymatch goal with
  | |- raises raise => apply raises_raise
  | |- raises (call _ _) => apply raises_call
  | |- raises (try_except _ _) => apply raises_try_except
  | |- raises (bind (modify _) _) => apply raises_bind_r; intros
  | |- raises (bind get_world _) => apply raises_bind_r; intros
  | |- raises (bind _ _) => apply raises_bind_l
  | |- raises (match ?x with _ => _ end) => destruct x
  | |- raises _ => progress autounfold with handlers
  end.

Ltac raises_tac := repeat raises_step.

(** Every callback that [main] registers ends in an exception: each of
    them sends before it returns. *)
Lemma callbacks_raise upd :
  raises (start e upd) /\ raises (search_command e upd) /\
  raises (handle_search e upd) /\ raises (show_main_menu_fallback e upd) /\
  raises (compare_command e upd) /\ raises (compare_first e upd) /\
  raises (compare_second e upd) /\ raises (handle_message e upd) /\
  raises (button_handler e upd).
Proof.
  repeat split; raises_tac.
Qed.

Lemma conv_handle_update_raises c h upd w :
  raises (callback h e upd) ->
  snd (conv_handle_update c h e upd w) = snd (callback h e upd w).
Proof.
  intros Hr. rewrite conv_handle_update_world. specialize (Hr w).
  destruct (callback h e upd w) as [[a|] w1]; [discriminate Hr | reflexivity].
Qed.

Lemma button_handler_down_keeps_favorites upd w :
  FAVORITES (snd (button_handler e upd w)) = FAVORITES w.
Proof.
  destruct upd as [ch u c t | ch u t | ch u m data | ch u oc t];
    [reflexivity | reflexivity | | reflexivity].
  unfold button_handler, bind, call. rewrite Hdown. reflexivity.
Qed.

Lemma transport_down_tables {X} (proj : world -> X) upd w :
  (forall cb : env -> update -> M (option Z),
      In cb [start; search_command; handle_search; show_main_menu_fallback;
             compare_command; compare_first; compare_second; handle_message;
             button_handler] ->
      proj (snd (cb e upd w)) = proj w) ->
  proj (process_update e upd w) = proj w.
Proof.
  intros Hcb.
  destruct (callbacks_raise upd) as (R1 & R2 & R3 & R4 & R5 & R6 & R7 & R8 & R9).
  apply process_update_cases; try intros _;
    rewrite ?conv_handle_update_raises
      by (cbn [callback search_entry compare_entry back_fallback MessageHandler
               CallbackQueryHandler]; assumption);
    cbn [callback search_entry compare_entry back_fallback MessageHandler
         CallbackQueryHandler];
    try reflexivity; apply Hcb; cbn [In]; tauto.
Qed.

End TransportDown.



(* ===================================================================== *)
(** * Recording and delivering a found record                              *)
(* ===================================================================== *)

(** X17: a text that is taken as a search, awaited or outside any
    conversation, is written to the history of its sender when the lookup
    finds a record, whether or not the record can then be delivered; when
    nothing is found nothing is written. *)
Theorem search_recorded_before_delivery (e : env) (ch u : Z) (t : string) (w : world) :
  search_conv w !! (ch, u) = Some SEARCH \/
  (search_conv w !! (ch, u) = None /\ compare_conv w !! (ch, u) = None) ->
  SEARCH_HISTORY (process_update e (TextMessage ch u t) w)
  = match PubChemClient.search_compound e (PyStr t) false with
    | Some r => append_history u (history_entry e r) (SEARCH_HISTORY w)
    | None => SEARCH_HISTORY w
    end.
Proof.
  intros Hst. unfold process_update. rewrite dispatch_text_message. cbv zeta.
  destruct Hst as [Hs | [Hs Hc] ]; rewrite Hs.
  - change (SEARCH =? SEARCH) with true. cbv iota.
    rewrite (conv_handle_update_proj e SEARCH_HISTORY) by reflexivity.
    cbn [callback MessageHandler]. unfold handle_search. cbn [message_of].
    rewrite bind_ret_world. apply process_chemical_search_history.
  - rewrite Hc. rewrite plain_world. unfold handle_message. cbn [message_of].
    rewrite bind_ret_world. apply process_chemical_search_history.
Qed.

Lemma search_recorded_before_delivery_witness :
  let w1 := process_update down_env (TextMessage 7 7 "aspirin") initial_world in
  map item_name (history_of w1 7) = ["aspirin"] /\
  map snd (outbox w1) = [false; false].
Proof.
  cbv zeta. split; [ | vm_compute; reflexivity].
  unfold history_of.
  rewrite (search_recorded_before_delivery down_env 7 7 "aspirin" initial_world
             (or_intror (conj eq_refl eq_refl))).
  vm_compute. reflexivity.
Defined.

Section Delivery.
Variable e : env.

Lemma try_call_call a b w :
  exists log,
    try_except (call e a) (call e b) w
    = ((if Nat.eqb (delivered log) 1 then Ok tt else Raise),
       set_outbox (outbox w ++ log) w) /\
    (log = [(a, true)] \/ exists ok, log = [(a, false); (b, ok)]).
Proof.
  unfold try_except, call.
  destruct (tg_ok e (length (outbox w)) a) eqn:E1.
  - exists [(a, true)]. split; [reflexivity | left; reflexivity].
  - cbn [outbox set_outbox].
    exists [(a, false); (b, tg_ok e (length (outbox w ++ [(a, false)])) b)].
    split; [ | right; eexists; reflexivity].
    rewrite <- app_assoc.
    destruct (tg_ok e (length (outbox w ++ [(a, false)])) b); reflexivity.
Qed.

Lemma try_raise_call b w :
  exists ok,
    try_except raise (call e b) w
    = ((if Nat.eqb (delivered [(b, ok)]) 1 then Ok tt else Raise),
       set_outbox (outbox w ++ [(b, ok)]) w).
Proof.
  unfold try_except, raise, call. exists (tg_ok e (length (outbox w)) b).
  destruct (tg_ok e (length (outbox w)) b); reflexivity.
Qed.

(** The logs that [send_molecule_info] can leave. *)
Lemma send_molecule_info_log r w :
  exists log,
    send_molecule_info e r w
    = ((if Nat.eqb (delivered log) 1 then Ok tt else Raise),
       set_outbox (outbox w ++ log) w) /\
    ((image_status e (image_url r) = Some 200 /\
      (log = [(record_photo e r, true)] \/
       exists ok, log = [(record_photo e r, false); (record_text e r, ok)])) \/
     (image_status e (image_url r) <> Some 200 /\
      exists ok, log = [(record_text e r, ok)] \/
                 log = [(record_text e r, false); (record_text e r, ok)])).
Proof.
  unfold send_molecule_info. fold (record_photo e r). fold (record_text e r).
  destruct (image_status e (image_url r)) as [s|] eqn:Es;
    [destruct (Z.eqb_spec s 200) as [-> | Hs] | ].
  - destruct (try_call_call (record_photo e r) (record_text e r) w) as (log & Hrun & Hlog).
    exists log. split; [exact Hrun | left; split; [reflexivity | exact Hlog] ].
  - destruct (try_call_call (record_text e r) (record_text e r) w) as (log & Hrun & Hlog).
    exists log. split; [exact Hrun | right; split; [congruence | ] ].
    destruct Hlog as [-> | [ok ->] ]; [exists true; left | exists ok; right]; reflexivity.
  - destruct (try_raise_call (record_text e r) w) as (ok & Hrun).
    exists [(record_text e r, ok)]. split; [exact Hrun | right; split; [discriminate | ] ].
    exists ok. left. reflexivity.
Qed.

End Delivery.

(** X18: [send_molecule_info] makes one or two calls, each of them shows
    the record, at most one of them succeeds, and it returns normally exactly
    when one did; the picture is tried only when its download answered 200,
    and only first; a second call is the text with the main menu. *)
Theorem record_delivered_at_most_once (e : env) (r : compound) (w : world) :
  exists log,
    snd (send_molecule_info e r w) = set_outbox (outbox w ++ log) w /\
    (1 <= length log <= 2)%nat /\
    Forall (fun entry => shows_record e r (fst entry)) log /\
    (delivered log <= 1)%nat /\
    (fst (send_molecule_info e r w) = Ok tt <-> delivered log = 1%nat) /\
    (forall ok, In (record_photo e r, ok) log ->
                image_status e (image_url r) = Some 200 /\
                hd_error log = Some (record_photo e r, ok)) /\
    (forall entry, nth_error log 1 = Some entry -> fst entry = record_text e r).
Proof.
  destruct (send_molecule_info_log e r w) as (log & Hrun & Hshape).
  exists log. rewrite Hrun. cbn [fst snd].
  assert (Hp : shows_record e r (record_photo e r)) by (left; reflexivity).
  assert (Ht : shows_record e r (record_text e r)) by (right; reflexivity).
  assert (Hne : forall ok ok' : bool, (record_text e r, ok) <> (record_photo e r, ok'))
    by (intros ok ok'; discriminate).
  split; [reflexivity | ].
  assert (Hiff : forall n : nat,
             (if Nat.eqb n 1 then Ok tt else @Raise unit) = Ok tt <-> n = 1%nat).
  { intros n. destruct (Nat.eqb_spec n 1) as [-> | Hn]; split; congruence. }
  destruct Hshape as [ [Es [-> | [ok ->] ] ] | [Es [ok [-> | ->] ] ] ].
  - split; [cbn; lia | ]. split; [repeat constructor; exact Hp | ].
    split; [cbn; lia | ]. split; [apply Hiff | ]. split.
    + intros ok [H | [] ]. injection H as <-. split; [exact Es | reflexivity].
    + intros entry H. discriminate H.
  - split; [cbn; lia | ]. split; [repeat constructor; assumption | ].
    split; [destruct ok; cbn; lia | ]. split; [apply Hiff | ]. split.
    + intros ok' [H | [H | [] ] ].
      * injection H as <-. split; [exact Es | reflexivity].
      * exfalso. exact (Hne _ _ H).
    + intros entry [= <-]. reflexivity.
  - split; [cbn; lia | ]. split; [repeat constructor; exact Ht | ].
    split; [destruct ok; cbn; lia | ]. split; [apply Hiff | ]. split.
    + intros ok' [H | [] ]. exfalso. exact (Hne _ _ H).
    + intros entry H. discriminate H.
  - split; [cbn; lia | ]. split; [repeat constructor; exact Ht | ].
    split; [destruct ok; cbn; lia | ]. split; [apply Hiff | ]. split.
    + intros ok' [H | [H | [] ] ]; exfalso; exact (Hne _ _ H).
    + intros entry [= <-]. reflexivity.
Qed.

(* ===================================================================== *)
(** * What the history and favorites buttons show                          *)
(* ===================================================================== *)

Section Displays.
Variable e : env.
Hypothesis Hok : transport_ok e.

Lemma show_favorites_run ch u m data w :
  show_favorites e (CallbackQuery ch u m data) w
  = (Ok None, set_outbox (outbox w ++ [(favorites_message (favorites_of w u), true)]) w).
Proof.
  unfold show_favorites, favorites_of. cbn [callback_user].
  unfold bind at 1. unfold get_world at 1.
  destruct (FAVORITES w !! u) as [ [|x l]|]; unfold bind, ret;
    rewrite ?(show_main_menu_callback_ok e Hok), ?(safe_edit_or_reply_ok e Hok);
    reflexivity.
Qed.

Lemma favorites_press_run ch u m w :
  process_update e (CallbackQuery ch u m "favorites") w
  = set_outbox (outbox w ++ [(answer None, true);
                             (favorites_message (favorites_of w u), true)]) w.
Proof.
  unfold process_update. rewrite dispatch_to_button by reflexivity.
  change (button_handler e (CallbackQuery ch u m "favorites"))
    with (let* _ := call e (answer None) in
          let* _ := show_favorites e (CallbackQuery ch u m "favorites") in
          ret (None : option Z)).
  unfold bind, ret. rewrite (call_ok e Hok), show_favorites_run.
  cbn [snd outbox set_outbox]. unfold favorites_of. cbn [FAVORITES set_outbox].
  rewrite <- app_assoc. reflexivity.
Qed.

(** Removing a favorite that is there answers with its name and shows the
    list that is left. *)
Lemma remove_press_run ch u m s name w :
  id_string s = true ->
  dict_get (favorites_of w u) s = Some name ->
  let w' := process_update e (CallbackQuery ch u m ("remove_" ++ s)) w in
  favorites_of w' u = dict_remove (favorites_of w u) s /\
  outbox w' = (outbox w ++ [(answer None, true);
                            (answer (Some ("Удалено: " ++ name)%string), true);
                            (favorites_message (favorites_of w' u), true)])%list.
Proof.
  intros Hs Hget. cbv zeta. unfold process_update.
  rewrite dispatch_to_button by reflexivity.
  rewrite button_handler_remove. cbv zeta.
  rewrite (replace_token "r" "emove_" s) by (reflexivity || exact Hs).
  unfold bind, get_world, modify, ret. rewrite (call_ok e Hok).
  cbn [FAVORITES set_outbox]. unfold remove_favorite, favorites_of in *.
  destruct (FAVORITES w !! u) as [favs|] eqn:Ef; [ | discriminate Hget].
  cbn [default from_option id] in Hget |- *.
  unfold dict_pop. rewrite Hget.
  rewrite (call_ok e Hok), show_favorites_run.
  cbn [snd FAVORITES outbox set_outbox set_FAVORITES]. unfold favorites_of.
  cbn [FAVORITES set_outbox set_FAVORITES].
  rewrite lookup_insert_eq. cbn [default from_option id].
  split; [reflexivity | ]. rewrite <- !app_assoc. reflexivity.
Qed.

End Displays.

(** X19: the [history] button shows the history stored for the user who
    pressed it: the last five entries, or the main menu with a notice when
    there is none.  A search started from a button is stored for the sender
    of the message under the button, so it is not in what the presser is
    shown unless the presser sent that message. *)
Theorem history_display (e : env) (ch u m : Z) (w : world) :
  transport_ok e ->
  process_update e (CallbackQuery ch u m "history") w
  = set_outbox (outbox w ++ [(answer None, true);
                             (history_message e (history_of w u), true)]) w /\
  (forall data, u <> m ->
     history_of (process_update e (CallbackQuery ch u m data) w) u = history_of w u).
Proof.
  intros Hok. split; [apply history_press_run; exact Hok | ].
  intros data Hne. unfold history_of.
  destruct (process_update_history_steps e (CallbackQuery ch u m data) w) as [-> | [r ->] ];
    [reflexivity | ].
  cbn [history_key]. unfold append_history.
  rewrite lookup_insert_ne by congruence. reflexivity.
Qed.

Lemma history_display_witness :
  let w1 := process_update sample_env (CallbackQuery 7 7 99 "search_aspirin") initial_world in
  let w2 := process_update sample_env (CallbackQuery 7 7 99 "history") w1 in
  map item_name (history_of w1 99) = ["aspirin"] /\
  outbox w2
  = (outbox w1 ++ [(answer None, true);
                   (edit_message_text (Text "История поиска пуста.")
                      (Some create_main_menu) (Some "Markdown"), true)])%list.
Proof.
  cbv zeta.
  set (w1 := process_update sample_env (CallbackQuery 7 7 99 "search_aspirin") initial_world).
  assert (Hne : 7 <> 99) by discriminate.
  destruct (history_display sample_env 7 7 99 initial_world (fun n c => eq_refl))
    as [_ Hsame].
  specialize (Hsame "search_aspirin" Hne). fold w1 in Hsame.
  destruct (history_display sample_env 7 7 99 w1 (fun n c => eq_refl)) as [Hrun _].
  split; [vm_compute; reflexivity | ].
  rewrite Hrun, Hsame. reflexivity.
Defined.

(** X20: the [favorites] button shows the favorites of the user who pressed
    it, one row for each with the token that opens it and the token that
    removes it, or the main menu with a notice when there is none.  The
    removal of a favorite that is there deletes it, names it in the answer
    and shows the list that is left. *)
Theorem favorites_display (e : env) (ch u m : Z) (s name : string) (w : world) :
  transport_ok e ->
  process_update e (CallbackQuery ch u m "favorites") w
  = set_outbox (outbox w ++ [(answer None, true);
                             (favorites_message (favorites_of w u), true)]) w /\
  (id_string s = true ->
   dict_get (favorites_of w u) s = Some name ->
   let w' := process_update e (CallbackQuery ch u m ("remove_" ++ s)) w in
   favorites_of w' u = dict_remove (favorites_of w u) s /\
   outbox w' = (outbox w ++ [(answer None, true);
                             (answer (Some ("Удалено: " ++ name)%string), true);
                             (favorites_message (favorites_of w' u), true)])%list).
Proof.
  intros Hok. split; [apply favorites_press_run; exact Hok | ].
  apply remove_press_run. exact Hok.
Qed.

Lemma favorites_display_witness :
  let w1 := process_update sample_env (CallbackQuery 7 7 99 "save_2244") initial_world in
  let w2 := process_update sample_env (CallbackQuery 7 7 99 "save_757") w1 in
  let w3 := process_update sample_env (CallbackQuery 7 7 99 "remove_2244") w2 in
  let w4 := process_update sample_env (CallbackQuery 7 7 99 "remove_757") w3 in
  outbox w3
  = (outbox w2 ++
     [(answer None, true);
      (answer (Some "Удалено: 2-acetyloxybenzoic acid"), true);
      (edit_message_text (Text "⭐ Избранные молекулы:")
         (Some [[CallbackButton "2-hydroxyacetic acid" "history_757";
                 CallbackButton "❌" "remove_757"];
                [CallbackButton "↩️ Назад" "back_to_menu"]]) None, true)])%list /\
  outbox w4
  = (outbox w3 ++
     [(answer None, true);
      (answer (Some "Удалено: 2-hydroxyacetic acid"), true);
      (edit_message_text (Text "У вас нет сохранённых молекул.")
         (Some create_main_menu) (Some "Markdown"), true)])%list.
Proof.
  cbv zeta.
  set (w1 := process_update sample_env (CallbackQuery 7 7 99 "save_2244") initial_world).
  set (w2 := process_update sample_env (CallbackQuery 7 7 99 "save_757") w1).
  set (w3 := process_update sample_env (CallbackQuery 7 7 99 "remove_2244") w2).
  destruct (favorites_display sample_env 7 7 99 "2244" "2-acetyloxybenzoic acid" w2
              (fun n c => eq_refl)) as [_ H3].
  destruct (H3 eq_refl) as [F3 O3]; [vm_compute; reflexivity | ].
  change (process_update sample_env (CallbackQuery 7 7 99 ("remove_" ++ "2244")) w2)
    with w3 in F3, O3.
  destruct (favorites_display sample_env 7 7 99 "757" "2-hydroxyacetic acid" w3
              (fun n c => eq_refl)) as [_ H4].
  destruct (H4 eq_refl) as [F4 O4]; [vm_compute; reflexivity | ].
  split.
  - rewrite O3, F3. vm_compute. reflexivity.
  - etransitivity; [exact O4 | ]. rewrite F4, F3. vm_compute. reflexivity.
Defined.

(* ===================================================================== *)
(** * Each favorite is listed once                                         *)
(* ===================================================================== *)

Section UniqueFavorites.
Context {V : Type}.
Implicit Types (d : list (string * V)) (k : string) (v : V).

Lemma dict_set_keys d k v :
  map fst (dict_set d k v)
  = match dict_get d k with
    | Some _ => map fst d
    | None => (map fst d ++ [k])%list
    end.
Proof.
  induction d as [| [k' v'] d IH]; cbn [dict_set dict_get map fst app]; [reflexivity | ].
  destruct (String.eqb k' k); [reflexivity | ].
  cbn [map fst]. rewrite IH. destruct (dict_get d k); reflexivity.
Qed.

Lemma dict_get_none_keys d k : dict_get d k = None -> ~ In k (map fst d).
Proof.
  induction d as [| [k' v'] d IH]; cbn [dict_get map fst In]; [tauto | ].
  destruct (String.eqb_spec k' k) as [-> | Hne]; [discriminate | ].
  intros H [Heq | Hin]; [exact (Hne Heq) | exact (IH H Hin)].
Qed.

Lemma dict_set_unique d k v : NoDup (map fst d) -> NoDup (map fst (dict_set d k v)).
Proof.
  intros Hd. rewrite dict_set_keys.
  destruct (dict_get d k) eqn:E; [exact Hd | ].
  apply NoDup_app. split; [exact Hd | split; [ | apply NoDup_singleton] ].
  intros x Hx Hk. apply list_elem_of_singleton in Hk. subst x.
  apply list_elem_of_In in Hx. exact (dict_get_none_keys d k E Hx).
Qed.

Lemma dict_remove_unique d k : NoDup (map fst d) -> NoDup (map fst (dict_remove d k)).
Proof.
  unfold dict_remove. induction d as [| [k' v'] d IH]; cbn [List.filter map fst];
    [auto | ].
  intros Hd. apply NoDup_cons in Hd. destruct Hd as [Hk Hd].
  destruct (negb (String.eqb k' k)); [ | apply IH; exact Hd].
  cbn [map fst]. apply NoDup_cons. split; [ | apply IH; exact Hd].
  intros Hin. apply Hk. apply list_elem_of_In. apply list_elem_of_In in Hin.
  apply in_map_iff in Hin. destruct Hin as ([k0 v0] & Heq & Hin).
  apply filter_In in Hin. destruct Hin as [Hin _].
  apply in_map_iff. exists (k0, v0). split; [exact Heq | exact Hin].
Qed.

Lemma dict_remove_absent d k : ~ In k (map fst d) -> dict_remove d k = d.
Proof.
  unfold dict_remove. induction d as [| [k' v'] d IH]; cbn [List.filter map fst In];
    [reflexivity | ].
  intros H. destruct (String.eqb_spec k' k) as [-> | Hne]; [tauto | ].
  cbn [negb]. rewrite IH by tauto. reflexivity.
Qed.

(** With unique keys the removal of a key that is there takes one entry. *)
Lemma dict_remove_length d k v :
  NoDup (map fst d) -> dict_get d k = Some v ->
  S (length (dict_remove d k)) = length d.
Proof.
  induction d as [| [k' v'] d IH]; cbn [dict_get map fst]; [discriminate | ].
  intros Hd Hget. apply NoDup_cons in Hd. destruct Hd as [Hk Hd].
  unfold dict_remove. cbn [List.filter fst].
  destruct (String.eqb_spec k' k) as [-> | Hne]; cbn [negb length].
  - fold (dict_remove d k). rewrite dict_remove_absent; [reflexivity | ].
    intros Hin. apply Hk. apply list_elem_of_In. exact Hin.
  - fold (dict_remove d k). rewrite (IH Hd Hget). reflexivity.
Qed.

End UniqueFavorites.

Section UniqueFavoritesOfUsers.
Variable e : env.

Lemma preserves_keeps {A} (m : M A) :
  keeps FAVORITES m -> preserves unique_favorites m.
Proof. intros K w Hw u favs. rewrite K. apply Hw. Qed.

Lemma preserves_bind {A B} P (m : M A) (k : A -> M B) :
  preserves P m -> (forall a, preserves P (k a)) -> preserves P (bind m k).
Proof.
  intros Hm Hk w Hw. unfold bind. specialize (Hm w Hw).
  destruct (m w) as [[a|] w1]; cbn [snd] in *; [apply Hk; exact Hm | exact Hm].
Qed.

Lemma preserves_bind_get_world {B} P (k : world -> M B) :
  (forall w, P w -> P (snd (k w w))) -> preserves P (bind get_world k).
Proof. intros H w Hw. unfold bind, get_world. apply H. exact Hw. Qed.

Lemma unique_ensure u w :
  unique_favorites w ->
  unique_favorites (set_FAVORITES (ensure_favorites u (FAVORITES w)) w).
Proof.
  intros Hw v favs. cbn [FAVORITES set_FAVORITES]. unfold ensure_favorites.
  destruct (FAVORITES w !! u) eqn:E; [apply Hw | ].
  destruct (decide (u = v)) as [-> | Hne].
  - rewrite lookup_insert_eq. intros [= <-]. constructor.
  - rewrite lookup_insert_ne by exact Hne. apply Hw.
Qed.

Lemma unique_add u cid name w :
  unique_favorites w ->
  unique_favorites (set_FAVORITES (add_favorite u cid name (FAVORITES w)) w).
Proof.
  intros Hw v favs. cbn [FAVORITES set_FAVORITES]. unfold add_favorite.
  destruct (decide (u = v)) as [-> | Hne].
  - rewrite lookup_insert_eq. intros [= <-]. apply dict_set_unique.
    destruct (FAVORITES w !! v) as [old|] eqn:E; cbn [default from_option id];
      [exact (Hw v old E) | constructor].
  - rewrite lookup_insert_ne by exact Hne. apply Hw.
Qed.

Lemma unique_remove u cid w :
  unique_favorites w ->
  unique_favorites (set_FAVORITES (snd (remove_favorite u cid (FAVORITES w))) w).
Proof.
  intros Hw v favs. cbn [FAVORITES set_FAVORITES]. unfold remove_favorite.
  destruct (FAVORITES w !! u) as [old|] eqn:E; [ | apply Hw].
  unfold dict_pop. destruct (dict_get old cid); [ | apply Hw]. cbn [snd].
  destruct (decide (u = v)) as [-> | Hne].
  - rewrite lookup_insert_eq. intros [= <-]. apply dict_remove_unique. exact (Hw v old E).
  - rewrite lookup_insert_ne by exact Hne. apply Hw.
Qed.

Lemma button_handler_unique upd : preserves unique_favorites (button_handler e upd).
Proof.
  destruct upd as [ch v c t | ch v t | ch v m data | ch v oc t];
    [ apply preserves_keeps; keeps_tac | apply preserves_keeps; keeps_tac |
    | apply preserves_keeps; keeps_tac ].
  unfold button_handler.
  apply preserves_bind; [apply preserves_keeps; keeps_tac | intros _].
  repeat lazymatch goal with
         | |- preserves _ (if ?b then _ else _) => destruct b
         end;
    try (solve [apply preserves_keeps; keeps_tac]).
  - apply preserves_bind; [intros w Hw; apply unique_ensure; exact Hw | intros _].
    destruct (PubChemClient.search_compound e (PyStr (replace data "save_" "")) true);
      [ | apply preserves_keeps; keeps_tac].
    apply preserves_bind; [intros w Hw; apply unique_add; exact Hw | intros _].
    apply preserves_keeps. keeps_tac.
  - apply preserves_bind_get_world. intros w Hw.
    pose proof (unique_remove v (replace data "remove_" "") w Hw) as Hr.
    destruct (remove_favorite v (replace data "remove_" "") (FAVORITES w)) as [ [name|] f'];
      [ | exact Hw].
    cbn [snd] in Hr. unfold bind at 1. unfold modify at 1.
    assert (K : keeps FAVORITES
                  (let* _ := call e (answer (Some ("Удалено: " ++ name))) in
                   let* _ := show_favorites e (CallbackQuery ch v m data) in
                   ret (None : option Z))) by keeps_tac.
    exact (preserves_keeps _ K _ Hr).
Qed.

Lemma process_update_unique upd w :
  unique_favorites w -> unique_favorites (process_update e upd w).
Proof.
  intros Hw.
  assert (Hkeep : forall w', FAVORITES w' = FAVORITES w -> unique_favorites w').
  { intros w' E u favs. rewrite E. apply Hw. }
  apply process_update_cases; try intros _;
    try (apply Hkeep; rewrite ?(conv_handle_update_proj e FAVORITES) by reflexivity;
         cbn [callback search_entry compare_entry back_fallback MessageHandler
              CallbackQueryHandler];
         lazymatch goal with
         | |- FAVORITES w = _ => reflexivity
         | |- FAVORITES (snd (?m w)) = _ =>
             let K := fresh "K" in
             assert (K : keeps FAVORITES m) by keeps_tac; exact (K w)
         end).
  apply button_handler_unique. exact Hw.
Qed.

End UniqueFavoritesOfUsers.

(** X21: whatever updates arrive after the start, no identifier is listed
    twice among the favorites of a user: saving one that is there replaces
    its name in place, so the favorites keyboard has one row for it and one
    removal deletes it. *)
Theorem favorites_listed_once (es : list (env * update)) (u : Z) :
  let w := run_polling es initial_world in
  NoDup (map fst (favorites_of w u)) /\
  (forall cid name,
      dict_get (favorites_of w u) cid = Some name ->
      S (length (dict_remove (favorites_of w u) cid)) = length (favorites_of w u)).
Proof.
  cbv zeta.
  cut (NoDup (map fst (favorites_of (run_polling es initial_world) u))).
  { intros Hd. split; [exact Hd | ]. intros cid name. apply dict_remove_length. exact Hd. }
  assert (H : forall w, unique_favorites w -> unique_favorites (run_polling es w)).
  { induction es as [| [e upd] es IH]; intros w Hw; cbn [run_polling]; [exact Hw | ].
    apply IH. apply process_update_unique. exact Hw. }
  assert (H0 : unique_favorites initial_world).
  { intros v favs. cbn. rewrite lookup_empty. discriminate. }
  specialize (H initial_world H0). unfold favorites_of.
  destruct (FAVORITES (run_polling es initial_world) !! u) as [favs|] eqn:E;
    cbn [default from_option id]; [exact (H u favs E) | constructor].
Qed.

(* ===================================================================== *)
(** * The menus                                                            *)
(* ===================================================================== *)

Section Navigation.
Variable e : env.

Lemma startswith_inv (p s : string) :
  startswith s p = true -> exists rest, s = p ++ rest.
Proof.
  revert s. induction p as [|a p IH]; intros s.
  - intros _. exists s. reflexivity.
  - destruct s as [|b s]; [intros H; discriminate H | ].
    change (startswith (String b s) (String a p)) with (Ascii.eqb a b && startswith s p).
    destruct (Ascii.eqb_spec a b) as [-> | Hne]; [ | intros H; discriminate H].
    cbn [andb]. intros H. destruct (IH s H) as [rest ->]. exists rest. reflexivity.
Qed.

Lemma navigation_token_cases data :
  navigation_token data = true ->
  In data ["random"; "examples"; "history"; "favorites"; "help"] \/
  exists rest, data = "category_" ++ rest.
Proof.
  unfold navigation_token. intros H.
  repeat (apply orb_prop in H; destruct H as [H | H]);
    try (apply String.eqb_eq in H; subst data; left; cbn [In]; tauto).
  right. apply startswith_inv. exact H.
Qed.

Lemma navigation_token_patterns data :
  navigation_token data = true ->
  re_match_exact "search" data = false /\
  re_match_exact "compare" data = false /\
  re_match_exact "back_to_menu" data = false.
Proof.
  intros H. destruct (navigation_token_cases data H) as [Hin | [rest ->] ].
  - cbn [In] in Hin.
    repeat (destruct Hin as [<- | Hin]; [repeat split | ]). destruct Hin.
  - repeat split.
Qed.

Lemma button_handler_history_token ch u m :
  button_handler e (CallbackQuery ch u m "history") =
  (let* _ := call e (answer None) in
   let* _ := show_history e (CallbackQuery ch u m "history") in
   ret None).
Proof. reflexivity. Qed.

Lemma button_handler_favorites_token ch u m :
  button_handler e (CallbackQuery ch u m "favorites") =
  (let* _ := call e (answer None) in
   let* _ := show_favorites e (CallbackQuery ch u m "favorites") in
   ret None).
Proof. reflexivity. Qed.

Lemma button_handler_help_token ch u m :
  button_handler e (CallbackQuery ch u m "help") =
  (let* _ := call e (answer None) in
   let* _ := help_command e (CallbackQuery ch u m "help") in
   ret None).
Proof. reflexivity. Qed.

Ltac navigation_keeps H :=
  apply navigation_token_cases in H; destruct H as [H | [rest ->] ];
  [ cbn [In] in H;
    destruct H as [<- | [<- | [<- | [<- | [<- | [] ] ] ] ] ];
    [ rewrite button_handler_random
    | rewrite button_handler_examples
    | rewrite button_handler_history_token
    | rewrite button_handler_favorites_token
    | rewrite button_handler_help_token ]
  | rewrite button_handler_category ];
  keeps_tac.

Lemma navigation_keeps_tables ch u m data :
  navigation_token data = true ->
  let cb := button_handler e (CallbackQuery ch u m data) in
  keeps SEARCH_HISTORY cb /\ keeps FAVORITES cb /\ keeps user_data cb /\
  keeps search_conv cb /\ keeps compare_conv cb.
Proof.
  intros H. cbv zeta.
  split; [ | split; [ | split; [ | split] ] ]; navigation_keeps H.
Qed.

End Navigation.

(** X22: the tokens of the menus ([random], [examples], [history],
    [favorites], [help] and the categories) only show something: whatever
    the lookups and the transport do, they leave the history, the favorites,
    the pending records and both conversations as they are. *)
Theorem navigation_keeps_state (e : env) (ch u m : Z) (data : string) (w : world) :
  navigation_token data = true ->
  let w' := process_update e (CallbackQuery ch u m data) w in
  SEARCH_HISTORY w' = SEARCH_HISTORY w /\
  FAVORITES w' = FAVORITES w /\
  user_data w' = user_data w /\
  search_conv w' = search_conv w /\
  compare_conv w' = compare_conv w.
Proof.
  intros H. cbv zeta.
  destruct (navigation_token_patterns data H) as (P1 & P2 & P3).
  destruct (navigation_keeps_tables e ch u m data H) as (K1 & K2 & K3 & K4 & K5).
  unfold process_update. rewrite (dispatch_to_button e ch u m data w P1 P2 P3).
  rewrite plain_world.
  split; [apply K1 | split; [apply K2 | split; [apply K3 | split; [apply K4 | apply K5] ] ] ].
Qed.

Lemma navigation_keeps_state_witness :
  let w1 := process_update sample_env (CallbackQuery 7 7 99 "compare") initial_world in
  let w2 := process_update sample_env (CallbackQuery 7 7 99 "random") w1 in
  spec_state w2 7 7 = Some AwaitingFirstCompareTerm /\ history_of w2 7 = [].
Proof.
  cbv zeta.
  set (w1 := process_update sample_env (CallbackQuery 7 7 99 "compare") initial_world).
  destruct (navigation_keeps_state sample_env 7 7 99 "random" w1 eq_refl)
    as (H1 & _ & _ & H4 & H5).
  split.
  - apply spec_state_first. rewrite H4, H5. split; reflexivity.
  - unfold history_of. rewrite H1. reflexivity.
Defined.

(* ===================================================================== *)
(** * Similar records                                                      *)
(* ===================================================================== *)

Section Similar.
Variable e : env.
Hypothesis Hok : transport_ok e.

Lemma similar_run ch u m s sim w :
  id_string s = true ->
  PubChemClient.get_similar_compounds e s 5 = sim -> sim <> [] ->
  process_update e (CallbackQuery ch u m ("similar_" ++ s)) w
  = set_outbox
      (outbox w ++
       [(answer None, true);
        (edit_message_text (Text "🧪 Похожие молекулы:")
           (Some (imap (similar_row e) sim
                  ++ [[CallbackButton "↩️ Назад" ("history_" ++ s)]])%list) None, true)]) w.
Proof.
  intros Hs Hsim Hne. unfold process_update.
  rewrite dispatch_to_button by reflexivity.
  rewrite button_handler_similar.
  rewrite (replace_token "s" "imilar_" s) by (reflexivity || exact Hs).
  rewrite Hsim. unfold bind at 1 2. rewrite (call_ok e Hok).
  destruct sim as [|c l]; [congruence | ].
  unfold bind, ret. rewrite (safe_edit_or_reply_ok e Hok).
  cbn [snd outbox set_outbox]. rewrite <- app_assoc.
  unfold similar_keyboard.
  rewrite (replace_token "s" "imilar_" s) by (reflexivity || exact Hs).
  reflexivity.
Qed.

End Similar.

(** X23: the [similar_] token of an identifier with similar records shows
    them as one keyboard: the row of the [i]-th record is numbered [i+1] and
    carries the token that opens that record, and the last row goes back to
    the record the list was asked for.  Nothing else changes. *)
Theorem similar_display (e : env) (ch u m : Z) (s : string) (sim : list pyval) (w : world) :
  transport_ok e ->
  id_string s = true ->
  PubChemClient.get_similar_compounds e s 5 = sim -> sim <> [] ->
  exists rows : list (list button),
    process_update e (CallbackQuery ch u m ("similar_" ++ s)) w
    = set_outbox
        (outbox w ++
         [(answer None, true);
          (edit_message_text (Text "🧪 Похожие молекулы:") (Some rows) None, true)]) w /\
    length rows = S (length sim) /\
    (forall i cid, sim !! i = Some cid ->
       rows !! i = Some [CallbackButton ("Молекула " ++ str_of_int (Z.of_nat i + 1))
                                         ("history_" ++ py_str e cid)]) /\
    rows !! length sim = Some [CallbackButton "↩️ Назад" ("history_" ++ s)].
Proof.
  intros Hok Hs Hsim Hne.
  exists (imap (similar_row e) sim ++ [[CallbackButton "↩️ Назад" ("history_" ++ s)]])%list.
  split; [exact (similar_run e Hok ch u m s sim w Hs Hsim Hne) | ].
  split; [ | split].
  - rewrite length_app, length_imap. cbn [length]. lia.
  - intros i cid Hi.
    rewrite lookup_app_l by (rewrite length_imap; apply lookup_lt_Some in Hi; exact Hi).
    rewrite list_lookup_imap, Hi. reflexivity.
  - apply list_lookup_middle. rewrite length_imap. reflexivity.
Qed.

Lemma similar_display_witness :
  process_update sample_env (CallbackQuery 7 7 99 "similar_2244") initial_world
  = set_outbox
      [(answer None, true);
       (edit_message_text (Text "🧪 Похожие молекулы:")
          (Some [[CallbackButton "Молекула 1" "history_757"];
                 [CallbackButton "↩️ Назад" "history_2244"]]) None, true)] initial_world.
Proof.
  assert (Hne : [PyInt 757] <> []) by discriminate.
  destruct (similar_display sample_env 7 7 99 "2244" [PyInt 757] initial_world
              (fun n c => eq_refl) eq_refl eq_refl Hne) as (rows & Hrun & Hlen & Hrow & Hback).
  change ("similar_" ++ "2244") with "similar_2244" in Hrun. rewrite Hrun.
  specialize (Hrow 0%nat (PyInt 757) eq_refl). cbn [length] in Hlen, Hback.
  destruct rows as [|r0 [|r1 [|r2 rows] ] ]; try discriminate Hlen.
  cbn in Hrow, Hback. injection Hrow as ->. injection Hback as ->. reflexivity.
Defined.

(* ===================================================================== *)
(** * Finding a record again by its identifier                             *)
(* ===================================================================== *)

Section FoundAgain.
Variable e : env.

(** Where the fields of a returned record come from. *)
Lemma search_compound_source (q : pyval) (by_cid : bool) (r : compound) :
  PubChemClient.search_compound e q by_cid = Some r ->
  exists c,
    cid_record e (py_str e (CID r)) = Some c /\
    MolecularFormula r = PubChemClient.get_default (atoms_fstring c) "N/A" /\
    MolecularWeight r = match coords_weight c with Some w => w | None => PyStr "N/A" end /\
    IUPACName r = PubChemClient.get_default (props c !! "IUPAC Name") "N/A" /\
    CanonicalSMILES r = PubChemClient.get_default (props c !! "SMILES") "N/A" /\
    InChIKey r = PubChemClient.get_default (props c !! "InChIKey") "N/A" /\
    image_url r
    = PubChemClient.BASE_URL ++ "/compound/cid/" ++ py_str e (CID r) ++ "/PNG" /\
    pubchem_url r = "https://pubchem.ncbi.nlm.nih.gov/compound/" ++ py_str e (CID r).
Proof.
  unfold PubChemClient.search_compound. intros H.
  destruct (if by_cid then Some q else name_cids e (py_str e q)) as [cid|];
    [ | discriminate H].
  destruct (cid_record e (py_str e cid)) as [c|] eqn:Ec; [ | discriminate H].
  injection H as <-. exists c. cbn. repeat split. exact Ec.
Qed.

(** The search by the text of an identifier. *)
Lemma search_by_identifier_text (s : string) (c : pc_compound) :
  cid_record e s = Some c ->
  exists r',
    PubChemClient.search_compound e (PyStr s) true = Some r' /\
    CID r' = PyStr s /\
    Name r' = PubChemClient.get_default (props c !! "IUPAC Name") ("CID " ++ s).
Proof.
  intros Hc. unfold PubChemClient.search_compound. cbn [py_str]. rewrite Hc.
  eexists. split; [reflexivity | split; reflexivity].
Qed.

End FoundAgain.

(** X24: a record that a search returned, by name or by identifier, is
    found again by the text of its identifier, which is what the history,
    favorites and similar tokens ask for: the record has the same data, and
    its name is the IUPAC name, or [CID <id>] when PubChem gives none. *)
Theorem found_again_by_identifier (e : env) (q : pyval) (by_cid : bool) (r : compound) :
  PubChemClient.search_compound e q by_cid = Some r ->
  exists r',
    PubChemClient.search_compound e (PyStr (py_str e (CID r))) true = Some r' /\
    same_compound e r r' /\
    (Name r' = IUPACName r \/
     (IUPACName r = "N/A" /\ Name r' = "CID " ++ py_str e (CID r))).
Proof.
  intros Hr.
  destruct (search_compound_source e q by_cid r Hr)
    as (c & Hc & Hf & Hw & Hi & Hs & Hk & Himg & Hurl).
  destruct (search_by_identifier_text e (py_str e (CID r)) c Hc) as (r' & Hr' & Hcid & Hname).
  exists r'. split; [exact Hr' | ].
  destruct (search_compound_source e _ true r' Hr')
    as (c' & Hc' & Hf' & Hw' & Hi' & Hs' & Hk' & Himg' & Hurl').
  rewrite Hcid in Hc', Himg', Hurl'. cbn [py_str] in Hc', Himg', Hurl'.
  assert (c' = c) by congruence. subst c'.
  split.
  - unfold same_compound. rewrite Hcid. cbn [py_str].
    repeat split; congruence.
  - rewrite Hname, Hi. unfold PubChemClient.get_default.
    destruct (props c !! "IUPAC Name"); [left; reflexivity | right; split; reflexivity].
Qed.

Lemma found_again_by_identifier_witness :
  exists r r',
    PubChemClient.search_compound sample_env (PyStr "aspirin") false = Some r /\
    PubChemClient.search_compound sample_env (PyStr "2244") true = Some r' /\
    Name r = "aspirin" /\ Name r' = "2-acetyloxybenzoic acid" /\
    MolecularWeight r' = MolecularWeight r.
Proof.
  destruct (PubChemClient.search_compound sample_env (PyStr "aspirin") false)
    as [r|] eqn:Hr; [ | vm_compute in Hr; discriminate Hr].
  destruct (found_again_by_identifier sample_env (PyStr "aspirin") false r Hr)
    as (r' & Hr' & Hsame & Hname).
  exists r, r'.
  assert (Hcid : py_str sample_env (CID r) = "2244" /\ Name r = "aspirin" /\
                 IUPACName r = "2-acetyloxybenzoic acid").
  { vm_compute in Hr. injection Hr as <-. repeat split. }
  destruct Hcid as (Hcid & Hn & Hi). rewrite Hcid in Hr'.
  split; [reflexivity | split; [exact Hr' | split; [exact Hn | split] ] ].
  - destruct Hname as [-> | [Hna _] ]; [exact Hi | ].
    rewrite Hi in Hna. discriminate Hna.
  - destruct Hsame as (_ & _ & Hw & _). exact Hw.
Defined.

(* ===================================================================== *)
(** * Editing, or else replying                                            *)
(* ===================================================================== *)

(** X25: [safe_edit_or_reply] edits the message under the button; only when
    that fails it sends the same text, keyboard and parse mode as a new
    message.  The content is delivered at most once, and the call returns
    normally exactly when it was delivered. *)
Theorem edit_or_else_reply (e : env) (q : Z) (text : text_arg)
    (markup : option keyboard) (pm : option string) (w : world) :
  exists log,
    snd (safe_edit_or_reply e (Some q) text markup pm w) = set_outbox (outbox w ++ log) w /\
    (log = [(edit_message_text text markup pm, true)] \/
     exists ok, log = [(edit_message_text text markup pm, false);
                       (reply_text text markup pm, ok)]) /\
    (delivered log <= 1)%nat /\
    (fst (safe_edit_or_reply e (Some q) text markup pm w) = Ok tt <-> delivered log = 1%nat).
Proof.
  unfold safe_edit_or_reply.
  destruct (try_call_call e (edit_message_text text markup pm)
              (reply_text text markup pm) w) as (log & Hrun & Hlog).
  exists log. rewrite Hrun. cbn [fst snd].
  split; [reflexivity | split; [exact Hlog | ] ].
  assert (Hiff : forall n : nat,
             (if Nat.eqb n 1 then Ok tt else @Raise unit) = Ok tt <-> n = 1%nat).
  { intros n. destruct (Nat.eqb_spec n 1) as [-> | Hn]; split; congruence. }
  split; [ | apply Hiff].
  destruct Hlog as [-> | [ok ->] ]; [cbn; lia | destruct ok; cbn; lia].
Qed.

(* ===================================================================== *)
(** * The save button of a shown record                                    *)
(* ===================================================================== *)

(** X26: the picture of a record with an integer identifier carries the
    tokens [similar_<id>] and [save_<id>].  The save token, pressed, stores
    the record under the text of its identifier with the name of the search
    by identifier: the IUPAC name, or [CID <id>] when there is none, and not
    the text that the user typed to find it. *)
Theorem save_button_stores_iupac_name (e : env) (ch u m : Z) (q : pyval) (by_cid : bool)
    (r : compound) (n : Z) (w : world) :
  transport_ok e ->
  PubChemClient.search_compound e q by_cid = Some r ->
  CID r = PyInt n ->
  molecule_keyboard e r
  = [ [UrlButton "📊 PubChem" (pubchem_url r);
       CallbackButton "🧪 Похожие" ("similar_" ++ str_of_int n)];
      [CallbackButton "💾 Сохранить" ("save_" ++ str_of_int n);
       CallbackButton "↩️ Меню" "back_to_menu"] ] /\
  let w' := process_update e (CallbackQuery ch u m ("save_" ++ str_of_int n)) w in
  (dict_get (favorites_of w' u) (str_of_int n) = Some (IUPACName r) \/
   (IUPACName r = "N/A" /\
    dict_get (favorites_of w' u) (str_of_int n) = Some ("CID " ++ str_of_int n))).
Proof.
  intros Hok Hr Hcid. split.
  - unfold molecule_keyboard. rewrite Hcid. reflexivity.
  - cbv zeta.
    destruct (search_compound_source e q by_cid r Hr) as (c & Hc & _ & _ & Hi & _).
    rewrite Hcid in Hc. cbn [py_str] in Hc.
    destruct (search_by_identifier_text e (str_of_int n) c Hc) as (r' & Hr' & _ & Hname).
    unfold favorites_of.
    rewrite (save_token_effect e Hok ch u m (str_of_int n) w (id_string_str_of_int n)).
    rewrite Hr'. unfold add_favorite. rewrite lookup_insert_eq.
    cbn [default from_option id]. rewrite dict_get_set, Hname, Hi.
    unfold PubChemClient.get_default.
    destruct (props c !! "IUPAC Name");
      [left; reflexivity | right; split; reflexivity].
Qed.

Lemma save_button_stores_iupac_name_witness :
  let w1 := process_update sample_env (TextMessage 7 7 "aspirin") initial_world in
  let w2 := process_update sample_env (CallbackQuery 7 7 99 "save_2244") w1 in
  map item_name (history_of w1 7) = ["aspirin"] /\
  dict_get (favorites_of w2 7) "2244" = Some "2-acetyloxybenzoic acid".
Proof.
  cbv zeta.
  set (w1 := process_update sample_env (TextMessage 7 7 "aspirin") initial_world).
  destruct (PubChemClient.search_compound sample_env (PyStr "aspirin") false)
    as [r|] eqn:Hr; [ | vm_compute in Hr; discriminate Hr].
  assert (Hf : CID r = PyInt 2244 /\ IUPACName r = "2-acetyloxybenzoic acid").
  { vm_compute in Hr. injection Hr as <-. split; reflexivity. }
  destruct Hf as [Hcid Hi].
  destruct (save_button_stores_iupac_name sample_env 7 7 99 (PyStr "aspirin") false r 2244 w1
              (fun n c => eq_refl) Hr Hcid) as [_ Hsave].
  split; [vm_compute; reflexivity | ].
  cbv zeta in Hsave. change ("save_" ++ str_of_int 2244) with "save_2244" in Hsave.
  change (str_of_int 2244) with "2244" in Hsave.
  destruct Hsave as [H | [Hna _] ]; [rewrite H, Hi; reflexivity | ].
  rewrite Hi in Hna. discriminate Hna.
Defined.
